(** * mayfly-go: the MSSQL and MySQL dialect drivers

    A shallow embedding of the two dialect drivers of
    [src/server/internal/sys/infrastructure/persistence/account_repo.go]
    (Go packages [mssql] and [mysql]): metadata introspection, index folding,
    primary-key resolution, batch loading with its three duplicate
    strategies, DDL synthesis for MySQL and the data converters.

    Go strings are byte strings and are modelled by [string]; [int] and
    [int64] values are modelled by [Z]; slices by [list]; maps by [gmap].
    The database connection is state that every call threads through, and a
    Go panic (an index out of range) is an outcome of its own.

    Beside the drivers the file embeds the account repository of package
    [persistence] (same source file) and the tag handlers of
    [src/server/internal/tag/api/tag_tree.go]. *)

From Stdlib Require Import ZArith Ascii String Lia.
From stdpp Require Import gmap strings list sorting.

Local Open Scope Z_scope.

(** ** The Go [strings] package, as far as the drivers use it *)

(** [strings.Join(elems, sep)] *)
Fixpoint strings_Join (elems : list string) (sep : string) : string :=
  match elems with
  | [] => ""
  | [e] => e
  | e :: rest => e +:+ sep +:+ strings_Join rest sep
  end.

(** [strings.Repeat(s, count)]; the drivers only pass a [len(...)]. *)
Fixpoint strings_Repeat (s : string) (count : nat) : string :=
  match count with
  | O => ""
  | S n => s +:+ strings_Repeat s n
  end.

(** [strings.HasPrefix(s, prefix)] *)
Definition strings_HasPrefix (s prefix : string) : bool := String.prefix prefix s.

(** [strings.TrimSuffix(s, suffix)]: [s] without the trailing [suffix], or
    [s] itself when it does not end with it. The remainder of [s] equals
    [suffix] at exactly one position, the one where the suffix starts. *)
Fixpoint strings_TrimSuffix (s suffix : string) : string :=
  if String.eqb s suffix then ""
  else match s with
       | EmptyString => ""
       | String c s' => String c (strings_TrimSuffix s' suffix)
       end.

(** [strings.Contains(s, substr)] *)
Fixpoint strings_Contains (s substr : string) : bool :=
  String.prefix substr s
  || match s with
     | EmptyString => false
     | String _ s' => strings_Contains s' substr
     end.

(** The scanning loop shared by [Split] and [ReplaceAll]: [skip] counts the
    bytes of an already matched separator that are still to be passed. *)
Fixpoint split_scan (sep s : string) (skip : nat) (cur : string) : list string :=
  match s with
  | EmptyString => [cur]
  | String c s' =>
      match skip with
      | S k => split_scan sep s' k cur
      | O =>
          if String.prefix sep s
          then cur :: split_scan sep s' (String.length sep - 1) ""
          else split_scan sep s' 0 (cur +:+ String c "")
      end
  end.

(** [strings.Split(s, sep)]. With an empty separator Go splits after every
    UTF-8 sequence; the drivers only split on ["/"] and [","], and the empty
    separator is modelled bytewise. *)
Definition strings_Split (s sep : string) : list string :=
  match sep with
  | EmptyString => (λ c, String c "") <$> list_ascii_of_string s
  | _ => split_scan sep s 0 ""
  end.

(** [strings.ReplaceAll(s, old, new)]: the non-overlapping occurrences of
    [old], left to right. With an empty [old] Go inserts [new] before every
    rune and at the end (bytewise here). *)
Definition strings_ReplaceAll (s old new : string) : string :=
  match old with
  | EmptyString =>
      new +:+ strings_Join ((λ c, String c "") <$> list_ascii_of_string s) new
          +:+ (if String.eqb s "" then "" else new)
  | _ => strings_Join (split_scan old s 0 "") new
  end.

Definition ascii_lower (c : ascii) : ascii :=
  let n := nat_of_ascii c in
  if (65 <=? n)%nat && (n <=? 90)%nat then ascii_of_nat (n + 32) else c.

Definition ascii_upper (c : ascii) : ascii :=
  let n := nat_of_ascii c in
  if (97 <=? n)%nat && (n <=? 122)%nat then ascii_of_nat (n - 32) else c.

Fixpoint string_map (f : ascii → ascii) (s : string) : string :=
  match s with
  | EmptyString => EmptyString
  | String c s' => String (f c) (string_map f s')
  end.

(** Every byte of the string is below [utf8.RuneSelf]. *)
Definition isASCII (s : string) : bool :=
  forallb (λ c, (nat_of_ascii c <? 128)%nat) (list_ascii_of_string s).

(** [strings.NewReplacer(oldnew...).Replace(s)]: at each position the pairs
    are tried in argument order, matches do not overlap. *)
Fixpoint replacer_find (pairs : list (string * string)) (s : string)
  : option (string * string) :=
  match pairs with
  | [] => None
  | (old, new) :: rest =>
      if String.prefix old s then Some (old, new) else replacer_find rest s
  end.

Fixpoint replacer_scan (pairs : list (string * string)) (s : string) (skip : nat)
  : string :=
  match s with
  | EmptyString => ""
  | String c s' =>
      match skip with
      | S k => replacer_scan pairs s' k
      | O =>
          match replacer_find pairs s with
          | Some (old, new) =>
              new +:+ replacer_scan pairs s' (String.length old - 1)
          | None => String c (replacer_scan pairs s' 0)
          end
      end
  end.

Definition strings_Replacer_Replace (pairs : list (string * string)) (s : string)
  : string := replacer_scan pairs s 0.

(** ** Values, errors and the connection *)

(** [time.Time]: the wall clock reading and the zone offset in seconds. *)
Record time_Time := mkTime {
  tYear : Z; tMonth : Z; tDay : Z;
  tHour : Z; tMinute : Z; tSecond : Z; tNanosecond : Z;
  tOffset : Z
}.

(** The zero value [time.Time{}]: January 1, year 1, 00:00:00 UTC. *)
Definition time_zero : time_Time := mkTime 1 1 1 0 0 0 0 0.

(** The layouts of package [time] that the converters pass to [time.Parse]. *)
Definition time_RFC3339 : string := "2006-01-02T15:04:05Z07:00".
Definition time_DateTime : string := "2006-01-02 15:04:05".
Definition time_DateOnly : string := "2006-01-02".
Definition time_TimeOnly : string := "15:04:05".

(** Go's [any]: the dynamic types that column values and bound arguments
    take. *)
Inductive any : Type :=
| AnyNil
| AnyString (s : string)
| AnyInt (n : Z)
| AnyBool (b : bool)
| AnyTime (t : time_Time).

(** The type assertion [v.(string)], its flag only. *)
Definition isString (v : any) : bool :=
  match v with AnyString _ => true | _ => false end.

(** A non-nil Go [error]: a business error of [errorx.NewBiz], or any other
    error (of the driver, of [errors.New]). [err.Error()] is its text. *)
Inductive err : Type :=
| errorx_NewBiz (msg : string)
| errors_New (msg : string).

(** Go's [error] interface value; [None] is [nil]. *)
Abbreviation error := (option err).

Definition err_Error (e : err) : string :=
  match e with errorx_NewBiz m => m | errors_New m => m end.

(** A result row, [map[string]any]; reading a missing key gives [nil]. *)
Abbreviation Row := (gmap string any).

Definition row_get (re : Row) (key : string) : any := default AnyNil (re !! key).

(** What a call does to the outside: statements sent through the connection
    and lines written by [logx.Errorf]. *)
Inductive Event : Type :=
| EvQuery (sql : string) (args : list any)
| EvTxExec (sql : string) (args : list any)
| EvLogError (msg : string).

(** A Go run-time panic. *)
Inductive panic : Type :=
| IndexOutOfRange (i : Z) (len : nat).

Inductive Outcome (A : Type) : Type :=
| Ret (a : A)
| Panic (p : panic).
Arguments Ret {A} a.
Arguments Panic {A} p.

(** The connection [*dbi.DbConn] borrowed by a dialect. Package [dbi] is not
    part of the sources at hand, so the connection is an interface: a
    database state of any type [DB], the two statement entry points as
    transitions on it, and the identifier helpers of the connection's
    database type. The [*sql.Tx] handle that [TxExec] receives is part of the
    state. [Query] also returns the column descriptions, which every caller
    here discards. *)
Class DbConn (DB : Type) := {
  dcQuery : string → list any → DB → (list Row * error) * DB;
  dcTxExec : string → list any → DB → (Z * error) * DB;
  InfoDatabase : string;
  QuoteIdentifier : string → string;
  RemoveQuote : string → string
}.

(** Helpers of packages outside the sources at hand ([anyx], [cast], [collx],
    [stringx], [dbi.GetLocalSql]) and of the Go library ([time.Parse],
    [fmt.Sprintf] on a template read from a file, and the case mappings
    [strings.Map(unicode.ToLower, s)] and [strings.Map(unicode.ToUpper, s)]
    of the runes of a string). *)
Class Helpers := {
  anyx_ConvString : any → string;
  anyx_ToString : any → string;
  anyx_ConvInt : any → Z;
  anyx_ConvInt64 : any → Z;
  cast_ToString : any → string;
  cast_ToInt : any → Z;
  cast_ToInt64 : any → Z;
  collx_ArrayContains : list string → string → bool;
  collx_ArrayMap : list string → (string → string) → list string;
  collx_ArrayAnyMatches : list string → string → bool;
  dbi_GetLocalSql : string → string → string;
  fmt_Sprintf : string → list string → string;
  stringx_TemplateParse : string → string → string * error;
  time_Parse : string → string → time_Time * error;
  unicode_ToLower : string → string;
  unicode_ToUpper : string → string
}.

(** [strings.ToLower] and [strings.ToUpper]: a string of ASCII bytes has its
    ASCII letters mapped byte by byte; a string with a byte outside ASCII
    goes through the mapping of its runes. *)
Section CaseMapping.
Context `{!Helpers}.

Definition strings_ToLower (s : string) : string :=
  if isASCII s then string_map ascii_lower s else unicode_ToLower s.

Definition strings_ToUpper (s : string) : string :=
  if isASCII s then string_map ascii_upper s else unicode_ToUpper s.
End CaseMapping.

Record World (DB : Type) := mkWorld {
  wdb : DB;
  wtrace : list Event
}.
Arguments mkWorld {DB} _ _.
Arguments wdb {DB} _.
Arguments wtrace {DB} _.

(** Computations of a dialect: they read and change the world and either
    return or panic. *)
Definition M (DB A : Type) : Type := World DB → Outcome A * World DB.

Global Instance M_ret {DB} : MRet (M DB) := λ A a w, (Ret a, w).

Global Instance M_bind {DB} : MBind (M DB) := λ A B k m w,
  match m w with
  | (Ret a, w') => k a w'
  | (Panic p, w') => (Panic p, w')
  end.

Definition raise {DB A} (p : panic) : M DB A := λ w, (Panic p, w).

Section Effects.
Context {DB : Type} `{!DbConn DB}.

Definition emit (e : Event) : M DB unit :=
  λ w, (Ret tt, mkWorld (wdb w) (wtrace w ++ [e])).

(** [md.dc.Query(sql, args...)], the column descriptions dropped. *)
Definition dc_Query (sql : string) (args : list any) : M DB (list Row * error) :=
  λ w, let '(r, db') := dcQuery sql args (wdb w) in
       (Ret r, mkWorld db' (wtrace w ++ [EvQuery sql args])).

(** [md.dc.TxExec(tx, sql, args...)] *)
Definition dc_TxExec (sql : string) (args : list any) : M DB (Z * error) :=
  λ w, let '(r, db') := dcTxExec sql args (wdb w) in
       (Ret r, mkWorld db' (wtrace w ++ [EvTxExec sql args])).

(** [logx.Errorf], the message already formatted. *)
Definition logx_Errorf (msg : string) : M DB unit := emit (EvLogError msg).

(** [s[i]] on a slice: a panic outside the bounds. *)
Definition slice_index {A} (s : list A) (i : Z) : M DB A :=
  if (0 <=? i) then
    match s !! Z.to_nat i with
    | Some x => mret x
    | None => raise (IndexOutOfRange i (length s))
    end
  else raise (IndexOutOfRange i (length s)).
End Effects.

(** ** Package [dbi]: the records and constants the drivers use *)

(** [dbi.Index] *)
Record Index := mkIndex {
  IndexName : string;
  IndexColumnName : string;
  IndexType : string;
  IndexComment : string;
  IsUnique : bool;
  SeqInIndex : Z
}.

(** [dbi.Table] *)
Record Table := mkTable {
  TableName : string;
  TableComment : string;
  CreateTime : string;
  TableRows : Z;
  DataLength : Z;
  IndexLength : Z
}.

(** The constants [dbi.DuplicateStrategyNone], [dbi.DuplicateStrategyIgnore]
    and [dbi.DuplicateStrategyUpdate]: Go [int]s declared in package [dbi],
    whose values are not among the sources. *)
Class DuplicateStrategies := {
  DuplicateStrategyNone : Z;
  DuplicateStrategyIgnore : Z;
  DuplicateStrategyUpdate : Z
}.

(** The three strategies are three values. *)
Definition strategiesDistinct `{!DuplicateStrategies} : Prop :=
  DuplicateStrategyNone ≠ DuplicateStrategyIgnore
  ∧ DuplicateStrategyNone ≠ DuplicateStrategyUpdate
  ∧ DuplicateStrategyIgnore ≠ DuplicateStrategyUpdate.

(** Modelled from the spec: the coarse kinds [dbi.DataType] of the data
    converter (number, datetime, date, time, string). *)
Inductive DataType : Type :=
| DataTypeString
| DataTypeNumber
| DataTypeDate
| DataTypeTime
| DataTypeDateTime.

Global Instance DataType_eq_dec : EqDecision DataType.
Proof. solve_decision. Defined.

(** [dbi.DbServer] *)
Record DbServer := mkDbServer {
  Version : string
}.

(** The tab and the backslash of the Go literals. *)
Definition tab : string := String (ascii_of_nat 9) "".
Definition backslash : string := String (ascii_of_nat 92) "".

(** The line feed of the Go literals ["\n"]. *)
Definition nl : string := String (ascii_of_nat 10) "".

(** ** Package [regexp], for the patterns of the converters *)

(** The patterns of the converters are alternations of lower-case ASCII
    words under the flag [(?i)]. A letter of a word matches the rune of the
    subject that folds to it: the letter in either case and, for [s] and [k],
    the long s (bytes 197 191) and the Kelvin sign (bytes 226 132 170), the
    other members of their folding orbits. [foldsTo p s] is the rest of [s]
    after such a rune. *)
Definition foldsTo (p : ascii) (s : string) : option string :=
  match s with
  | EmptyString => None
  | String x s' =>
      if Ascii.eqb (ascii_lower x) p then Some s'
      else if Ascii.eqb p "s" then
        match s with
        | String "197" (String "191" r) => Some r
        | _ => None
        end
      else if Ascii.eqb p "k" then
        match s with
        | String "226" (String "132" (String "170" r)) => Some r
        | _ => None
        end
      else None
  end.

(** The word matches at the start of the subject. *)
Fixpoint wordAt (word s : string) : bool :=
  match word with
  | EmptyString => true
  | String p word' =>
      match foldsTo p s with
      | Some r => wordAt word' r
      | None => false
      end
  end.

(** [re.MatchString(s)] for the alternation of [words]: one of them matches
    somewhere in [s]. *)
Fixpoint regexp_MatchString (words : list string) (s : string) : bool :=
  existsb (λ word, wordAt word s) words
  || match s with
     | EmptyString => false
     | String _ s' => regexp_MatchString words s'
     end.

(** The patterns [numberRegexp], [datetimeRegexp], [dateRegexp] and
    [timeRegexp], the same in both packages. *)
Definition numberRegexp : list string :=
  ["int"; "double"; "float"; "number"; "decimal"; "byte"; "bit"].
Definition datetimeRegexp : list string := ["datetime"; "timestamp"].
Definition dateRegexp : list string := ["date"].
Definition timeRegexp : list string := ["time"].

(** ** Package [mssql] *)

Module Mssql.

Definition MSSQL_META_FILE : string := "metasql/mssql_meta.sql".
Definition MSSQL_TABLE_INFO_KEY : string := "MSSQL_TABLE_INFO".
Definition MSSQL_INDEX_INFO_KEY : string := "MSSQL_INDEX_INFO".
Definition MSSQL_COLUMN_MA_KEY : string := "MSSQL_COLUMN_MA".

(** [dbi.Column] with the fields this driver fills. *)
Record Column := mkColumn {
  ColTableName : string;
  ColumnName : string;
  ColumnType : string;
  ColumnComment : string;
  Nullable : string;
  IsPrimaryKey : bool;
  IsIdentity : bool;
  ColumnDefault : string;
  NumScale : string
}.

Section Dialect.
Context {DB : Type} `{!DbConn DB} `{!Helpers} `{!DuplicateStrategies}.

(** [currentSchema]: the schema is the second of the two parts of
    ["database/schema"], and empty otherwise. *)
Definition currentSchema : string :=
  let dbName := InfoDatabase in
  let arr := strings_Split dbName "/" in
  if bool_decide (length arr = 2%nat) then nth 1 arr "" else "".

Definition columnOfRow (re : Row) : Column := {|
  ColTableName := anyx_ToString (row_get re "TABLE_NAME");
  ColumnName := anyx_ToString (row_get re "COLUMN_NAME");
  ColumnType := anyx_ToString (row_get re "COLUMN_TYPE");
  ColumnComment := anyx_ToString (row_get re "COLUMN_COMMENT");
  Nullable := anyx_ToString (row_get re "NULLABLE");
  IsPrimaryKey := bool_decide (anyx_ConvInt (row_get re "IS_PRIMARY_KEY") = 1);
  IsIdentity := bool_decide (anyx_ConvInt (row_get re "IS_IDENTITY") = 1);
  ColumnDefault := anyx_ToString (row_get re "COLUMN_DEFAULT");
  NumScale := anyx_ToString (row_get re "NUM_SCALE")
|}.

(** [GetColumns] *)
Definition GetColumns (tableNames : list string) : M DB (list Column * error) :=
  let tableName :=
    strings_Join
      (collx_ArrayMap tableNames (λ val, "'" +:+ RemoveQuote val +:+ "'")) "," in
  '(res, err) ← dc_Query
      (fmt_Sprintf (dbi_GetLocalSql MSSQL_META_FILE MSSQL_COLUMN_MA_KEY) [tableName])
      [AnyString currentSchema];
  match err with
  | Some _ => mret ([], err)
  | None => mret (columnOfRow <$> res, None)
  end.

(** The [for _, v := range columns] of [GetPrimaryKey], which returns at
    the first column flagged primary key. *)
Fixpoint firstPrimaryKey (columns : list Column) : option string :=
  match columns with
  | [] => None
  | v :: rest => if IsPrimaryKey v then Some (ColumnName v) else firstPrimaryKey rest
  end.

(** [GetPrimaryKey] *)
Definition GetPrimaryKey (tablename : string) : M DB (string * error) :=
  '(columns, err) ← GetColumns [tablename];
  match err with
  | Some _ => mret ("", err)
  | None =>
      if bool_decide (length columns = 0%nat)
      then mret ("", Some (errorx_NewBiz ("[" +:+ tablename +:+ "] 表不存在")))
      else
        match firstPrimaryKey columns with
        | Some name => mret (name, None)
        | None => c ← slice_index columns 0; mret (ColumnName c, None)
        end
  end.

Definition indexOfRow (re : Row) : Index := {|
  IndexName := anyx_ConvString (row_get re "indexName");
  IndexColumnName := anyx_ConvString (row_get re "columnName");
  IndexType := anyx_ConvString (row_get re "indexType");
  IndexComment := anyx_ConvString (row_get re "indexComment");
  IsUnique := bool_decide (anyx_ConvInt (row_get re "isUnique") = 1);
  SeqInIndex := anyx_ConvInt (row_get re "seqInIndex")
|}.

(** The grouping loop of [getTableIndexWithPK]: [key] is the name of the
    index being collected, and a row of the same name is joined onto the
    last entry of [result]. *)
Fixpoint groupLoop (indexs : list Index) (key : string) (result : list Index)
  : M DB (list Index) :=
  match indexs with
  | [] => mret result
  | v :: rest =>
      let in_ := IndexName v in
      if String.eqb key in_ then
        let i := Z.of_nat (length result) - 1 in
        r ← slice_index result i;
        groupLoop rest key
          (<[Z.to_nat i := mkIndex (IndexName r)
                             (IndexColumnName r +:+ "," +:+ IndexColumnName v)
                             (IndexType r) (IndexComment r) (IsUnique r)
                             (SeqInIndex r)]> result)
      else groupLoop rest in_ (result ++ [v])
  end.

(** [getTableIndexWithPK]: the loop fills [result], and the function
    returns [indexs]. *)
Definition getTableIndexWithPK (tableName : string) : M DB (list Index * error) :=
  '(res, err) ← dc_Query (dbi_GetLocalSql MSSQL_META_FILE MSSQL_INDEX_INFO_KEY)
                         [AnyString currentSchema; AnyString tableName];
  match err with
  | Some _ => mret ([], err)
  | None =>
      let indexs := indexOfRow <$> res in
      result ← groupLoop indexs "" [];
      mret (indexs, None)
  end.

(** The filter loop of [GetTableIndex]: a primary-key index is passed
    over, and no other branch touches [result]. *)
Fixpoint filterLoop (indexs : list Index) (result : list Index) : list Index :=
  match indexs with
  | [] => result
  | v :: rest =>
      let in_ := IndexName v in
      if strings_HasPrefix in_ "PK__" then filterLoop rest result
      else filterLoop rest result
  end.

(** [GetTableIndex] *)
Definition GetTableIndex (tableName : string) : M DB (list Index * error) :=
  '(indexs, _) ← getTableIndexWithPK tableName;
  let result := filterLoop indexs [] in
  mret (result, None).

(** The column collection of the Ignore strategy: the columns of the
    unique indexes, each once, in order of appearance. *)
Definition addUniqueColumns (uniqueColumns : list string) (index : Index)
  : list string :=
  if IsUnique index then
    let cols := strings_Split (IndexColumnName index) "," in
    fold_left
      (λ acc col, if negb (collx_ArrayContains acc col) then acc ++ [col] else acc)
      cols uniqueColumns
  else uniqueColumns.

Definition collectUniqueColumns (indexs : list Index) : list string :=
  fold_left addUniqueColumns indexs [].

(** The two statements of the Ignore strategy come from one template. *)
Definition ignoreDupTemplate (schema tableName : string) (uniqueColumns : list string)
  : string :=
  "ALTER TABLE " +:+ schema +:+ "." +:+ tableName
    +:+ " ADD CONSTRAINT uniqueRows UNIQUE (" +:+ strings_Join uniqueColumns ","
    +:+ ") WITH (IGNORE_DUP_KEY = {sign})".

(** The placeholder text: [(?,?)] for a row, the rows comma-separated. *)
Definition placeholders (columns : list string) (values : list (list any)) : string :=
  let repeated := strings_Repeat "?," (length columns) in
  let placeholder := "(" +:+ strings_TrimSuffix repeated "," +:+ ")" in
  let repeated := strings_Repeat (placeholder +:+ ",") (length values) in
  strings_TrimSuffix repeated ",".

Definition insertSql (schema tableName : string) (columns : list string)
    (values : list (list any)) : string :=
  let baseTable := QuoteIdentifier schema +:+ "." +:+ QuoteIdentifier tableName in
  "insert into " +:+ baseTable +:+ " (" +:+ strings_Join columns ","
    +:+ ") values " +:+ placeholders columns values.

Definition identityInsertOn (schema tableName : string) : string :=
  "SET IDENTITY_INSERT [" +:+ schema +:+ "].[" +:+ tableName +:+ "] ON".

(** [batchInsertSimple] *)
Definition batchInsertSimple (tableName : string) (columns : list string)
    (values : list (list any)) (duplicateStrategy : Z) : M DB (Z * error) :=
  let schema := currentSchema in
  ignoreDupSql ←
    (if bool_decide (duplicateStrategy = DuplicateStrategyIgnore) then
       '(indexs, _) ← getTableIndexWithPK tableName;
       let uniqueColumns := collectUniqueColumns indexs in
       if bool_decide (0 < length uniqueColumns)%nat then
         let ignoreDupSql := ignoreDupTemplate schema tableName uniqueColumns in
         dc_TxExec (strings_ReplaceAll ignoreDupSql "{sign}" "ON") [];;
         mret ignoreDupSql
       else mret ""
     else mret "");
  let sqlStr := insertSql schema tableName columns values in
  let args := concat values in
  '(res, err) ← dc_TxExec (identityInsertOn schema tableName +:+ " " +:+ sqlStr) args;
  (if negb (String.eqb ignoreDupSql "")
   then dc_TxExec (strings_ReplaceAll ignoreDupSql "{sign}" "OFF") [];; mret tt
   else mret tt);;
  mret (res, err).

(** The scan of the table's columns in [batchInsertMerge]: the identity
    columns, the primary-key columns and the [ON] conditions. *)
Definition mergeScan (cols : list Column)
  : list string * list string * list string :=
  fold_left
    (λ '(identityCols, pkCols, caseSqls) col,
       let identityCols :=
         if IsIdentity col then identityCols ++ [ColumnName col] else identityCols in
       if IsPrimaryKey col then
         let name := QuoteIdentifier (ColumnName col) in
         (identityCols, pkCols ++ [ColumnName col],
          caseSqls ++ [" T1." +:+ name +:+ " = T2." +:+ name +:+ " "])
       else (identityCols, pkCols, caseSqls))
    cols ([], [], []).

(** The [MERGE] statement of [batchInsertMerge], [sqlTemp]. *)
Definition mergeSql (schema tableName : string) (columns : list string)
    (values : list (list any)) (identityCols caseSqls : list string) : string :=
  let upds :=
    (λ column, "T1." +:+ column +:+ " = T2." +:+ column)
      <$> filter (λ column, negb (collx_ArrayContains identityCols (RemoveQuote column)))
            columns in
  let insertCols := columns in
  let insertVals := (λ column, "T2." +:+ column) <$> columns in
  let phs := (λ column, "? " +:+ column) <$> columns in
  let tmp := "select " +:+ strings_Join phs "," in
  let t2s := (λ _, tmp) <$> values in
  let t2 := strings_Join t2s " UNION ALL " in
  let sqlTemp :=
    "MERGE INTO " +:+ QuoteIdentifier schema +:+ "." +:+ QuoteIdentifier tableName
      +:+ " T1 USING (" +:+ t2 +:+ ") T2 ON " +:+ strings_Join caseSqls " AND " in
  let sqlTemp :=
    sqlTemp +:+ "WHEN NOT MATCHED THEN INSERT (" +:+ strings_Join insertCols ","
      +:+ ") VALUES (" +:+ strings_Join insertVals "," +:+ ") " in
  sqlTemp +:+ "WHEN MATCHED THEN UPDATE SET " +:+ strings_Join upds ",".

(** [batchInsertMerge]. The error of [GetColumns] is bound to [err] and
    next assigned by [TxExec]; nothing reads it in between. *)
Definition batchInsertMerge (tableName : string) (columns : list string)
    (values : list (list any)) (duplicateStrategy : Z) : M DB (Z * error) :=
  let schema := currentSchema in
  '(cols, err) ← GetColumns [tableName];
  let '(identityCols, pkCols, caseSqls) := mergeScan cols in
  if bool_decide (length pkCols = 0%nat) then
    batchInsertSimple tableName columns values duplicateStrategy
  else
    let args := concat values in
    let sqlTemp := mergeSql schema tableName columns values identityCols caseSqls in
    '(res, err) ← dc_TxExec
        (identityInsertOn schema tableName +:+ " " +:+ sqlTemp +:+ ";") args;
    match err with
    | Some e =>
        logx_Errorf ("执行sql失败：" +:+ err_Error e +:+ ", sql: [ " +:+ sqlTemp +:+ " ]");;
        mret (res, err)
    | None => mret (res, err)
    end.

(** [BatchInsert] *)
Definition BatchInsert (tableName : string) (columns : list string)
    (values : list (list any)) (duplicateStrategy : Z) : M DB (Z * error) :=
  if bool_decide (duplicateStrategy = DuplicateStrategyUpdate) then
    batchInsertMerge tableName columns values duplicateStrategy
  else batchInsertSimple tableName columns values duplicateStrategy.

(** [DataConverter.ParseData] *)
Definition ParseData (dbColumnValue : any) (dataType : DataType) : any :=
  let ok := isString dbColumnValue in
  if bool_decide (dataType = DataTypeDateTime) && ok then
    let '(res, _) := time_Parse time_RFC3339 (anyx_ToString dbColumnValue) in
    AnyTime res
  else if bool_decide (dataType = DataTypeDate) && ok then
    let '(res, _) := time_Parse time_DateOnly (anyx_ToString dbColumnValue) in
    AnyTime res
  else if bool_decide (dataType = DataTypeTime) && ok then
    let '(res, _) := time_Parse time_TimeOnly (anyx_ToString dbColumnValue) in
    AnyTime res
  else dbColumnValue.

Definition MSSQL_DBS_KEY : string := "MSSQL_DBS".
Definition MSSQL_DB_SCHEMAS_KEY : string := "MSSQL_DB_SCHEMAS".
Definition MSSQL_TABLE_DETAIL_KEY : string := "MSSQL_TABLE_DETAIL".

(** [GetDbServer]: the version is read from the first row of the answer. *)
Definition GetDbServer : M DB (option DbServer * error) :=
  '(res, err) ← dc_Query "SELECT @@VERSION as version" [];
  match err with
  | Some _ => mret (None, err)
  | None =>
      r ← slice_index res 0;
      mret (Some (mkDbServer (anyx_ConvString (row_get r "version"))), None)
  end.

(** [GetDbNames] *)
Definition GetDbNames : M DB (list string * error) :=
  '(res, err) ← dc_Query (dbi_GetLocalSql MSSQL_META_FILE MSSQL_DBS_KEY) [];
  match err with
  | Some _ => mret ([], err)
  | None => mret ((λ re, anyx_ConvString (row_get re "dbname")) <$> res, None)
  end.

(** [GetSchemas] *)
Definition GetSchemas : M DB (list string * error) :=
  '(res, err) ← dc_Query (dbi_GetLocalSql MSSQL_META_FILE MSSQL_DB_SCHEMAS_KEY) [];
  match err with
  | Some _ => mret ([], err)
  | None => mret ((λ re, anyx_ConvString (row_get re "SCHEMA_NAME")) <$> res, None)
  end.

Definition tableOfRow (re : Row) : Table := {|
  TableName := anyx_ConvString (row_get re "tableName");
  TableComment := anyx_ConvString (row_get re "tableComment");
  CreateTime := anyx_ConvString (row_get re "createTime");
  TableRows := anyx_ConvInt (row_get re "tableRows");
  DataLength := anyx_ConvInt64 (row_get re "dataLength");
  IndexLength := anyx_ConvInt64 (row_get re "indexLength")
|}.

(** [GetTables] *)
Definition GetTables : M DB (list Table * error) :=
  '(res, err) ← dc_Query (dbi_GetLocalSql MSSQL_META_FILE MSSQL_TABLE_INFO_KEY)
                         [AnyString currentSchema];
  match err with
  | Some _ => mret ([], err)
  | None => mret (tableOfRow <$> res, None)
  end.

(** The statement that attaches a description; [target] names what it
    describes, from the table on. *)
Definition extendedProperty (comment target : string) : string :=
  nl +:+ "EXEC sp_addextendedproperty N'MS_Description', N'" +:+ comment
     +:+ "', N'SCHEMA', N'" +:+ currentSchema +:+ "', N'TABLE',N'" +:+ target
     +:+ ";" +:+ nl.

(** The comment statement of the table in [CopyTableDDL], from the answer of
    the table detail query. *)
Definition tableCommentSql (res : list Row) (newTableName : string) : string :=
  match res with
  | r :: _ =>
      let tableComment := anyx_ToString (row_get r "tableComment") in
      if negb (String.eqb tableComment "") then
        let tableComment := strings_ReplaceAll tableComment "'" (backslash +:+ "'") in
        extendedProperty tableComment (newTableName +:+ "'")
      else ""
  | [] => ""
  end.

(** The line of one column in [CREATE TABLE]. *)
Definition columnLine (v : Column) : string :=
  let nullAble := if String.eqb (Nullable v) "NO" then "NOT NULL" else "NULL" in
  tab +:+ "[" +:+ ColumnName v +:+ "] " +:+ ColumnType v +:+ " " +:+ nullAble
    +:+ (if IsIdentity v then " IDENTITY(1,11)" else "")
    +:+ (if negb (String.eqb (ColumnDefault v) "")
         then " DEFAULT " +:+ ColumnDefault v else "").

(** The lines of the columns: a comma after each but the last. *)
Fixpoint columnLines (columns : list Column) : string :=
  match columns with
  | [] => ""
  | v :: rest =>
      columnLine v +:+ (match rest with [] => "" | _ => "," end) +:+ nl
        +:+ columnLines rest
  end.

(** The [CREATE TABLE] statement of [CopyTableDDL]. *)
Definition createTableSql (columns : list Column) (newTableName : string) : string :=
  let baseTable := QuoteIdentifier currentSchema +:+ "." +:+ QuoteIdentifier newTableName in
  let pks := (λ v, "[" +:+ ColumnName v +:+ "]") <$> filter (λ v, IsPrimaryKey v) columns in
  "CREATE TABLE " +:+ baseTable +:+ " (" +:+ nl
    +:+ columnLines columns
    +:+ (if bool_decide (0 < length pks)%nat
         then tab +:+ "CONSTRAINT PK_" +:+ newTableName +:+ " PRIMARY KEY ( "
                +:+ strings_Join pks "," +:+ " )"
         else "")
    +:+ nl +:+ ");" +:+ nl.

(** The comment statements of the columns. *)
Definition columnCommentsSql (columns : list Column) (newTableName : string) : string :=
  fold_left
    (λ acc v,
       if negb (String.eqb (ColumnComment v) "") then
         let comment := strings_ReplaceAll (ColumnComment v) "'" (backslash +:+ "'") in
         acc +:+ extendedProperty comment
                   (newTableName +:+ "', N'COLUMN', N'" +:+ ColumnName v +:+ "'")
       else acc)
    columns "".

(** The statements of the indexes and their comment statements. *)
Definition indexSql (indexs : list Index) (newTableName : string) : string * string :=
  let baseTable := QuoteIdentifier currentSchema +:+ "." +:+ QuoteIdentifier newTableName in
  fold_left
    (λ '(builder, commentBuilder) v,
       let builder :=
         builder +:+ nl +:+ "CREATE NONCLUSTERED INDEX [" +:+ IndexName v +:+ "] ON "
           +:+ baseTable +:+ " (" +:+ IndexColumnName v +:+ ");" +:+ nl in
       if negb (String.eqb (IndexComment v) "") then
         let comment := strings_ReplaceAll (IndexComment v) "'" (backslash +:+ "'") in
         (builder,
          commentBuilder +:+ extendedProperty comment
            (newTableName +:+ "', N'INDEX', N'" +:+ IndexName v +:+ "'"))
       else (builder, commentBuilder))
    indexs ("", "").

(** [CopyTableDDL] *)
Definition CopyTableDDL (tableName newTableName : string) : M DB (string * error) :=
  let newTableName := if String.eqb newTableName "" then tableName else newTableName in
  '(res, err) ← dc_Query (dbi_GetLocalSql MSSQL_META_FILE MSSQL_TABLE_DETAIL_KEY)
                         [AnyString currentSchema; AnyString tableName];
  match err with
  | Some _ => mret ("", err)
  | None =>
      let commentBuilder := tableCommentSql res newTableName in
      '(columns, err) ← GetColumns [tableName];
      match err with
      | Some _ => mret ("", err)
      | None =>
          let builder := createTableSql columns newTableName in
          let commentBuilder := commentBuilder +:+ columnCommentsSql columns newTableName in
          '(indexs, err) ← GetTableIndex tableName;
          match err with
          | Some _ => mret ("", err)
          | None =>
              let '(indexBuilder, indexComments) := indexSql indexs newTableName in
              mret ((builder +:+ indexBuilder) +:+ (commentBuilder +:+ indexComments), None)
          end
      end
  end.

(** [GetTableDDL] *)
Definition GetTableDDL (tableName : string) : M DB (string * error) :=
  CopyTableDDL tableName "".

(** [DataConverter.GetDataType] *)
Definition GetDataType (dbColumnType : string) : DataType :=
  if regexp_MatchString numberRegexp dbColumnType then DataTypeNumber
  else if regexp_MatchString datetimeRegexp dbColumnType then DataTypeDateTime
  else if regexp_MatchString dateRegexp dbColumnType then DataTypeDate
  else if regexp_MatchString timeRegexp dbColumnType then DataTypeTime
  else DataTypeString.

(** [DataConverter.FormatData] *)
Definition FormatData (dbColumnValue : any) (dataType : DataType) : string :=
  anyx_ToString dbColumnValue.
End Dialect.
End Mssql.

(** ** Package [mysql] *)

(** The names of the canonical column types [dbi.CommonType...]. They are
    constants of the string type [dbi.ColumnDataType], declared in package
    [dbi]; their values are given by a valuation wherever they are needed.
    The map literal keyed by them compiles only if the values are pairwise
    different. *)
Inductive CommonTypeName : Type :=
| CommonTypeVarchar | CommonTypeChar | CommonTypeText | CommonTypeBlob
| CommonTypeLongblob | CommonTypeLongtext | CommonTypeBinary
| CommonTypeMediumblob | CommonTypeMediumtext | CommonTypeVarbinary
| CommonTypeInt | CommonTypeSmallint | CommonTypeTinyint | CommonTypeNumber
| CommonTypeBigint | CommonTypeDatetime | CommonTypeDate | CommonTypeTime
| CommonTypeTimestamp | CommonTypeEnum | CommonTypeJSON.

Global Instance CommonTypeName_eq_dec : EqDecision CommonTypeName.
Proof. solve_decision. Defined.

(** [dbi.ColumnDataType] is a string type. *)
Abbreviation ColumnDataType := string (only parsing).

Module Mysql.

Definition MYSQL_META_FILE : string := "metasql/mysql_meta.sql".
Definition MYSQL_TABLE_INFO_KEY : string := "MYSQL_TABLE_INFO".
Definition MYSQL_INDEX_INFO_KEY : string := "MYSQL_INDEX_INFO".
Definition MYSQL_COLUMN_MA_KEY : string := "MYSQL_COLUMN_MA".

(** [dbi.Column] with the fields this driver fills ([ColTableName] and
    [ColDataType] are its fields [TableName] and [DataType]). *)
Record Column := mkColumn {
  ColTableName : string;
  ColumnName : string;
  ColDataType : ColumnDataType;
  ColumnComment : string;
  Nullable : bool;
  IsPrimaryKey : bool;
  IsIdentity : bool;
  ColumnDefault : string;
  CharMaxLength : Z;
  NumPrecision : Z;
  NumScale : Z
}.

Section Dialect.
Context {DB : Type} `{!DbConn DB} `{!Helpers}.
(** The method [Column.GetColumnType] of package [dbi]. *)
Variable GetColumnType : Column → string.
(** The values of the [dbi.CommonType...] constants. *)
Variable CommonType : CommonTypeName → ColumnDataType.

Definition tableOfRow (re : Row) : Table := {|
  TableName := cast_ToString (row_get re "tableName");
  TableComment := cast_ToString (row_get re "tableComment");
  CreateTime := cast_ToString (row_get re "createTime");
  TableRows := cast_ToInt (row_get re "tableRows");
  DataLength := cast_ToInt64 (row_get re "dataLength");
  IndexLength := cast_ToInt64 (row_get re "indexLength")
|}.

(** [GetTables] *)
Definition GetTables (tableNames : list string) : M DB (list Table * error) :=
  let names :=
    strings_Join
      (collx_ArrayMap tableNames (λ val, "'" +:+ RemoveQuote val +:+ "'")) "," in
  let '(sql, err) :=
    stringx_TemplateParse (dbi_GetLocalSql MYSQL_META_FILE MYSQL_TABLE_INFO_KEY) names in
  match err with
  | Some _ => mret ([], err)
  | None =>
      '(res, err) ← dc_Query sql [];
      match err with
      | Some _ => mret ([], err)
      | None => mret (tableOfRow <$> res, None)
      end
  end.

Definition columnOfRow (re : Row) : Column := {|
  ColTableName := cast_ToString (row_get re "tableName");
  ColumnName := cast_ToString (row_get re "columnName");
  ColDataType := cast_ToString (row_get re "dataType");
  ColumnComment := cast_ToString (row_get re "columnComment");
  Nullable := bool_decide (cast_ToString (row_get re "nullable") = "YES");
  IsPrimaryKey := bool_decide (cast_ToInt (row_get re "isPrimaryKey") = 1);
  IsIdentity := bool_decide (cast_ToInt (row_get re "isIdentity") = 1);
  ColumnDefault := cast_ToString (row_get re "columnDefault");
  CharMaxLength := cast_ToInt (row_get re "charMaxLength");
  NumPrecision := cast_ToInt (row_get re "numPrecision");
  NumScale := cast_ToInt (row_get re "numScale")
|}.

(** [GetColumns] *)
Definition GetColumns (tableNames : list string) : M DB (list Column * error) :=
  let tableName :=
    strings_Join
      (collx_ArrayMap tableNames (λ val, "'" +:+ RemoveQuote val +:+ "'")) "," in
  '(res, err) ← dc_Query
      (fmt_Sprintf (dbi_GetLocalSql MYSQL_META_FILE MYSQL_COLUMN_MA_KEY) [tableName]) [];
  match err with
  | Some _ => mret ([], err)
  | None => mret (columnOfRow <$> res, None)
  end.

Fixpoint firstPrimaryKey (columns : list Column) : option string :=
  match columns with
  | [] => None
  | v :: rest => if IsPrimaryKey v then Some (ColumnName v) else firstPrimaryKey rest
  end.

(** [GetPrimaryKey] *)
Definition GetPrimaryKey (tablename : string) : M DB (string * error) :=
  '(columns, err) ← GetColumns [tablename];
  match err with
  | Some _ => mret ("", err)
  | None =>
      if bool_decide (length columns = 0%nat)
      then mret ("", Some (errorx_NewBiz ("[" +:+ tablename +:+ "] 表不存在")))
      else
        match firstPrimaryKey columns with
        | Some name => mret (name, None)
        | None => c ← slice_index columns 0; mret (ColumnName c, None)
        end
  end.

Definition indexOfRow (re : Row) : Index := {|
  IndexName := cast_ToString (row_get re "indexName");
  IndexColumnName := cast_ToString (row_get re "columnName");
  IndexType := cast_ToString (row_get re "indexType");
  IndexComment := cast_ToString (row_get re "indexComment");
  IsUnique := bool_decide (cast_ToInt (row_get re "isUnique") = 1);
  SeqInIndex := cast_ToInt (row_get re "seqInIndex")
|}.

(** The grouping loop of [GetTableIndex]. *)
Fixpoint groupLoop (indexs : list Index) (key : string) (result : list Index)
  : M DB (list Index) :=
  match indexs with
  | [] => mret result
  | v :: rest =>
      let in_ := IndexName v in
      if String.eqb key in_ then
        let i := Z.of_nat (length result) - 1 in
        r ← slice_index result i;
        groupLoop rest key
          (<[Z.to_nat i := mkIndex (IndexName r)
                             (IndexColumnName r +:+ "," +:+ IndexColumnName v)
                             (IndexType r) (IndexComment r) (IsUnique r)
                             (SeqInIndex r)]> result)
      else groupLoop rest in_ (result ++ [v])
  end.

(** [GetTableIndex]: it returns the grouped [result]. *)
Definition GetTableIndex (tableName : string) : M DB (list Index * error) :=
  '(res, err) ← dc_Query (dbi_GetLocalSql MYSQL_META_FILE MYSQL_INDEX_INFO_KEY)
                         [AnyString tableName];
  match err with
  | Some _ => mret ([], err)
  | None =>
      let indexs := indexOfRow <$> res in
      result ← groupLoop indexs "" [];
      mret (result, None)
  end.

(** [GenerateIndexDDL] *)
Definition GenerateIndexDDL (indexs : list Index) (tableInfo : Table) : list string :=
  (λ index,
     let columnName := strings_ReplaceAll (IndexColumnName index) "-" "" in
     let columnName := strings_ReplaceAll columnName "_" "" in
     let colName := strings_ReplaceAll columnName "," "_" in
     let keyType := if IsUnique index then "unique" else "normal" in
     let unique := if IsUnique index then "unique" else "" in
     let indexName := keyType +:+ "_key_" +:+ TableName tableInfo +:+ "_" +:+ colName in
     "ALTER TABLE " +:+ QuoteIdentifier (TableName tableInfo) +:+ " ADD " +:+ unique
       +:+ " INDEX " +:+ indexName +:+ "(" +:+ IndexColumnName index
       +:+ ") USING BTREE COMMENT '"
       +:+ strings_Replacer_Replace [(";", ""); ("'", "")] (IndexComment index) +:+ "'")
    <$> indexs.

(** [genColumnBasicSql] *)
Definition genColumnBasicSql (column : Column) : string :=
  let dataType := ColDataType column in
  let incr := if IsIdentity column then " AUTO_INCREMENT" else "" in
  let nullAble := if negb (Nullable column) then " NOT NULL" else "" in
  let defVal :=
    if negb (String.eqb (ColumnDefault column) "")
       && negb (strings_Contains (ColumnDefault column) "(")
    then
      let mark :=
        if collx_ArrayAnyMatches ["char"; "text"; "date"; "time"; "lob"]
             (strings_ToLower dataType)
        then
          if collx_ArrayAnyMatches ["date"; "time"] (strings_ToLower dataType)
             && collx_ArrayAnyMatches ["DATE"; "TIME"]
                  (strings_ToUpper (ColumnDefault column))
          then false else true
        else false in
      if mark then " DEFAULT '" +:+ ColumnDefault column +:+ "'"
      else " DEFAULT " +:+ ColumnDefault column
    else "" in
  let comment :=
    if negb (String.eqb (ColumnComment column) "") then
      let commentStr :=
        strings_Replacer_Replace [(";", ""); ("'", "")] (ColumnComment column) in
      " COMMENT '" +:+ commentStr +:+ "'"
    else "" in
  " " +:+ QuoteIdentifier (ColumnName column) +:+ " " +:+ GetColumnType column
    +:+ " " +:+ nullAble +:+ " " +:+ incr +:+ " " +:+ defVal +:+ " " +:+ comment.

(** [GenerateTableDDL] *)
Definition GenerateTableDDL (columns : list Column) (tableInfo : Table)
    (dropBeforeCreate : bool) : list string :=
  let sqlArr :=
    if dropBeforeCreate
    then ["DROP TABLE IF EXISTS " +:+ QuoteIdentifier (TableName tableInfo) +:+ ";"]
    else [] in
  let createSql :=
    "CREATE TABLE " +:+ QuoteIdentifier (TableName tableInfo) +:+ " (" +:+ nl in
  let pks := ColumnName <$> filter (λ column, IsPrimaryKey column) columns in
  let fields := genColumnBasicSql <$> columns in
  let createSql := createSql +:+ strings_Join fields ("," +:+ nl) in
  let createSql :=
    if bool_decide (0 < length pks)%nat
    then createSql +:+ ", " +:+ nl +:+ "PRIMARY KEY (" +:+ strings_Join pks "," +:+ ")"
    else createSql in
  let createSql := createSql +:+ ") ENGINE=InnoDB DEFAULT CHARSET=utf8mb4 " in
  let createSql :=
    if negb (String.eqb (TableComment tableInfo) "")
    then createSql +:+ " COMMENT '"
           +:+ strings_Replacer_Replace [(";", ""); ("'", "")] (TableComment tableInfo)
           +:+ "'"
    else createSql in
  sqlArr ++ [createSql].

(** [GetTableDDL]. The guard returns only when the lookup failed and
    still produced tables; on every other path [tbs[0]] is read. *)
Definition GetTableDDL (tableName : string) : M DB (string * error) :=
  '(tbs, err) ← GetTables [tableName];
  if bool_decide (err ≠ None) && bool_decide (0 < length tbs)%nat then
    logx_Errorf ("获取表信息失败, " +:+ tableName);;
    mret ("", err)
  else
    tb ← slice_index tbs 0;
    let name := TableName tb in
    tb ← slice_index tbs 0;
    let tableInfo := mkTable name (TableComment tb) "" 0 0 0 in
    '(columns, err) ← GetColumns [tableName];
    match err with
    | Some _ =>
        logx_Errorf ("获取列信息失败, " +:+ tableName);;
        mret ("", err)
    | None =>
        let tableDDLArr := GenerateTableDDL columns tableInfo false in
        '(indexs, err) ← GetTableIndex tableName;
        match err with
        | Some _ =>
            logx_Errorf ("获取索引信息失败, " +:+ tableName);;
            mret ("", err)
        | None =>
            let tableDDLArr := tableDDLArr ++ GenerateIndexDDL indexs tableInfo in
            mret (strings_Join tableDDLArr (";" +:+ nl), None)
        end
    end.

(** [commonColumnTypeMap]: MySQL type to canonical type. *)
Definition commonColumnTypeMap : gmap string ColumnDataType :=
  list_to_map [
    ("bigint", CommonType CommonTypeBigint);
    ("binary", CommonType CommonTypeBinary);
    ("blob", CommonType CommonTypeBlob);
    ("char", CommonType CommonTypeChar);
    ("datetime", CommonType CommonTypeDatetime);
    ("date", CommonType CommonTypeDate);
    ("decimal", CommonType CommonTypeNumber);
    ("double", CommonType CommonTypeNumber);
    ("enum", CommonType CommonTypeEnum);
    ("float", CommonType CommonTypeNumber);
    ("int", CommonType CommonTypeInt);
    ("json", CommonType CommonTypeJSON);
    ("longblob", CommonType CommonTypeLongblob);
    ("longtext", CommonType CommonTypeLongtext);
    ("mediumblob", CommonType CommonTypeBlob);
    ("mediumtext", CommonType CommonTypeText);
    ("set", CommonType CommonTypeVarchar);
    ("smallint", CommonType CommonTypeSmallint);
    ("text", CommonType CommonTypeText);
    ("time", CommonType CommonTypeTime);
    ("timestamp", CommonType CommonTypeTimestamp);
    ("tinyint", CommonType CommonTypeTinyint);
    ("varbinary", CommonType CommonTypeVarbinary);
    ("varchar", CommonType CommonTypeVarchar)
  ].

(** The entries of [mysqlColumnTypeMap], in the order of the literal. *)
Definition mysqlColumnTypeEntries : list (CommonTypeName * string) := [
  (CommonTypeVarchar, "varchar");
  (CommonTypeChar, "char");
  (CommonTypeText, "text");
  (CommonTypeBlob, "blob");
  (CommonTypeLongblob, "longblob");
  (CommonTypeLongtext, "longtext");
  (CommonTypeBinary, "binary");
  (CommonTypeMediumblob, "blob");
  (CommonTypeMediumtext, "text");
  (CommonTypeVarbinary, "varbinary");
  (CommonTypeInt, "int");
  (CommonTypeSmallint, "smallint");
  (CommonTypeTinyint, "tinyint");
  (CommonTypeNumber, "decimal");
  (CommonTypeBigint, "bigint");
  (CommonTypeDatetime, "datetime");
  (CommonTypeDate, "date");
  (CommonTypeTime, "time");
  (CommonTypeTimestamp, "timestamp");
  (CommonTypeEnum, "enum");
  (CommonTypeJSON, "json")
].

(** [mysqlColumnTypeMap]: canonical type to MySQL type, keyed by the
    values of the constants. *)
Definition mysqlColumnTypeMap : gmap ColumnDataType string :=
  list_to_map (prod_map CommonType id <$> mysqlColumnTypeEntries).

(** [DataConverter.ParseData] *)
Definition ParseData (dbColumnValue : any) (dataType : DataType) : any :=
  let ok := isString dbColumnValue in
  if ok then
    if bool_decide (dataType = DataTypeDateTime) then
      let '(res, _) := time_Parse time_DateTime (anyx_ToString dbColumnValue) in
      AnyTime res
    else if bool_decide (dataType = DataTypeDate) then
      let '(res, _) := time_Parse time_DateOnly (anyx_ToString dbColumnValue) in
      AnyTime res
    else if bool_decide (dataType = DataTypeTime) then
      let '(res, _) := time_Parse time_TimeOnly (anyx_ToString dbColumnValue) in
      AnyTime res
    else dbColumnValue
  else dbColumnValue.

Definition MYSQL_DBS : string := "MYSQL_DBS".

(** [GetDbServer] *)
Definition GetDbServer : M DB (option DbServer * error) :=
  '(res, err) ← dc_Query "SELECT VERSION() version" [];
  match err with
  | Some _ => mret (None, err)
  | None =>
      r ← slice_index res 0;
      mret (Some (mkDbServer (cast_ToString (row_get r "version"))), None)
  end.

(** [GetDbNames] *)
Definition GetDbNames : M DB (list string * error) :=
  '(res, err) ← dc_Query (dbi_GetLocalSql MYSQL_META_FILE MYSQL_DBS) [];
  match err with
  | Some _ => mret ([], err)
  | None => mret ((λ re, cast_ToString (row_get re "dbname")) <$> res, None)
  end.

(** [GetSchemas] *)
Definition GetSchemas : M DB (list string * error) :=
  mret ([], Some (errors_New "不支持schema")).

(** [QuoteLiteral]: backslashes doubled, then single quotes doubled, then
    the whole between single quotes. *)
Definition QuoteLiteral (literal : string) : string :=
  let literal := strings_ReplaceAll literal backslash (backslash +:+ backslash) in
  let literal := strings_ReplaceAll literal "'" "''" in
  "'" +:+ literal +:+ "'".

(** [DataConverter.GetDataType] *)
Definition GetDataType (dbColumnType : string) : DataType :=
  if regexp_MatchString numberRegexp dbColumnType then DataTypeNumber
  else if regexp_MatchString datetimeRegexp dbColumnType then DataTypeDateTime
  else if regexp_MatchString dateRegexp dbColumnType then DataTypeDate
  else if regexp_MatchString timeRegexp dbColumnType then DataTypeTime
  else DataTypeString.

(** [DataConverter.FormatData] *)
Definition FormatData (dbColumnValue : any) (dataType : DataType) : string :=
  anyx_ToString dbColumnValue.
End Dialect.
End Mysql.

(** ** Package [persistence]: the account repository *)

Module Persistence.

(** [entity.Account], the field the repository reads. *)
Record Account := mkAccount {
  Username : string
}.

(** The statement of [GetPageList]. *)
Definition pageSql (username : string) : string :=
  let sql := "SELECT * FROM t_sys_account " in
  if negb (String.eqb username "")
  then sql +:+ " WHERE username LIKE '%" +:+ username +:+ "%'"
  else sql.

Section Repo.
(** [model.PageParam], the target of the rows, [model.PageResult] and
    [model.GetPageBySql], of package [model]. *)
Variables PageParam Entity PageResult : Type.
Variable model_GetPageBySql : string → PageParam → Entity → PageResult.

(** [accountRepoImpl.GetPageList] *)
Definition GetPageList (condition : Account) (pageParam : PageParam)
    (toEntity : Entity) (orderBy : list string) : PageResult :=
  model_GetPageBySql (pageSql (Username condition)) pageParam toEntity.
End Repo.
End Persistence.

(** ** Package [api] of the tags: the handlers of [TagTree] *)

Module TagApi.

(** [int8(n)] for a Go [int]: the value modulo 256 in [-128, 127]. *)
Definition int8 (n : Z) : Z := (n + 128) mod 256 - 128.

(** [sort.Strings]: the list in increasing byte order. Strings that compare
    equal are equal, so the sorted list does not depend on the algorithm. *)
Definition sort_Strings (l : list string) : list string := merge_sort String.le l.

Section Handlers.
(** [*entity.TagTree] with its field [CodePath] and its method
    [GetTagPath]; [entity.TagType] with its conversions from the [int] of a
    query parameter and from an [int8]; the trees of [vo.TagTreeVOS.ToTrees];
    the constants [consts.AdminId] and [entity.CodePathSeparator]. *)
Variables TagTree TagType Trees : Type.
Variable CodePath : TagTree → string.
Variable GetTagPath : TagTree → string.
Variable TagType_of_int : Z → TagType.
Variable TagType_of_int8 : Z → TagType.
Variable ToTrees : list TagTree → Z → Trees.
Variable AdminId : Z.
Variable CodePathSeparator : string.

(** [entity.TagTreeQuery], the fields the handlers set. *)
Record TagTreeQuery := mkQuery {
  QueryType : TagType;
  CodePathLikes : list string;
  CodePaths : list string
}.

(** The application [application.TagTree], as far as the handlers call it. *)
Variable ListByQuery : TagTreeQuery → list TagTree.
Variable ListTagByAccountId : Z → list string.
Variable GetAccountTags : Z → TagTreeQuery → list TagTree.

(** [collx.MapKeys] (the keys in the order the map gives them) and
    [collx.ArrayToMap]. *)
Variable collx_MapKeys : ∀ V : Type, gmap string V → list string.
Variable collx_ArrayToMap : list TagTree → (TagTree → string) → gmap string TagTree.

(** [strings.Split(path, "/")[0] + entity.CodePathSeparator]; [None] is the
    panic of the index. *)
Definition rootOf (path : string) : option string :=
  match strings_Split path "/" with
  | first :: _ => Some (first +:+ CodePathSeparator)
  | [] => None
  end.

(** The first loop of [GetTagTree]: the paths of the account under their
    roots. Reading a root that is not in the map gives the nil slice. *)
Fixpoint groupByRoot (tagPaths : list string) (rootTag : gmap string (list string))
  : option (gmap string (list string)) :=
  match tagPaths with
  | [] => Some rootTag
  | accountTagPath :: rest =>
      root ← rootOf accountTagPath;
      let tags := default [] (rootTag !! root) in
      groupByRoot rest (<[root := tags ++ [accountTagPath]]> rootTag)
  end.

(** The test of the inner loop. *)
Definition related (tagPath accountTagPath : string) : bool :=
  strings_HasPrefix tagPath accountTagPath || strings_HasPrefix accountTagPath tagPath.

(** The second loop of [GetTagTree]: a tag is kept at the first path of its
    root that it is related to. *)
Fixpoint keepRelated (tags : list TagTree) (rootTag : gmap string (list string))
    (tagTrees : list TagTree) : option (list TagTree) :=
  match tags with
  | [] => Some tagTrees
  | tag :: rest =>
      let tagPath := CodePath tag in
      root ← rootOf tagPath;
      let accountTagPaths := default [] (rootTag !! root) in
      if existsb (related tagPath) accountTagPaths
      then keepRelated rest rootTag (tagTrees ++ [tag])
      else keepRelated rest rootTag tagTrees
  end.

(** The tags that [GetTagTree] hands to [ToTrees] for an account that is
    not the administrator. *)
Definition accountTagTrees (loginId : Z) (tagType : TagType) : option (list TagTree) :=
  let tagPaths := ListTagByAccountId loginId in
  rootTag ← groupByRoot tagPaths ∅;
  let tags :=
    ListByQuery (mkQuery tagType (collx_MapKeys _ rootTag) []) in
  keepRelated tags rootTag [].

(** [TagTree.GetTagTree]: from the account of the request and its parameter
    [type] to the response data. *)
Definition GetTagTree (loginId : Z) (type : Z) : option Trees :=
  let tagType := TagType_of_int type in
  if bool_decide (loginId = AdminId) then
    Some (ToTrees (ListByQuery (mkQuery tagType [] [])) 0)
  else
    tagTrees ← accountTagTrees loginId tagType;
    Some (ToTrees tagTrees 0).

(** [TagTree.ListByQuery]: from the parameter [tagPaths] to the response
    data; the type of the query is left at its zero value. *)
Definition ListByQueryHandler (tagPaths : string) : list TagTree :=
  ListByQuery (mkQuery (TagType_of_int 0) [] (strings_Split tagPaths ",")).

(** [TagTree.TagResources]: from the path parameter [rtype] and the account
    to the response data. *)
Definition TagResources (rtype : Z) (accountId : Z) : list string :=
  let resourceType := int8 rtype in
  let tagResources :=
    GetAccountTags accountId (mkQuery (TagType_of_int8 resourceType) [] []) in
  let tagPath2Resource := collx_ArrayToMap tagResources GetTagPath in
  let tagPaths := collx_MapKeys _ tagPath2Resource in
  sort_Strings tagPaths.
End Handlers.
End TagApi.

(** ** A scripted connection and plain helpers, to run the drivers *)

Module Demo.

(** The scripted database answers each metadata query with fixed rows (or
    an error) and each executed statement with what [execResult] says; its
    state counts the statements it has seen. *)
Record Script := mkScript {
  columnRows : list Row * error;
  indexRows : list Row * error;
  tableRows : list Row * error;
  execResult : string → Z * error
}.

Definition DB : Type := Script * nat.

Definition query (sql : string) (args : list any) (db : DB) : (list Row * error) * DB :=
  let sc := db.1 in
  let r :=
    if strings_Contains sql "COLUMN_MA" then columnRows sc
    else if strings_Contains sql "INDEX_INFO" then indexRows sc
    else if strings_Contains sql "TABLE_INFO" then tableRows sc
    else ([], Some (errors_New "unknown query")) in
  (r, (sc, S db.2)).

Definition txExec (sql : string) (args : list any) (db : DB) : (Z * error) * DB :=
  (execResult db.1 sql, (db.1, S db.2)).

(** A connection to database [demo], schema [dbo], with bracket quoting. *)
Definition conn : DbConn DB := {|
  dcQuery := query;
  dcTxExec := txExec;
  InfoDatabase := "demo/dbo";
  QuoteIdentifier := λ s, "[" +:+ s +:+ "]";
  RemoveQuote := λ s, strings_ReplaceAll (strings_ReplaceAll s "[" "") "]" ""
|}.

Definition toString (v : any) : string :=
  match v with AnyString s => s | _ => "" end.

Definition toInt (v : any) : Z :=
  match v with
  | AnyInt n => n
  | AnyBool true => 1
  | _ => 0
  end.

Definition arrayContains (arr : list string) (el : string) : bool :=
  existsb (String.eqb el) arr.

Definition arrayAnyMatches (arr : list string) (subject : string) : bool :=
  existsb (strings_Contains subject) arr.

(** The pieces of the four layouts. *)
Inductive piece : Type :=
| PYear | PMonth | PDay | PHour | PMinute | PSecond | PZone
| PLit (c : ascii).

Definition pieces (layout : string) : option (list piece) :=
  let dash := PLit "-" in
  let colon := PLit ":" in
  let date := [PYear; dash; PMonth; dash; PDay] in
  let clock := [PHour; colon; PMinute; colon; PSecond] in
  if String.eqb layout time_DateOnly then Some date
  else if String.eqb layout time_TimeOnly then Some clock
  else if String.eqb layout time_DateTime then Some (date ++ PLit " " :: clock)
  else if String.eqb layout time_RFC3339 then Some (date ++ PLit "T" :: clock ++ [PZone])
  else None.

Definition digit (c : ascii) : option Z :=
  let n := nat_of_ascii c in
  if (48 <=? n)%nat && (n <=? 57)%nat then Some (Z.of_nat n - 48) else None.

Fixpoint digits (n : nat) (s : string) (acc : Z) : option (Z * string) :=
  match n with
  | O => Some (acc, s)
  | S k =>
      match s with
      | String c s' =>
          match digit c with
          | Some d => digits k s' (10 * acc + d)
          | None => None
          end
      | EmptyString => None
      end
  end.

Definition leap (y : Z) : bool :=
  (y mod 4 =? 0) && (negb (y mod 100 =? 0) || (y mod 400 =? 0)).

Definition daysIn (y m : Z) : Z :=
  if m =? 2 then (if leap y then 29 else 28)
  else if (m =? 4) || (m =? 6) || (m =? 9) || (m =? 11) then 30 else 31.

Definition inRange (lo hi v : Z) : bool := (lo <=? v) && (v <=? hi).

Fixpoint parsePieces (ps : list piece) (s : string) (t : time_Time)
  : option time_Time :=
  match ps with
  | [] => if String.eqb s "" then Some t else None
  | PLit c :: ps' =>
      match s with
      | String c' s' => if Ascii.eqb c c' then parsePieces ps' s' t else None
      | EmptyString => None
      end
  | PZone :: ps' =>
      match s with
      | String "Z" s' => parsePieces ps' s' t
      | String sign s' =>
          if Ascii.eqb sign "+" || Ascii.eqb sign "-" then
            '(h, s1) ← digits 2 s' 0;
            match s1 with
            | String ":" s2 =>
                '(m, s3) ← digits 2 s2 0;
                let off := h * 3600 + m * 60 in
                let off := if Ascii.eqb sign "-" then - off else off in
                parsePieces ps' s3
                  (mkTime (tYear t) (tMonth t) (tDay t) (tHour t) (tMinute t)
                     (tSecond t) (tNanosecond t) off)
            | _ => None
            end
          else None
      | EmptyString => None
      end
  | p :: ps' =>
      '(v, s') ← digits (match p with PYear => 4 | _ => 2 end) s 0;
      let t' :=
        match p with
        | PYear => mkTime v (tMonth t) (tDay t) (tHour t) (tMinute t) (tSecond t)
                     (tNanosecond t) (tOffset t)
        | PMonth => mkTime (tYear t) v (tDay t) (tHour t) (tMinute t) (tSecond t)
                      (tNanosecond t) (tOffset t)
        | PDay => mkTime (tYear t) (tMonth t) v (tHour t) (tMinute t) (tSecond t)
                    (tNanosecond t) (tOffset t)
        | PHour => mkTime (tYear t) (tMonth t) (tDay t) v (tMinute t) (tSecond t)
                     (tNanosecond t) (tOffset t)
        | PMinute => mkTime (tYear t) (tMonth t) (tDay t) (tHour t) v (tSecond t)
                       (tNanosecond t) (tOffset t)
        | _ => mkTime (tYear t) (tMonth t) (tDay t) (tHour t) (tMinute t) v
                 (tNanosecond t) (tOffset t)
        end in
      parsePieces ps' s' t'
  end.

Definition valid (t : time_Time) : bool :=
  inRange 1 12 (tMonth t) && inRange 1 (daysIn (tYear t) (tMonth t)) (tDay t)
  && inRange 0 23 (tHour t) && inRange 0 59 (tMinute t) && inRange 0 59 (tSecond t).

(** A parser for the four layouts with plain digits (no fractional
    seconds): fields left out are zero, or one for month and day, and a
    failure gives the zero time and an error. *)
Definition parse (layout value : string) : time_Time * error :=
  match pieces layout ≫= λ ps, parsePieces ps value (mkTime 0 1 1 0 0 0 0 0) with
  | Some t =>
      if valid t then (t, None)
      else (time_zero, Some (errors_New "parsing time: out of range"))
  | None => (time_zero, Some (errors_New ("parsing time " +:+ value)))
  end.

(** The helpers of the scenarios. Their strings are ASCII, so the rune
    mappings are never reached; they are left as the identity. *)
Definition helpers : Helpers := {|
  anyx_ConvString := toString;
  anyx_ToString := toString;
  anyx_ConvInt := toInt;
  anyx_ConvInt64 := toInt;
  cast_ToString := toString;
  cast_ToInt := toInt;
  cast_ToInt64 := toInt;
  collx_ArrayContains := arrayContains;
  collx_ArrayMap := λ arr f, f <$> arr;
  collx_ArrayAnyMatches := arrayAnyMatches;
  dbi_GetLocalSql := λ file key, key;
  fmt_Sprintf := λ format args, format +:+ " " +:+ strings_Join args " ";
  stringx_TemplateParse := λ tpl names, (tpl +:+ " " +:+ names, None);
  time_Parse := parse;
  unicode_ToLower := λ s, s;
  unicode_ToUpper := λ s, s
|}.

(** The strategies numbered as the spec lists them. *)
Definition strategies : DuplicateStrategies := {|
  DuplicateStrategyNone := 1;
  DuplicateStrategyIgnore := 2;
  DuplicateStrategyUpdate := 3
|}.

(** The constants of [dbi] take the lower-case names of the types. *)
Definition commonType (c : CommonTypeName) : ColumnDataType :=
  match c with
  | CommonTypeVarchar => "varchar" | CommonTypeChar => "char"
  | CommonTypeText => "text" | CommonTypeBlob => "blob"
  | CommonTypeLongblob => "longblob" | CommonTypeLongtext => "longtext"
  | CommonTypeBinary => "binary" | CommonTypeMediumblob => "mediumblob"
  | CommonTypeMediumtext => "mediumtext" | CommonTypeVarbinary => "varbinary"
  | CommonTypeInt => "int" | CommonTypeSmallint => "smallint"
  | CommonTypeTinyint => "tinyint" | CommonTypeNumber => "number"
  | CommonTypeBigint => "bigint" | CommonTypeDatetime => "datetime"
  | CommonTypeDate => "date" | CommonTypeTime => "time"
  | CommonTypeTimestamp => "timestamp" | CommonTypeEnum => "enum"
  | CommonTypeJSON => "json"
  end.

Definition columnType (c : Mysql.Column) : string := Mysql.ColDataType c.

Definition ok (n : Z) : string → Z * error := λ _, (n, None).

(** Fails the statements that contain [needle], accepts the others. *)
Definition failOn (needle : string) (n : Z) : string → Z * error :=
  λ sql, if strings_Contains sql needle
         then (0, Some (errors_New "statement failed")) else (n, None).

Definition start (sc : Script) : World DB := mkWorld (sc, O) [].

Definition indexRow (name column : string) (unique : bool) (seq : Z) : Row :=
  {[ "indexName" := AnyString name; "columnName" := AnyString column;
     "indexType" := AnyString "NONCLUSTERED"; "indexComment" := AnyString "";
     "isUnique" := AnyBool unique; "seqInIndex" := AnyInt seq ]}.

Definition mssqlColumnRow (name : string) (pk identity : bool) : Row :=
  {[ "TABLE_NAME" := AnyString "t"; "COLUMN_NAME" := AnyString name;
     "COLUMN_TYPE" := AnyString "int"; "NULLABLE" := AnyString "NO";
     "IS_PRIMARY_KEY" := AnyBool pk; "IS_IDENTITY" := AnyBool identity ]}.

Definition mysqlColumnRow (name : string) (pk identity : bool) : Row :=
  {[ "tableName" := AnyString "t"; "columnName" := AnyString name;
     "dataType" := AnyString "int"; "nullable" := AnyString "NO";
     "isPrimaryKey" := AnyBool pk; "isIdentity" := AnyBool identity ]}.
End Demo.

(** ** Notions used to state the properties *)

(** The number of bytes [c] in a string. *)
Fixpoint countByte (c : ascii) (s : string) : nat :=
  match s with
  | EmptyString => 0
  | String x s' => (if Ascii.eqb x c then 1 else 0) + countByte c s'
  end.

(** What a run leaves to observe: the outcome and the events. *)
Definition observe {DB A} (r : Outcome A * World DB) : Outcome A * list Event :=
  (r.1, wtrace r.2).

(** The placeholder group of one row, [(?,...,?)] with [n] marks. *)
Definition rowPlaceholder (n : nat) : string :=
  "(" +:+ strings_Join (replicate n "?") "," +:+ ")".

(** As the spec words the None strategy, an [OFF] attempt follows the
    insert: some statement is executed after it. *)
Definition statementAfter (insert : Event) (trace : list Event) : Prop :=
  ∃ pre sql args post, trace = pre ++ insert :: post ∧ EvTxExec sql args ∈ post.

Module Examples.
Import Demo.

(** The batch of the spec's scenario. *)
Definition columns : list string := ["id"; "name"].
Definition rows : list (list any) :=
  [[AnyInt 1; AnyString "a"]; [AnyInt 2; AnyString "b"]].

(** A table without columns or indexes on which every statement succeeds,
    two rows affected. *)
Definition plain : Script := mkScript ([], None) ([], None) ([], None) (ok 2).

Definition insertStmt : string :=
  "SET IDENTITY_INSERT [dbo].[t] ON insert into [dbo].[t] (id,name) values (?,?),(?,?)".
End Examples.

(** As the spec words the Ignore strategy, the temporary constraint is
    removed after the insert: some statement executed after the insert drops
    it. *)
Definition removesConstraint (sql : string) : bool := strings_Contains sql "DROP".

Definition removalAfter (insert : Event) (trace : list Event) : Prop :=
  ∃ pre sql args post,
    trace = pre ++ insert :: post
    ∧ EvTxExec sql args ∈ post
    ∧ removesConstraint sql = true.

Module IgnoreExamples.
Import Demo.

(** A table with the unique index [uq_ab] on the columns [a], [b]. *)
Definition uniqueIndex : list Row :=
  [indexRow "uq_ab" "a" true 1; indexRow "uq_ab" "b" true 2].

(** Every statement succeeds. *)
Definition accepted : Script :=
  mkScript ([], None) (uniqueIndex, None) ([], None) (ok 2).

(** The insert statement fails, the others succeed. *)
Definition rejected : Script :=
  mkScript ([], None) (uniqueIndex, None) ([], None) (failOn "insert into" 0).

Definition indexQuery : Event :=
  EvQuery "MSSQL_INDEX_INFO" [AnyString "dbo"; AnyString "t"].
Definition constraintOn : Event :=
  EvTxExec
    "ALTER TABLE dbo.t ADD CONSTRAINT uniqueRows UNIQUE (a,b) WITH (IGNORE_DUP_KEY = ON)"
    [].
Definition constraintOff : Event :=
  EvTxExec
    "ALTER TABLE dbo.t ADD CONSTRAINT uniqueRows UNIQUE (a,b) WITH (IGNORE_DUP_KEY = OFF)"
    [].
Definition insert : Event :=
  EvTxExec Examples.insertStmt [AnyInt 1; AnyString "a"; AnyInt 2; AnyString "b"].
End IgnoreExamples.

(** The spec's [TableNotFound]: the business error "[name] table does not
    exist" that [GetPrimaryKey] builds. *)
Definition TableNotFound (tablename : string) : err :=
  errorx_NewBiz ("[" +:+ tablename +:+ "] 表不存在").

Module KeyExamples.
Import Demo.

(** Columns [id], [name], none of them a primary key. *)
Definition keyless : Script :=
  mkScript ([mssqlColumnRow "id" false true; mssqlColumnRow "name" false false], None)
           ([], None) ([], None) (ok 2).

(** Columns [id], [code], [name] with [code] the first primary key, under
    the row keys of either driver. *)
Definition keyed : Script :=
  mkScript ([mssqlColumnRow "id" false true ∪ mysqlColumnRow "id" false true;
             mssqlColumnRow "code" true false ∪ mysqlColumnRow "code" true false;
             mssqlColumnRow "name" true false ∪ mysqlColumnRow "name" true false], None)
           ([], None) ([], None) (ok 2).

Definition mssqlColumnQuery : Event := EvQuery "MSSQL_COLUMN_MA 't'" [AnyString "dbo"].
End KeyExamples.

(** The entry of a canonical type in a list of entries, the first one. *)
Fixpoint entryOf (l : list (CommonTypeName * string)) (x : CommonTypeName)
  : option string :=
  match l with
  | [] => None
  | (k, v) :: l' => if decide (k = x) then Some v else entryOf l' x
  end.

(** The layout under which each driver parses a kind; the kinds that are not
    parsed have none. *)
Definition mssqlLayout (kind : DataType) : option string :=
  match kind with
  | DataTypeDateTime => Some time_RFC3339
  | DataTypeDate => Some time_DateOnly
  | DataTypeTime => Some time_TimeOnly
  | _ => None
  end.

Definition mysqlLayout (kind : DataType) : option string :=
  match kind with
  | DataTypeDateTime => Some time_DateTime
  | DataTypeDate => Some time_DateOnly
  | DataTypeTime => Some time_TimeOnly
  | _ => None
  end.

(** The contract of [ParseData] as the spec words it, for a converter
    [parseData] with the layouts [layoutOf]: a value that is not a string
    and a kind without a layout are returned unchanged; a string of a kind
    with a layout is parsed under it, the error dropped; and when the parse
    fails the result is the zero time. *)
Definition ParsesUnder `{!Helpers} (parseData : any → DataType → any)
    (layoutOf : DataType → option string) : Prop :=
  (∀ v kind, isString v = false → parseData v kind = v)
  ∧ (∀ v kind, layoutOf kind = None → parseData v kind = v)
  ∧ (∀ s kind layout,
       layoutOf kind = Some layout →
       parseData (AnyString s) kind
       = AnyTime (time_Parse layout (anyx_ToString (AnyString s))).1)
  ∧ (∀ s kind layout,
       layoutOf kind = Some layout →
       (time_Parse layout (anyx_ToString (AnyString s))).2 ≠ None →
       parseData (AnyString s) kind = AnyTime time_zero).

Module IndexExamples.
Import Demo.

(** A table with the primary-key index [PK__t__3213E83F] on [id] and the
    plain index [idx_name] on [name]. *)
Definition withPlainIndex : Script :=
  mkScript ([], None)
           ([indexRow "PK__t__3213E83F" "id" true 1; indexRow "idx_name" "name" false 1],
            None)
           ([], None) (ok 2).

(** The lookup of the columns fails; statements succeed. *)
Definition columnsUnavailable : Script :=
  mkScript ([], Some (errors_New "connection lost")) ([], None) ([], None) (ok 2).

(** A table with the primary key [id]; the [MERGE] statement fails. *)
Definition mergeRejected : Script :=
  mkScript ([mssqlColumnRow "id" true true; mssqlColumnRow "name" false false], None)
           ([], None) ([], None) (failOn "MERGE" 0).

Definition mergeStmt : string :=
  "MERGE INTO [dbo].[t] T1 USING (select ? id,? name UNION ALL select ? id,? name) T2 ON  T1.[id] = T2.[id] WHEN NOT MATCHED THEN INSERT (id,name) VALUES (T2.id,T2.name) WHEN MATCHED THEN UPDATE SET T1.name = T2.name".
End IndexExamples.

(** The rows of one index as the introspection query gives them: the row of
    its first column and the rows of its further columns. *)
Definition rowsOf (groups : list (Index * list Index)) : list Index :=
  flat_map (λ g, g.1 :: g.2) groups.

(** As the spec words the fold: one entry per index, that of its first row
    with the column names of all its rows joined by commas, in row order. *)
Definition foldedEntry (g : Index * list Index) : Index :=
  mkIndex (IndexName g.1) (strings_Join (IndexColumnName <$> g.1 :: g.2) ",")
    (IndexType g.1) (IndexComment g.1) (IsUnique g.1) (SeqInIndex g.1).

(** The rows of an index carry its name, and an index has another name than
    the one before it ([key] before the first). *)
Fixpoint groupedByName (key : string) (groups : list (Index * list Index)) : Prop :=
  match groups with
  | [] => True
  | g :: gs =>
      IndexName g.1 ≠ key
      ∧ (∀ x, x ∈ g.2 → IndexName x = IndexName g.1)
      ∧ groupedByName (IndexName g.1) gs
  end.

(** An entry after the rows of further columns have been joined onto it. *)
Definition joinedOnto (r : Index) (vs : list Index) : Index :=
  mkIndex (IndexName r)
    (fold_left (λ acc x, acc +:+ "," +:+ IndexColumnName x) vs (IndexColumnName r))
    (IndexType r) (IndexComment r) (IsUnique r) (SeqInIndex r).

(** Every byte [c] of [s] replaced by the string [new]. *)
Fixpoint replaceByte (c : ascii) (new : string) (s : string) : string :=
  match s with
  | EmptyString => ""
  | String x s' => (if Ascii.eqb x c then new else String x "") +:+ replaceByte c new s'
  end.

Module MoreExamples.
Import Demo.

(** The index lookup fails; statements succeed. *)
Definition indexesUnavailable : Script :=
  mkScript ([], None) ([], Some (errors_New "connection lost")) ([], None) (ok 2).

(** The index query answers with a row that has no [indexName]. *)
Definition namelessIndex : Script :=
  mkScript ([], None)
           ([{[ "columnName" := AnyString "a"; "isUnique" := AnyBool true ]}], None)
           ([], None) (ok 2).
End MoreExamples.

(** The bytes of [s] that are not in [bad]. *)
Fixpoint withoutBytes (bad : list ascii) (s : string) : string :=
  match s with
  | EmptyString => ""
  | String x s' =>
      if existsb (Ascii.eqb x) bad then withoutBytes bad s'
      else String x (withoutBytes bad s')
  end.

Module DdlExamples.
Import Demo.

(** A connection on which every query finds nothing and every statement
    affects nothing. *)
Definition silent : DbConn unit := {|
  dcQuery := λ _ _ db, (([], None), db);
  dcTxExec := λ _ _ db, ((0, None), db);
  InfoDatabase := "demo/dbo";
  QuoteIdentifier := λ s, s;
  RemoveQuote := λ s, s
|}.

Definition tableRow : Row :=
  {[ "tableName" := AnyString "t"; "tableComment" := AnyString "it's; a table" ]}.

(** The table lookup fails. *)
Definition tablesUnavailable : Script :=
  mkScript ([], None) ([], None) ([], Some (errors_New "connection lost")) (ok 0).

(** The table is there and the lookup of its columns fails. *)
Definition columnsFail : Script :=
  mkScript ([], Some (errors_New "connection lost")) ([], None) ([tableRow], None) (ok 0).

(** The table [t] with the key [id], the column [name] and the unique index
    [uq_ab]. *)
Definition complete : Script :=
  mkScript ([mysqlColumnRow "id" true true ∪ mssqlColumnRow "id" true true;
             mysqlColumnRow "name" false false ∪ mssqlColumnRow "name" false false],
            None)
           (IgnoreExamples.uniqueIndex, None) ([tableRow], None) (ok 0).
End DdlExamples.

Module MssqlDdlExamples.
Import Demo.

(** The scripted connection, answering the table detail query as well (with
    the rows of the table lookup). *)
Definition query (sql : string) (args : list any) (db : DB) : (list Row * error) * DB :=
  if strings_Contains sql "TABLE_DETAIL" then (tableRows db.1, (db.1, S db.2))
  else Demo.query sql args db.

Definition conn : DbConn DB := {|
  dcQuery := query;
  dcTxExec := txExec;
  InfoDatabase := "demo/dbo";
  QuoteIdentifier := λ s, "[" +:+ s +:+ "]";
  RemoveQuote := λ s, strings_ReplaceAll (strings_ReplaceAll s "[" "") "]" ""
|}.

Definition detailQuery : Event :=
  EvQuery "MSSQL_TABLE_DETAIL" [AnyString "dbo"; AnyString "t"].

(** The DDL of the table [t] of [DdlExamples.complete], copied as [t2]. *)
Definition ddl : string :=
  "CREATE TABLE [dbo].[t2] (" +:+ nl
    +:+ tab +:+ "[id] int NOT NULL IDENTITY(1,11)," +:+ nl
    +:+ tab +:+ "[name] int NOT NULL" +:+ nl
    +:+ tab +:+ "CONSTRAINT PK_t2 PRIMARY KEY ( [id] )" +:+ nl
    +:+ ");" +:+ nl
    +:+ nl +:+ "EXEC sp_addextendedproperty N'MS_Description', N'it" +:+ backslash
    +:+ "'s; a table', N'SCHEMA', N'dbo', N'TABLE',N't2';" +:+ nl.
End MssqlDdlExamples.

(** The bytes of [s] before the first [c]. *)
Fixpoint upTo (c : ascii) (s : string) : string :=
  match s with
  | EmptyString => ""
  | String x s' => if Ascii.eqb x c then "" else String x (upTo c s')
  end.

Module TagExamples.

(** Tags given by their paths; maps read in the order of their lists. *)
Definition arrayToMap (arr : list string) (f : string → string) : gmap string string :=
  list_to_map ((λ x, (f x, x)) <$> arr).
Definition mapKeys (V : Type) (m : gmap string V) : list string := (map_to_list m).*1.

(** The tags of an account: two of them on one path. *)
Definition accountTags (accountId : Z) (q : TagApi.TagTreeQuery Z) : list string :=
  ["db/prod/"; "app/"; "db/prod/"].

(** The paths an account owns and the tags of the query. *)
Definition owned (accountId : Z) : list string := ["db/prod/"; "app/web/"].
Definition allTags (q : TagApi.TagTreeQuery Z) : list string :=
  ["db/"; "db/prod/"; "db/prod/one/"; "db/test/"; "app/"; "ops/"].
End TagExamples.

(** A tag is shown to an account when one of the account's paths has the
    root of the tag's path and one of the two paths begins with the
    other. *)
Definition shown (owned : list string) (tagPath : string) : bool :=
  existsb (λ p, bool_decide (upTo "/" p = upTo "/" tagPath) && TagApi.related tagPath p)
          owned.

(** The path holds a slash. *)
Definition hasSlash (path : string) : Prop := (0 < countByte "/" path)%nat.

(** * Properties *)

(** ** Strings *)

Lemma string_app_cons (c : ascii) (a b : string) :
  String c a +:+ b = String c (a +:+ b).
Proof. reflexivity. Qed.

Lemma string_app_nil_r (s : string) : s +:+ "" = s.
Proof. induction s as [|c s IH]; [done | by rewrite string_app_cons, IH]. Qed.

Lemma string_app_assoc (a b c : string) : (a +:+ b) +:+ c = a +:+ (b +:+ c).
Proof. induction a as [|x a IH]; [done | by rewrite !string_app_cons, IH]. Qed.

Lemma string_app_length (a b : string) :
  String.length (a +:+ b) = (String.length a + String.length b)%nat.
Proof. induction a as [|x a IH]; [done | by rewrite string_app_cons; simpl; rewrite IH]. Qed.

Lemma strings_TrimSuffix_app (a suffix : string) :
  strings_TrimSuffix (a +:+ suffix) suffix = a.
Proof.
  induction a as [|c a IH].
  - destruct suffix; simpl; [done|]. by rewrite Ascii.eqb_refl, String.eqb_refl.
  - change (String c a +:+ suffix) with (String c (a +:+ suffix)).
    cbn [strings_TrimSuffix].
    destruct (String.eqb_spec (String c (a +:+ suffix)) suffix) as [E|_].
    + apply (f_equal String.length) in E. simpl in E.
      rewrite string_app_length in E. lia.
    + by rewrite IH.
Qed.

Lemma strings_Repeat_S_Join (x sep : string) (n : nat) :
  strings_Repeat (x +:+ sep) (S n) = strings_Join (replicate (S n) x) sep +:+ sep.
Proof.
  induction n as [|n IH].
  - simpl. by rewrite string_app_nil_r.
  - change (strings_Repeat (x +:+ sep) (S (S n)))
      with ((x +:+ sep) +:+ strings_Repeat (x +:+ sep) (S n)).
    rewrite IH. simpl. by rewrite !string_app_assoc.
Qed.

(** Repeating [x,] and trimming the last comma joins the copies of [x]. *)
Lemma strings_TrimSuffix_Repeat (x sep : string) (n : nat) :
  strings_TrimSuffix (strings_Repeat (x +:+ sep) n) sep
  = strings_Join (replicate n x) sep.
Proof.
  destruct n as [|n].
  - simpl. by destruct sep.
  - rewrite strings_Repeat_S_Join. apply strings_TrimSuffix_app.
Qed.

Lemma countByte_app (c : ascii) (a b : string) :
  countByte c (a +:+ b) = (countByte c a + countByte c b)%nat.
Proof.
  induction a as [|x a IH]; [done|].
  rewrite string_app_cons. simpl. rewrite IH. lia.
Qed.

Lemma countByte_Join_replicate (c : ascii) (x sep : string) (n : nat) :
  countByte c sep = 0%nat →
  countByte c (strings_Join (replicate n x) sep) = (n * countByte c x)%nat.
Proof.
  intros Hsep. induction n as [|n IH]; [done|].
  destruct n as [|n]; [simpl; lia|].
  change (strings_Join (replicate (S (S n)) x) sep)
    with (x +:+ sep +:+ strings_Join (replicate (S n) x) sep).
  rewrite !countByte_app, IH, Hsep. lia.
Qed.

(** ** The monad of the drivers *)

Section Run.
Context {DB : Type} `{!DbConn DB}.

Lemma run_bind {A B} (m : M DB A) (k : A → M DB B) (w : World DB) :
  (m ≫= k) w
  = match m w with
    | (Ret a, w') => k a w'
    | (Panic p, w') => (Panic p, w')
    end.
Proof. reflexivity. Qed.

Lemma run_bind_ret {A B} (m : M DB A) (k : A → M DB B) (w w' : World DB) (a : A) :
  m w = (Ret a, w') → (m ≫= k) w = k a w'.
Proof. intros E. by rewrite run_bind, E. Qed.

Lemma run_bind_panic {A B} (m : M DB A) (k : A → M DB B) (w w' : World DB) p :
  m w = (Panic p, w') → (m ≫= k) w = (Panic p, w').
Proof. intros E. by rewrite run_bind, E. Qed.

Lemma run_ret {A} (a : A) (w : World DB) : (mret a : M DB A) w = (Ret a, w).
Proof. reflexivity. Qed.

Lemma run_TxExec (sql : string) (args : list any) (w : World DB) :
  dc_TxExec sql args w
  = (Ret (dcTxExec sql args (wdb w)).1,
     mkWorld (dcTxExec sql args (wdb w)).2 (wtrace w ++ [EvTxExec sql args])).
Proof. unfold dc_TxExec. by destruct (dcTxExec sql args (wdb w)). Qed.

Lemma run_Query (sql : string) (args : list any) (w : World DB) :
  dc_Query sql args w
  = (Ret (dcQuery sql args (wdb w)).1,
     mkWorld (dcQuery sql args (wdb w)).2 (wtrace w ++ [EvQuery sql args])).
Proof. unfold dc_Query. by destruct (dcQuery sql args (wdb w)). Qed.
End Run.

(** ** Batch insert: the simple path *)

Section SimpleInsert.
Context {DB : Type} `{!DbConn DB} `{!Helpers} `{!DuplicateStrategies}.

Lemma placeholders_Join (columns : list string) (values : list (list any)) :
  Mssql.placeholders columns values
  = strings_Join (replicate (length values) (rowPlaceholder (length columns))) ",".
Proof.
  unfold Mssql.placeholders, rowPlaceholder.
  change "?," with ("?" +:+ ",").
  rewrite (strings_TrimSuffix_Repeat "?" "," (length columns)).
  apply (strings_TrimSuffix_Repeat _ "," (length values)).
Qed.

Lemma rowPlaceholder_count (n : nat) : countByte "?" (rowPlaceholder n) = n.
Proof.
  unfold rowPlaceholder.
  rewrite !countByte_app, (countByte_Join_replicate "?" "?" "," n) by done.
  simpl. lia.
Qed.

(** With a strategy other than Ignore the simple path sends one statement. *)
Lemma batchInsertSimple_plain (tableName : string) (columns : list string)
    (values : list (list any)) (strategy : Z) (w : World DB) :
  strategy ≠ DuplicateStrategyIgnore →
  let stmt := Mssql.identityInsertOn Mssql.currentSchema tableName +:+ " "
              +:+ Mssql.insertSql Mssql.currentSchema tableName columns values in
  Mssql.batchInsertSimple tableName columns values strategy w
  = (Ret (dcTxExec stmt (concat values) (wdb w)).1,
     mkWorld (dcTxExec stmt (concat values) (wdb w)).2
       (wtrace w ++ [EvTxExec stmt (concat values)])).
Proof.
  intros Hs stmt. unfold Mssql.batchInsertSimple.
  rewrite bool_decide_eq_false_2 by done.
  rewrite (run_bind_ret _ _ w w "") by done.
  rewrite (run_bind_ret _ _ _ _ _ (run_TxExec _ _ _)).
  subst stmt. by destruct (dcTxExec _ _ _) as [[res e] db'].
Qed.

(** C2, as the code has it: with strategy None the loader executes exactly
    one statement, the multi-row [INSERT] prefixed with
    [SET IDENTITY_INSERT ... ON], bound to the rows flattened in row-major
    order, and returns what that statement returned; no statement follows
    it. The placeholder text is one group [(?,...,?)] per row, each with
    [len(columns)] marks, and the value at position [j] of row [i] is bound
    after all the values of the rows before it. *)
Theorem batchInsertSimple_none (tableName : string) (columns : list string)
    (values : list (list any)) (w : World DB) :
  DuplicateStrategyNone ≠ DuplicateStrategyIgnore →
  let schema := Mssql.currentSchema in
  let insert :=
    "insert into " +:+ QuoteIdentifier schema +:+ "." +:+ QuoteIdentifier tableName
      +:+ " (" +:+ strings_Join columns ","
      +:+ ") values "
      +:+ strings_Join (replicate (length values) (rowPlaceholder (length columns))) "," in
  let stmt := "SET IDENTITY_INSERT [" +:+ schema +:+ "].[" +:+ tableName +:+ "] ON"
                +:+ " " +:+ insert in
  let args := concat values in
  Mssql.batchInsertSimple tableName columns values DuplicateStrategyNone w
  = (Ret (dcTxExec stmt args (wdb w)).1,
     mkWorld (dcTxExec stmt args (wdb w)).2 (wtrace w ++ [EvTxExec stmt args]))
  ∧ countByte "?" (rowPlaceholder (length columns)) = length columns
  ∧ (∀ i j row v,
       values !! i = Some row → row !! j = Some v →
       args !! (length (concat (take i values)) + j)%nat = Some v).
Proof.
  intros Hnone schema insert stmt args. split; [|split].
  - rewrite batchInsertSimple_plain by done.
    unfold Mssql.insertSql, Mssql.identityInsertOn.
    by rewrite placeholders_Join, !string_app_assoc.
  - apply rowPlaceholder_count.
  - intros i j row v Hrow Hv. subst args.
    assert (concat values
            = concat (take i values) ++ row ++ concat (drop (S i) values)) as ->.
    { rewrite <- (take_drop_middle values i row Hrow) at 1.
      by rewrite concat_app, concat_cons. }
    rewrite lookup_app_r by lia.
    replace (length (concat (take i values)) + j - length (concat (take i values)))%nat
      with j by lia.
    by apply lookup_app_l_Some.
Qed.
End SimpleInsert.

Section SimpleInsertScenario.
Local Existing Instances Demo.conn Demo.helpers Demo.strategies.

(** The witness of C2: the scenario of the spec, with the strategies
    numbered 1, 2, 3. *)
Lemma batchInsertSimple_none_witness :
  observe (Mssql.batchInsertSimple "t" Examples.columns Examples.rows
             DuplicateStrategyNone (Demo.start Examples.plain))
  = (Ret (2, None),
     [EvTxExec Examples.insertStmt [AnyInt 1; AnyString "a"; AnyInt 2; AnyString "b"]]).
Proof.
  destruct (batchInsertSimple_none "t" Examples.columns Examples.rows
              (Demo.start Examples.plain)) as [-> _]; [done|].
  by vm_compute.
Defined.

(** C2, as the spec words it, fails on the scenario of the spec: the trace of
    the call is the one insert statement, and nothing is executed after it,
    so there is no [OFF] attempt. *)
Lemma batchInsertSimple_none_no_off :
  observe (Mssql.batchInsertSimple "t" Examples.columns Examples.rows
             DuplicateStrategyNone (Demo.start Examples.plain))
  = (Ret (2, None),
     [EvTxExec Examples.insertStmt [AnyInt 1; AnyString "a"; AnyInt 2; AnyString "b"]])
  ∧ ¬ statementAfter
        (EvTxExec Examples.insertStmt [AnyInt 1; AnyString "a"; AnyInt 2; AnyString "b"])
        (wtrace (Mssql.batchInsertSimple "t" Examples.columns Examples.rows
                   DuplicateStrategyNone (Demo.start Examples.plain)).2).
Proof.
  split; [by vm_compute|].
  intros (pre & sql & args & post & Htrace & Hin).
  assert (length (pre ++ EvTxExec Examples.insertStmt
                           [AnyInt 1; AnyString "a"; AnyInt 2; AnyString "b"] :: post)
          = 1%nat) as Hlen by (by rewrite <- Htrace).
  rewrite length_app in Hlen. simpl in Hlen.
  destruct post; [by apply elem_of_nil in Hin | simpl in Hlen; lia].
Qed.
End SimpleInsertScenario.

(** ** Batch insert: the Ignore strategy *)

(** A byte that the pattern does not hold ends every match before it. *)
Lemma prefix_app_stop (sep a : string) (c : ascii) (b : string) :
  countByte c sep = 0%nat →
  String.prefix sep (a +:+ String c b) = String.prefix sep a.
Proof.
  revert a. induction sep as [|y sep IH]; intros a Hc.
  - by destruct a.
  - cbn [countByte] in Hc. destruct (Ascii.eqb y c) eqn:E; [lia|].
    destruct a as [|x a].
    + change ("" +:+ String c b) with (String c b). cbn [String.prefix].
      destruct (ascii_dec y c) as [->|]; [by rewrite Ascii.eqb_refl in E|done].
    + rewrite string_app_cons. cbn [String.prefix].
      destruct (ascii_dec y x); [by apply IH|done].
Qed.

Lemma Contains_app_stop (sep a : string) (c : ascii) (b : string) :
  countByte c sep = 0%nat → sep ≠ "" →
  strings_Contains (a +:+ String c b) sep
  = strings_Contains a sep || strings_Contains b sep.
Proof.
  intros Hc Hsep. induction a as [|x a IH].
  - pose proof (prefix_app_stop sep "" c b Hc) as Hstop.
    change ("" +:+ String c b) with (String c b) in *. cbn [strings_Contains].
    rewrite Hstop. by destruct sep.
  - rewrite string_app_cons. cbn [strings_Contains].
    change (String x (a +:+ String c b)) with (String x a +:+ String c b).
    by rewrite prefix_app_stop, IH, orb_assoc.
Qed.

(** The scan passes a part without the pattern, and the stop byte after it,
    into the current piece. *)
Lemma split_scan_free (sep a : string) (c : ascii) (rest cur : string) :
  countByte c sep = 0%nat → sep ≠ "" →
  strings_Contains a sep = false →
  split_scan sep (a +:+ String c rest) 0 cur
  = split_scan sep rest 0 (cur +:+ a +:+ String c "").
Proof.
  intros Hc Hsep. revert cur. induction a as [|x a IH]; intros cur Ha.
  - pose proof (prefix_app_stop sep "" c rest Hc) as Hstop.
    change ("" +:+ String c rest) with (String c rest) in *. cbn [split_scan].
    rewrite Hstop. by destruct sep.
  - cbn [strings_Contains] in Ha. apply orb_false_iff in Ha as [Hx Ha].
    rewrite string_app_cons. cbn [split_scan].
    change (String x (a +:+ String c rest)) with (String x a +:+ String c rest).
    rewrite prefix_app_stop, Hx by done.
    by rewrite (IH _ Ha), string_app_assoc.
Qed.

(** A list of strings without the pattern, joined by commas, is without
    it. *)
Lemma Contains_Join (sep : string) (elems : list string) :
  countByte "," sep = 0%nat → sep ≠ "" →
  Forall (λ e, strings_Contains e sep = false) elems →
  strings_Contains (strings_Join elems ",") sep = false.
Proof.
  intros Hc Hsep Helems. induction Helems as [|e elems He _ IH].
  - by destruct sep.
  - destruct elems as [|e' elems]; [done|].
    change (strings_Join (e :: e' :: elems) ",")
      with (e +:+ String "," (strings_Join (e' :: elems) ",")).
    by rewrite Contains_app_stop, He, IH.
Qed.

(** The template whose only placeholder is the one before its closing
    bracket: replacing the placeholder fills it in there. *)
Lemma ReplaceAll_sign (a new : string) :
  strings_Contains a "{sign}" = false →
  strings_ReplaceAll (a +:+ " {sign})") "{sign}" new = a +:+ " " +:+ new +:+ ")".
Proof.
  intros Ha. unfold strings_ReplaceAll.
  change (a +:+ " {sign})") with (a +:+ String " " "{sign})").
  rewrite (split_scan_free "{sign}" a " " "{sign})" "") by done.
  change (split_scan "{sign}" "{sign})" 0 ("" +:+ a +:+ " "))
    with [a +:+ " "; ")"].
  change (strings_Join [a +:+ " "; ")"] new) with ((a +:+ " ") +:+ new +:+ ")").
  by rewrite string_app_assoc.
Qed.

(** With names that do not hold the placeholder, the two statements of the
    Ignore strategy are the template with [ON] and [OFF] in its last
    bracket. *)
Lemma ignoreDupTemplate_sign (schema tableName : string)
    (uniqueColumns : list string) (new : string) :
  strings_Contains schema "{sign}" = false →
  strings_Contains tableName "{sign}" = false →
  Forall (λ c, strings_Contains c "{sign}" = false) uniqueColumns →
  strings_ReplaceAll (Mssql.ignoreDupTemplate schema tableName uniqueColumns)
    "{sign}" new
  = "ALTER TABLE " +:+ schema +:+ "." +:+ tableName
      +:+ " ADD CONSTRAINT uniqueRows UNIQUE (" +:+ strings_Join uniqueColumns ","
      +:+ ") WITH (IGNORE_DUP_KEY = " +:+ new +:+ ")".
Proof.
  intros Hschema Htable Hcols.
  pose ("ALTER TABLE " +:+ schema +:+ "." +:+ tableName
          +:+ " ADD CONSTRAINT uniqueRows UNIQUE (" +:+ strings_Join uniqueColumns ","
          +:+ ") WITH (IGNORE_DUP_KEY =") as a.
  assert (Mssql.ignoreDupTemplate schema tableName uniqueColumns = a +:+ " {sign})")
    as ->.
  { unfold Mssql.ignoreDupTemplate, a. by rewrite !string_app_assoc. }
  rewrite ReplaceAll_sign.
  - unfold a. by rewrite !string_app_assoc.
  - change a with
      ("ALTER TABLE" +:+ String " " (schema +:+ String "." (tableName +:+ String " "
         ("ADD CONSTRAINT uniqueRows UNIQUE " +:+ String "("
            (strings_Join uniqueColumns "," +:+ String ")" " WITH (IGNORE_DUP_KEY ="))))).
    rewrite !Contains_app_stop by done.
    by rewrite Hschema, Htable, Contains_Join.
Qed.


Section IgnoreInsert.
Context {DB : Type} `{!DbConn DB} `{!Helpers} `{!DuplicateStrategies}.

(** C1, as the code has it: when the columns collected from the unique
    indexes are not empty, the loader executes, after the index lookup,
    three statements in this order and no other, whatever each of them
    returns: the [ADD CONSTRAINT uniqueRows] template with every [{sign}]
    replaced by [ON], the insert, and the template with every [{sign}]
    replaced by [OFF]. The results of the first and the last are discarded,
    and the call returns what the insert returned, success or failure. When
    the schema, the table name and the columns do not hold the text
    [{sign}], the first and the last statement are the [ADD CONSTRAINT]
    statement with [IGNORE_DUP_KEY = ON] and with [IGNORE_DUP_KEY = OFF]. *)
Theorem batchInsertSimple_ignore (tableName : string) (columns : list string)
    (values : list (list any)) (w w1 : World DB) (indexs : list Index) (e : error) :
  Mssql.getTableIndexWithPK tableName w = (Ret (indexs, e), w1) →
  Mssql.collectUniqueColumns indexs ≠ [] →
  let schema := Mssql.currentSchema in
  let template :=
    "ALTER TABLE " +:+ schema +:+ "." +:+ tableName
      +:+ " ADD CONSTRAINT uniqueRows UNIQUE ("
      +:+ strings_Join (Mssql.collectUniqueColumns indexs) ","
      +:+ ") WITH (IGNORE_DUP_KEY = {sign})" in
  let on := strings_ReplaceAll template "{sign}" "ON" in
  let off := strings_ReplaceAll template "{sign}" "OFF" in
  let stmt := Mssql.identityInsertOn schema tableName +:+ " "
              +:+ Mssql.insertSql schema tableName columns values in
  let r1 := dcTxExec on [] (wdb w1) in
  let r2 := dcTxExec stmt (concat values) r1.2 in
  let r3 := dcTxExec off [] r2.2 in
  Mssql.batchInsertSimple tableName columns values DuplicateStrategyIgnore w
  = (Ret r2.1,
     mkWorld r3.2
       (wtrace w1 ++ [EvTxExec on []; EvTxExec stmt (concat values); EvTxExec off []]))
  ∧ (strings_Contains schema "{sign}" = false →
     strings_Contains tableName "{sign}" = false →
     Forall (λ c, strings_Contains c "{sign}" = false)
       (Mssql.collectUniqueColumns indexs) →
     on = "ALTER TABLE " +:+ schema +:+ "." +:+ tableName
            +:+ " ADD CONSTRAINT uniqueRows UNIQUE ("
            +:+ strings_Join (Mssql.collectUniqueColumns indexs) ","
            +:+ ") WITH (IGNORE_DUP_KEY = ON)"
     ∧ off = "ALTER TABLE " +:+ schema +:+ "." +:+ tableName
               +:+ " ADD CONSTRAINT uniqueRows UNIQUE ("
               +:+ strings_Join (Mssql.collectUniqueColumns indexs) ","
               +:+ ") WITH (IGNORE_DUP_KEY = OFF)").
Proof.
  intros Hidx Hne schema template on off stmt r1 r2 r3.
  split;
    [|intros Hschema Htable Hcols; split;
      [exact (ignoreDupTemplate_sign schema tableName _ "ON" Hschema Htable Hcols)
      |exact (ignoreDupTemplate_sign schema tableName _ "OFF" Hschema Htable Hcols)]].
  unfold Mssql.batchInsertSimple.
  rewrite bool_decide_eq_true_2 by done.
  rewrite (run_bind _ (λ ignoreDupSql, _)).
  rewrite (run_bind_ret _ _ _ _ _ Hidx).
  rewrite bool_decide_eq_true_2
    by (destruct (Mssql.collectUniqueColumns indexs); [done | simpl; lia]).
  rewrite (run_bind_ret _ _ _ _ _ (run_TxExec _ _ _)), run_ret.
  rewrite (run_bind_ret _ _ _ _ _ (run_TxExec _ _ _)).
  fold schema. unfold Mssql.ignoreDupTemplate. fold template on stmt. cbn [wdb wtrace].
  fold r1. fold r2.
  destruct r2.1 as [res err'] eqn:Er2.
  change (negb (template =? "")%string) with true. cbn match.
  rewrite (run_bind _ (λ _, mret (res, err'))).
  rewrite (run_bind_ret _ _ _ _ _ (run_TxExec _ _ _)), !run_ret.
  fold off. cbn [wdb wtrace]. fold r3.
  by rewrite <- !(assoc_L (++)).
Qed.
End IgnoreInsert.

Section IgnoreInsertScenario.
Local Existing Instances Demo.conn Demo.helpers Demo.strategies.

(** The witness of C1: the table with the unique index [uq_ab] on [a], [b],
    on a connection that accepts every statement. *)
Lemma batchInsertSimple_ignore_witness :
  observe (Mssql.batchInsertSimple "t" Examples.columns Examples.rows
             DuplicateStrategyIgnore (Demo.start IgnoreExamples.accepted))
  = (Ret (2, None),
     [IgnoreExamples.indexQuery; IgnoreExamples.constraintOn;
      IgnoreExamples.insert; IgnoreExamples.constraintOff]).
Proof.
  destruct (batchInsertSimple_ignore "t" Examples.columns Examples.rows
              (Demo.start IgnoreExamples.accepted)
              (Mssql.getTableIndexWithPK "t" (Demo.start IgnoreExamples.accepted)).2
              (Mssql.indexOfRow <$> IgnoreExamples.uniqueIndex) None)
    as [Hrun Hsign].
  - by vm_compute.
  - by vm_compute.
  - destruct Hsign as [Hon Hoff].
    + by vm_compute.
    + by vm_compute.
    + repeat constructor.
    + rewrite Hrun, Hon, Hoff. by vm_compute.
Defined.

(** C1, as the spec words it, fails on that table, whether the insert is
    accepted or rejected: the statement executed after the insert is the
    [ADD CONSTRAINT] statement again, and no statement of the call drops the
    constraint. *)
Lemma batchInsertSimple_ignore_no_removal :
  observe (Mssql.batchInsertSimple "t" Examples.columns Examples.rows
             DuplicateStrategyIgnore (Demo.start IgnoreExamples.accepted))
  = (Ret (2, None),
     [IgnoreExamples.indexQuery; IgnoreExamples.constraintOn;
      IgnoreExamples.insert; IgnoreExamples.constraintOff])
  ∧ observe (Mssql.batchInsertSimple "t" Examples.columns Examples.rows
               DuplicateStrategyIgnore (Demo.start IgnoreExamples.rejected))
    = (Ret (0, Some (errors_New "statement failed")),
       [IgnoreExamples.indexQuery; IgnoreExamples.constraintOn;
        IgnoreExamples.insert; IgnoreExamples.constraintOff])
  ∧ ¬ removalAfter IgnoreExamples.insert
        (wtrace (Mssql.batchInsertSimple "t" Examples.columns Examples.rows
                   DuplicateStrategyIgnore (Demo.start IgnoreExamples.accepted)).2)
  ∧ ¬ removalAfter IgnoreExamples.insert
        (wtrace (Mssql.batchInsertSimple "t" Examples.columns Examples.rows
                   DuplicateStrategyIgnore (Demo.start IgnoreExamples.rejected)).2).
Proof.
  assert (∀ trace,
            trace = [IgnoreExamples.indexQuery; IgnoreExamples.constraintOn;
                     IgnoreExamples.insert; IgnoreExamples.constraintOff] →
            ¬ removalAfter IgnoreExamples.insert trace) as Hno.
  { intros trace -> (pre & sql & args & post & Htrace & Hin & Hdrop).
    assert (∀ ev, ev ∈ post → ev ∈ [IgnoreExamples.indexQuery; IgnoreExamples.constraintOn;
                     IgnoreExamples.insert; IgnoreExamples.constraintOff]) as Hsub.
    { intros ev Hev. rewrite Htrace. set_solver. }
    apply Hsub in Hin.
    repeat (apply elem_of_cons in Hin as [Hin|Hin]);
      try (by apply elem_of_nil in Hin); try discriminate Hin;
      inversion Hin; subst sql; by vm_compute in Hdrop. }
  split; [by vm_compute|]. split; [by vm_compute|].
  split; apply Hno; by vm_compute.
Qed.
End IgnoreInsertScenario.

(** ** Batch insert: the Update strategy without a primary key *)

Section MergeFallback.
Context {DB : Type} `{!DbConn DB} `{!Helpers} `{!DuplicateStrategies}.

Lemma mergeScan_acc (cols : list Mssql.Column) (ids : list string) :
  (∀ col, col ∈ cols → Mssql.IsPrimaryKey col = false) →
  ∃ ids',
    fold_left
      (λ '(identityCols, pkCols, caseSqls) col,
         let identityCols :=
           if Mssql.IsIdentity col then identityCols ++ [Mssql.ColumnName col]
           else identityCols in
         if Mssql.IsPrimaryKey col then
           let name := QuoteIdentifier (Mssql.ColumnName col) in
           (identityCols, pkCols ++ [Mssql.ColumnName col],
            caseSqls ++ [" T1." +:+ name +:+ " = T2." +:+ name +:+ " "])
         else (identityCols, pkCols, caseSqls))
      cols (ids, [], [])
    = (ids', [], []).
Proof.
  revert ids. induction cols as [|col cols IH]; intros ids Hpk.
  - by exists ids.
  - cbn [fold_left]. rewrite (Hpk col) by set_solver.
    apply IH. intros c Hc. apply Hpk. set_solver.
Qed.

Lemma mergeScan_no_pk (cols : list Mssql.Column) :
  (∀ col, col ∈ cols → Mssql.IsPrimaryKey col = false) →
  ∃ ids, Mssql.mergeScan cols = (ids, [], []).
Proof. apply mergeScan_acc. Qed.

(** C6: with strategy Update on a table without a primary-key column, the
    call, once it has read the columns, does what the call with strategy
    None does from there: the same outcome (rows affected and error) and
    the same statements, which are the one insert statement and no
    [MERGE]. *)
Theorem BatchInsert_update_without_pk (tableName : string) (columns : list string)
    (values : list (list any)) (w w1 : World DB) (cols : list Mssql.Column)
    (e : error) :
  strategiesDistinct →
  Mssql.GetColumns [tableName] w = (Ret (cols, e), w1) →
  (∀ col, col ∈ cols → Mssql.IsPrimaryKey col = false) →
  let stmt := Mssql.identityInsertOn Mssql.currentSchema tableName +:+ " "
              +:+ Mssql.insertSql Mssql.currentSchema tableName columns values in
  Mssql.BatchInsert tableName columns values DuplicateStrategyUpdate w
  = Mssql.BatchInsert tableName columns values DuplicateStrategyNone w1
  ∧ Mssql.BatchInsert tableName columns values DuplicateStrategyUpdate w
    = (Ret (dcTxExec stmt (concat values) (wdb w1)).1,
       mkWorld (dcTxExec stmt (concat values) (wdb w1)).2
         (wtrace w1 ++ [EvTxExec stmt (concat values)])).
Proof.
  intros (Hni & Hnu & Hiu) Hcols Hpk stmt.
  assert (Mssql.BatchInsert tableName columns values DuplicateStrategyUpdate w
          = Mssql.batchInsertSimple tableName columns values DuplicateStrategyUpdate w1)
    as Hfall.
  { unfold Mssql.BatchInsert. rewrite bool_decide_eq_true_2 by done.
    unfold Mssql.batchInsertMerge.
    rewrite (run_bind_ret _ _ _ _ _ Hcols).
    destruct (mergeScan_no_pk cols Hpk) as [ids ->].
    by rewrite bool_decide_eq_true_2. }
  rewrite Hfall. unfold Mssql.BatchInsert.
  rewrite bool_decide_eq_false_2 by done.
  by rewrite !batchInsertSimple_plain by congruence.
Qed.
End MergeFallback.

Section MergeFallbackScenario.
Local Existing Instances Demo.conn Demo.helpers Demo.strategies.

(** The witness of C6: a table with the columns [id] and [name] and no
    primary key. *)
Lemma BatchInsert_update_without_pk_witness :
  observe (Mssql.BatchInsert "t" Examples.columns Examples.rows DuplicateStrategyUpdate
             (Demo.start KeyExamples.keyless))
  = (Ret (2, None), [KeyExamples.mssqlColumnQuery; IgnoreExamples.insert]).
Proof.
  destruct (BatchInsert_update_without_pk "t" Examples.columns Examples.rows
              (Demo.start KeyExamples.keyless)
              (Mssql.GetColumns ["t"] (Demo.start KeyExamples.keyless)).2
              (Mssql.columnOfRow <$> KeyExamples.keyless.(Demo.columnRows).1) None)
    as [_ ->].
  - by repeat split.
  - by vm_compute.
  - intros col Hcol. vm_compute in Hcol.
    repeat (apply elem_of_cons in Hcol as [->|Hcol]); try done.
    by apply elem_of_nil in Hcol.
  - by vm_compute.
Defined.
End MergeFallbackScenario.

(** ** Primary-key resolution *)

Section PrimaryKey.
Context {DB : Type} `{!DbConn DB} `{!Helpers}.

Lemma mssql_firstPrimaryKey_none (cols : list Mssql.Column) :
  (∀ x, x ∈ cols → Mssql.IsPrimaryKey x = false) → Mssql.firstPrimaryKey cols = None.
Proof.
  induction cols as [|c cols IH]; intros Hno; [done|].
  simpl. rewrite (Hno c) by set_solver. apply IH. intros x Hx. apply Hno. set_solver.
Qed.

Lemma mssql_firstPrimaryKey_first (pre post : list Mssql.Column) (c : Mssql.Column) :
  (∀ x, x ∈ pre → Mssql.IsPrimaryKey x = false) → Mssql.IsPrimaryKey c = true →
  Mssql.firstPrimaryKey (pre ++ c :: post) = Some (Mssql.ColumnName c).
Proof.
  induction pre as [|p pre IH]; intros Hno Hc; simpl.
  - by rewrite Hc.
  - rewrite (Hno p) by set_solver. apply IH; [|done]. intros x Hx. apply Hno. set_solver.
Qed.

Lemma mysql_firstPrimaryKey_none (cols : list Mysql.Column) :
  (∀ x, x ∈ cols → Mysql.IsPrimaryKey x = false) → Mysql.firstPrimaryKey cols = None.
Proof.
  induction cols as [|c cols IH]; intros Hno; [done|].
  simpl. rewrite (Hno c) by set_solver. apply IH. intros x Hx. apply Hno. set_solver.
Qed.

Lemma mysql_firstPrimaryKey_first (pre post : list Mysql.Column) (c : Mysql.Column) :
  (∀ x, x ∈ pre → Mysql.IsPrimaryKey x = false) → Mysql.IsPrimaryKey c = true →
  Mysql.firstPrimaryKey (pre ++ c :: post) = Some (Mysql.ColumnName c).
Proof.
  induction pre as [|p pre IH]; intros Hno Hc; simpl.
  - by rewrite Hc.
  - rewrite (Hno p) by set_solver. apply IH; [|done]. intros x Hx. apply Hno. set_solver.
Qed.

(** What [GetPrimaryKey] returns once [GetColumns] has answered without
    an error, for the driver of MSSQL. *)
Lemma mssql_GetPrimaryKey_run (tablename : string) (w w1 : World DB)
    (cols : list Mssql.Column) :
  Mssql.GetColumns [tablename] w = (Ret (cols, None), w1) →
  Mssql.GetPrimaryKey tablename w
  = (Ret match cols with
         | [] => ("", Some (TableNotFound tablename))
         | c :: _ => (default (Mssql.ColumnName c) (Mssql.firstPrimaryKey cols), None)
         end, w1).
Proof.
  intros Hcols. unfold Mssql.GetPrimaryKey. rewrite (run_bind_ret _ _ _ _ _ Hcols).
  destruct cols as [|c cols]; [done|].
  rewrite bool_decide_eq_false_2 by done.
  by destruct (Mssql.firstPrimaryKey (c :: cols)).
Qed.

Lemma mysql_GetPrimaryKey_run (tablename : string) (w w1 : World DB)
    (cols : list Mysql.Column) :
  Mysql.GetColumns [tablename] w = (Ret (cols, None), w1) →
  Mysql.GetPrimaryKey tablename w
  = (Ret match cols with
         | [] => ("", Some (TableNotFound tablename))
         | c :: _ => (default (Mysql.ColumnName c) (Mysql.firstPrimaryKey cols), None)
         end, w1).
Proof.
  intros Hcols. unfold Mysql.GetPrimaryKey. rewrite (run_bind_ret _ _ _ _ _ Hcols).
  destruct cols as [|c cols]; [done|].
  rewrite bool_decide_eq_false_2 by done.
  by destruct (Mysql.firstPrimaryKey (c :: cols)).
Qed.

(** C7: in both drivers, when the introspection of the columns answers
    (without an error of its own), [GetPrimaryKey] fails with
    [TableNotFound] exactly when there are no columns; otherwise it
    returns, without an error, the name of the first column flagged
    primary key in declaration order, and the name of the first column
    when no column is flagged. *)
Theorem GetPrimaryKey_spec (tablename : string) (w : World DB) :
  (∀ cols w1,
     Mssql.GetColumns [tablename] w = (Ret (cols, None), w1) →
     let r := (Mssql.GetPrimaryKey tablename w).1 in
     (r = Ret ("", Some (TableNotFound tablename)) ↔ cols = [])
     ∧ (∀ pre c post,
          cols = pre ++ c :: post →
          (∀ x, x ∈ pre → Mssql.IsPrimaryKey x = false) →
          Mssql.IsPrimaryKey c = true →
          r = Ret (Mssql.ColumnName c, None))
     ∧ (∀ c rest,
          cols = c :: rest →
          (∀ x, x ∈ cols → Mssql.IsPrimaryKey x = false) →
          r = Ret (Mssql.ColumnName c, None)))
  ∧ (∀ cols w1,
       Mysql.GetColumns [tablename] w = (Ret (cols, None), w1) →
       let r := (Mysql.GetPrimaryKey tablename w).1 in
       (r = Ret ("", Some (TableNotFound tablename)) ↔ cols = [])
       ∧ (∀ pre c post,
            cols = pre ++ c :: post →
            (∀ x, x ∈ pre → Mysql.IsPrimaryKey x = false) →
            Mysql.IsPrimaryKey c = true →
            r = Ret (Mysql.ColumnName c, None))
       ∧ (∀ c rest,
            cols = c :: rest →
            (∀ x, x ∈ cols → Mysql.IsPrimaryKey x = false) →
            r = Ret (Mysql.ColumnName c, None))).
Proof.
  split; intros cols w1 Hcols r; subst r.
  - rewrite (mssql_GetPrimaryKey_run _ _ _ _ Hcols). cbn [fst].
    split; [|split].
    + destruct cols; [done|]. split; intros E; discriminate E.
    + intros pre c post -> Hpre Hc.
      rewrite mssql_firstPrimaryKey_first by done. by destruct pre.
    + intros c rest -> Hno. by rewrite mssql_firstPrimaryKey_none.
  - rewrite (mysql_GetPrimaryKey_run _ _ _ _ Hcols). cbn [fst].
    split; [|split].
    + destruct cols; [done|]. split; intros E; discriminate E.
    + intros pre c post -> Hpre Hc.
      rewrite mysql_firstPrimaryKey_first by done. by destruct pre.
    + intros c rest -> Hno. by rewrite mysql_firstPrimaryKey_none.
Qed.
End PrimaryKey.

Section PrimaryKeyScenario.
Local Existing Instances Demo.conn Demo.helpers Demo.strategies.

(** The witness of C7: a table whose second column is the first primary
    key, in both drivers; a table without a primary key; and a table without
    columns. *)
Lemma GetPrimaryKey_spec_witness :
  (Mssql.GetPrimaryKey "t" (Demo.start KeyExamples.keyed)).1 = Ret ("code", None)
  ∧ (Mysql.GetPrimaryKey "t" (Demo.start KeyExamples.keyed)).1 = Ret ("code", None)
  ∧ (Mssql.GetPrimaryKey "t" (Demo.start KeyExamples.keyless)).1 = Ret ("id", None)
  ∧ (Mssql.GetPrimaryKey "t" (Demo.start Examples.plain)).1
    = Ret ("", Some (TableNotFound "t")).
Proof.
  destruct (GetPrimaryKey_spec "t" (Demo.start KeyExamples.keyed)) as [Hms Hmy].
  destruct (GetPrimaryKey_spec "t" (Demo.start KeyExamples.keyless)) as [Hless _].
  destruct (GetPrimaryKey_spec "t" (Demo.start Examples.plain)) as [Hplain _].
  split; [|split; [|split]].
  - destruct (Hms _ _ eq_refl) as (_ & Hfirst & _).
    apply (Hfirst [Mssql.mkColumn "t" "id" "int" "" "NO" false true "" ""]
             (Mssql.mkColumn "t" "code" "int" "" "NO" true false "" "")
             [Mssql.mkColumn "t" "name" "int" "" "NO" true false "" ""]);
      [by vm_compute | | done].
    intros x Hx. apply list_elem_of_singleton in Hx. by subst x.
  - destruct (Hmy _ _ eq_refl) as (_ & Hfirst & _).
    apply (Hfirst [Mysql.mkColumn "t" "id" "int" "" false false true "" 0 0 0]
             (Mysql.mkColumn "t" "code" "int" "" false true false "" 0 0 0)
             [Mysql.mkColumn "t" "name" "int" "" false true false "" 0 0 0]);
      [by vm_compute | | done].
    intros x Hx. apply list_elem_of_singleton in Hx. by subst x.
  - destruct (Hless _ _ eq_refl) as (_ & _ & Hnone).
    apply (Hnone (Mssql.mkColumn "t" "id" "int" "" "NO" false true "" "")
             [Mssql.mkColumn "t" "name" "int" "" "NO" false false "" ""]);
      [by vm_compute|].
    intros x Hx. vm_compute in Hx.
    repeat (apply elem_of_cons in Hx as [->|Hx]); try done.
    by apply elem_of_nil in Hx.
  - destruct (Hplain _ _ eq_refl) as (Hempty & _). by apply Hempty.
Defined.
End PrimaryKeyScenario.

(** ** The column type maps of MySQL *)

Section TypeMaps.
Variable CommonType : CommonTypeName → string.
Hypothesis CommonType_inj : Inj (=) (=) CommonType.

Lemma lookup_entries (l : list (CommonTypeName * string)) (x : CommonTypeName) :
  (list_to_map (prod_map CommonType id <$> l) : gmap string string) !! CommonType x
  = entryOf l x.
Proof.
  induction l as [|[k v] l IH]; [done|].
  cbn [fmap list_fmap prod_map fst snd id list_to_map foldr uncurry entryOf].
  rewrite lookup_insert, IH.
  destruct (decide (k = x)) as [->|Hne].
  - by rewrite decide_True.
  - rewrite decide_False; [done|]. intros E. by apply CommonType_inj in E.
Qed.

(** C8: whatever the (pairwise different) values of the canonical type
    constants, every native type of [commonColumnTypeMap] has its canonical
    image in [mysqlColumnTypeMap], and the native type [native'] reached by
    native → canonical → native is a fixed point of that composition. *)
Theorem columnTypeMaps_total_idempotent (native canonical : string) :
  Mysql.commonColumnTypeMap CommonType !! native = Some canonical →
  ∃ native',
    Mysql.mysqlColumnTypeMap CommonType !! canonical = Some native'
    ∧ ∃ canonical',
        Mysql.commonColumnTypeMap CommonType !! native' = Some canonical'
        ∧ Mysql.mysqlColumnTypeMap CommonType !! canonical' = Some native'.
Proof.
  intros H. apply elem_of_list_to_map_2 in H.
  unfold Mysql.mysqlColumnTypeMap.
  repeat (apply elem_of_cons in H as [H|H]);
    try (by apply elem_of_nil in H);
    injection H as -> ->;
    rewrite lookup_entries; (eexists; split; [reflexivity|]);
    (eexists; split; [by vm_compute|]); by rewrite lookup_entries.
Qed.
End TypeMaps.

Lemma Demo_commonType_inj : Inj (=) (=) Demo.commonType.
Proof. intros x y E. destruct x, y; (reflexivity || discriminate E). Qed.

(** The witness of C8: [double] is canonically a number, whose MySQL type
    [decimal] maps to itself. *)
Lemma columnTypeMaps_total_idempotent_witness :
  ∃ native',
    Mysql.mysqlColumnTypeMap Demo.commonType !! "number" = Some native'
    ∧ ∃ canonical',
        Mysql.commonColumnTypeMap Demo.commonType !! native' = Some canonical'
        ∧ Mysql.mysqlColumnTypeMap Demo.commonType !! canonical' = Some native'.
Proof.
  apply (columnTypeMaps_total_idempotent Demo.commonType Demo_commonType_inj
           "double" "number").
  by vm_compute.
Defined.

(** ** The data converters *)

Section Converters.
Context `{!Helpers}.
(** The contract of [time.Parse]: a failed parse returns the zero time. *)
Hypothesis time_Parse_zero :
  ∀ layout value t e, time_Parse layout value = (t, Some e) → t = time_zero.

Lemma parse_failed (layout value : string) :
  (time_Parse layout value).2 ≠ None → (time_Parse layout value).1 = time_zero.
Proof.
  destruct (time_Parse layout value) as [t [e|]] eqn:E; [|done].
  intros _. by apply (time_Parse_zero layout value t e).
Qed.

(** C9: in both drivers [ParseData] returns a value that is not a string,
    and any value of a kind other than DateTime, Date and Time, unchanged;
    a string of one of these kinds is parsed under the layout of the kind,
    the parse error is dropped, and a failed parse gives the zero time. *)
Theorem ParseData_spec :
  ParsesUnder Mssql.ParseData mssqlLayout ∧ ParsesUnder Mysql.ParseData mysqlLayout.
Proof.
  split; (split; [|split; [|split]]).
  - intros v kind Hv. unfold Mssql.ParseData. rewrite Hv.
    by rewrite !andb_false_r.
  - intros v kind Hk. unfold Mssql.ParseData. by destruct kind.
  - intros s kind layout Hk. unfold Mssql.ParseData.
    destruct kind; simplify_eq/=; by destruct (time_Parse _ _).
  - intros s kind layout Hk Hfail. apply parse_failed in Hfail.
    unfold Mssql.ParseData.
    destruct kind; simplify_eq/=; destruct (time_Parse _ _); by simplify_eq/=.
  - intros v kind Hv. unfold Mysql.ParseData. by rewrite Hv.
  - intros v kind Hk. unfold Mysql.ParseData.
    by destruct kind, (isString v).
  - intros s kind layout Hk. unfold Mysql.ParseData.
    destruct kind; simplify_eq/=; by destruct (time_Parse _ _).
  - intros s kind layout Hk Hfail. apply parse_failed in Hfail.
    unfold Mysql.ParseData.
    destruct kind; simplify_eq/=; destruct (time_Parse _ _); by simplify_eq/=.
Qed.
End Converters.

Lemma Demo_parse_zero (layout value : string) (t : time_Time) (e : err) :
  Demo.parse layout value = (t, Some e) → t = time_zero.
Proof.
  unfold Demo.parse.
  destruct (_ ≫= _) as [t'|]; [destruct (Demo.valid t')|]; intros E; by simplify_eq.
Qed.

Section ConvertersScenario.
Local Existing Instances Demo.conn Demo.helpers Demo.strategies.

(** The witness of C9, with the scenarios of the spec: a date parsed under
    the date-only layout, and a string that is no date. *)
Lemma ParseData_spec_witness :
  Mssql.ParseData (AnyString "2024-01-05") DataTypeDate
  = AnyTime (mkTime 2024 1 5 0 0 0 0 0)
  ∧ Mssql.ParseData (AnyString "not-a-date") DataTypeDate = AnyTime time_zero
  ∧ Mysql.ParseData (AnyString "not-a-date") DataTypeDate = AnyTime time_zero
  ∧ Mysql.ParseData (AnyInt 7) DataTypeDate = AnyInt 7.
Proof.
  destruct (@ParseData_spec Demo.helpers Demo_parse_zero)
    as [(_ & _ & Hparse & Hfail) (Hother & _ & _ & Hfail')].
  split; [|split; [|split]].
  - by rewrite (Hparse "2024-01-05" DataTypeDate time_DateOnly eq_refl).
  - apply (Hfail "not-a-date" DataTypeDate time_DateOnly eq_refl). by vm_compute.
  - apply (Hfail' "not-a-date" DataTypeDate time_DateOnly eq_refl). by vm_compute.
  - by apply Hother.
Defined.
End ConvertersScenario.

(** ** Where the drivers leave the claims *)

Section Defects.
Local Existing Instances Demo.conn Demo.helpers Demo.strategies.

(** *** Index introspection *)

(** C3 on the rows of the two-column index [uq_ab]: the MSSQL
    [getTableIndexWithPK] returns the two rows as they came, one entry per
    (index, column) pair, where the claim has one entry with the columns
    [a,b]; the MySQL [GetTableIndex] returns that one entry. *)
Theorem getTableIndexWithPK_returns_rows :
  (Mssql.getTableIndexWithPK "t" (Demo.start IgnoreExamples.accepted)).1
  = Ret ([mkIndex "uq_ab" "a" "NONCLUSTERED" "" true 1;
          mkIndex "uq_ab" "b" "NONCLUSTERED" "" true 2], None)
  ∧ (Mysql.GetTableIndex "t" (Demo.start IgnoreExamples.accepted)).1
    = Ret ([mkIndex "uq_ab" "a,b" "NONCLUSTERED" "" true 1], None).
Proof. split; by vm_compute. Qed.

(** C4 on a table with a primary-key index and the plain index [idx_name]:
    the MSSQL [GetTableIndex] returns no index at all, where the claim has
    [idx_name] in the result. The primary-key index is among the indexes the
    Ignore strategy reads, and its column is the one collected. *)
Theorem GetTableIndex_drops_every_index :
  (Mssql.getTableIndexWithPK "t" (Demo.start IndexExamples.withPlainIndex)).1
  = Ret ([mkIndex "PK__t__3213E83F" "id" "NONCLUSTERED" "" true 1;
          mkIndex "idx_name" "name" "NONCLUSTERED" "" false 1], None)
  ∧ (Mssql.GetTableIndex "t" (Demo.start IndexExamples.withPlainIndex)).1
    = Ret ([], None)
  ∧ Mssql.collectUniqueColumns
      [mkIndex "PK__t__3213E83F" "id" "NONCLUSTERED" "" true 1;
       mkIndex "idx_name" "name" "NONCLUSTERED" "" false 1]
    = ["id"].
Proof. repeat split; by vm_compute. Qed.

(** *** Batch insert: the Update strategy *)

(** C5 on a connection where the lookup of the columns fails: the call with
    strategy Update returns two rows affected and no error, after a plain
    insert, where the claim has the lookup's error returned. *)
Theorem BatchInsert_update_hides_lookup_error :
  (Mssql.GetColumns ["t"] (Demo.start IndexExamples.columnsUnavailable)).1
  = Ret ([], Some (errors_New "connection lost"))
  ∧ observe (Mssql.BatchInsert "t" Examples.columns Examples.rows DuplicateStrategyUpdate
               (Demo.start IndexExamples.columnsUnavailable))
    = (Ret (2, None), [KeyExamples.mssqlColumnQuery; IgnoreExamples.insert]).
Proof. split; by vm_compute. Qed.

(** *** The DDL of a MySQL table *)

(** C10 on a database without the table: [GetTables] returns no table and no
    error, and [GetTableDDL] panics on [tbs[0]], where the claim has the
    element read only from a non-empty list. *)
Theorem GetTableDDL_index_out_of_range :
  (Mysql.GetTables ["t"] (Demo.start Examples.plain)).1 = Ret ([], None)
  ∧ (Mysql.GetTableDDL Demo.columnType "t" (Demo.start Examples.plain)).1
    = Panic (IndexOutOfRange 0 0).
Proof. split; by vm_compute. Qed.
End Defects.

(** ** The grouping loop of MySQL's [GetTableIndex] *)

Section GroupLoop.
Context {DB : Type} `{!DbConn DB} `{!Helpers}.

Lemma strings_Join_cons_app (a b : string) (cs : list string) :
  strings_Join ((a +:+ "," +:+ b) :: cs) "," = a +:+ "," +:+ strings_Join (b :: cs) ",".
Proof.
  destruct cs as [|c cs]; [done|].
  change (strings_Join ((a +:+ "," +:+ b) :: c :: cs) ",")
    with ((a +:+ "," +:+ b) +:+ "," +:+ strings_Join (c :: cs) ",").
  change (strings_Join (b :: c :: cs) ",")
    with (b +:+ "," +:+ strings_Join (c :: cs) ",").
  by rewrite !string_app_assoc.
Qed.

Lemma joinedOnto_Join (r : Index) (vs : list Index) :
  joinedOnto r vs = foldedEntry (r, vs).
Proof.
  unfold joinedOnto, foldedEntry. cbn [fst snd]. f_equal. rewrite fmap_cons.
  generalize (IndexColumnName r) as c. induction vs as [|v vs IH]; intros c; [done|].
  cbn [fold_left]. rewrite IH, !fmap_cons. apply strings_Join_cons_app.
Qed.

Lemma slice_index_last {A} (result : list A) (r : A) (w : World DB) :
  slice_index (result ++ [r]) (Z.of_nat (length (result ++ [r])) - 1) w = (Ret r, w).
Proof.
  rewrite length_app. cbn [length].
  replace (Z.of_nat (length result + 1) - 1) with (Z.of_nat (length result)) by lia.
  unfold slice_index.
  destruct (Z.leb_spec 0 (Z.of_nat (length result))) as [_|Hneg]; [|lia].
  by rewrite Nat2Z.id, list_lookup_middle.
Qed.

(** The rows of further columns of the index being collected are joined
    onto the last entry. *)
Lemma mysql_groupLoop_same (vs rest result : list Index) (r : Index) (w : World DB) :
  (∀ x, x ∈ vs → IndexName x = IndexName r) →
  Mysql.groupLoop (vs ++ rest) (IndexName r) (result ++ [r]) w
  = Mysql.groupLoop rest (IndexName r) (result ++ [joinedOnto r vs]) w.
Proof.
  revert r. induction vs as [|v vs IH]; intros r Hname.
  - by destruct r.
  - cbn [app Mysql.groupLoop].
    rewrite (Hname v) by set_solver. rewrite String.eqb_refl.
    rewrite (run_bind_ret _ _ _ _ _ (slice_index_last result r w)).
    rewrite length_app. cbn [length].
    replace (Z.to_nat (Z.of_nat (length result + 1) - 1)) with (length result + 0)%nat
      by lia.
    rewrite insert_app_r. cbn [insert list_insert].
    specialize (IH (mkIndex (IndexName r)
                      (IndexColumnName r +:+ "," +:+ IndexColumnName v)
                      (IndexType r) (IndexComment r) (IsUnique r) (SeqInIndex r))).
    cbn [IndexName] in IH. rewrite IH; [done|].
    intros x Hx. apply Hname. set_solver.
Qed.

Lemma mysql_groupLoop_grouped (groups : list (Index * list Index)) (key : string)
    (result : list Index) (w : World DB) :
  groupedByName key groups →
  Mysql.groupLoop (rowsOf groups) key result w
  = (Ret (result ++ (foldedEntry <$> groups)), w).
Proof.
  revert key result. induction groups as [|[v vs] gs IH]; intros key result Hg.
  - cbn. by rewrite app_nil_r.
  - destruct Hg as (Hkey & Hsame & Hrest). cbn [fst snd] in *.
    change (rowsOf ((v, vs) :: gs)) with (v :: (vs ++ rowsOf gs)).
    cbn [Mysql.groupLoop].
    replace (key =? IndexName v)%string with false
      by (symmetry; apply String.eqb_neq; congruence).
    rewrite mysql_groupLoop_same by done.
    rewrite joinedOnto_Join.
    rewrite (IH _ _ Hrest). by rewrite <- (assoc_L (++)).
Qed.

(** The fold of C3 in the MySQL driver: when the rows of the index query are
    the rows of the indexes one index after the other, each index under a
    name that is not empty for the first and differs from the name before
    it, [GetTableIndex] returns one entry per index, with the column names of
    the index joined by commas in the order of the rows. *)
Theorem mysql_GetTableIndex_folds (tableName : string) (w : World DB)
    (res : list Row) (groups : list (Index * list Index)) :
  (dcQuery (dbi_GetLocalSql Mysql.MYSQL_META_FILE Mysql.MYSQL_INDEX_INFO_KEY)
     [AnyString tableName] (wdb w)).1 = (res, None) →
  Mysql.indexOfRow <$> res = rowsOf groups →
  groupedByName "" groups →
  (Mysql.GetTableIndex tableName w).1 = Ret (foldedEntry <$> groups, None).
Proof.
  intros Hq Hrows Hg. unfold Mysql.GetTableIndex.
  rewrite (run_bind_ret _ _ _ _ _ (run_Query _ _ _)), Hq.
  rewrite Hrows, (run_bind_ret _ _ _ _ _ (mysql_groupLoop_grouped _ _ _ _ Hg)).
  done.
Qed.

(** The MSSQL driver surfaces no index: whenever [GetTableIndex] returns,
    it returns the empty list and no error. *)
Lemma mssql_filterLoop_result (indexs result : list Index) :
  Mssql.filterLoop indexs result = result.
Proof.
  induction indexs as [|v indexs IH]; [done|].
  cbn [Mssql.filterLoop]. by destruct (strings_HasPrefix _ _).
Qed.

Theorem mssql_GetTableIndex_empty (tableName : string) (w : World DB) :
  match (Mssql.GetTableIndex tableName w).1 with
  | Ret r => r = ([], None)
  | Panic _ => True
  end.
Proof.
  unfold Mssql.GetTableIndex. rewrite run_bind.
  destruct (Mssql.getTableIndexWithPK tableName w) as [[[indexs e]|p] w']; [|done].
  cbn. by rewrite mssql_filterLoop_result.
Qed.

(** [GetTableDDL] of the MySQL driver panics on [tbs[0]] whenever
    [GetTables] returns no table, with or without an error. *)
Theorem mysql_GetTableDDL_no_table (GetColumnType : Mysql.Column → string)
    (tableName : string) (w : World DB) :
  match (Mysql.GetTables [tableName] w).1 with
  | Ret ([], _) =>
      (Mysql.GetTableDDL GetColumnType tableName w).1 = Panic (IndexOutOfRange 0 0)
  | _ => True
  end.
Proof.
  unfold Mysql.GetTableDDL. rewrite run_bind.
  destruct (Mysql.GetTables [tableName] w) as [[[[|tb tbs] e]|p] w']; try done.
  cbn [fst]. rewrite andb_false_r. done.
Qed.
End GroupLoop.

Section GroupLoopScenario.
Local Existing Instances Demo.conn Demo.helpers Demo.strategies.

(** The witness of the fold: the two rows of the index [uq_ab]. *)
Lemma mysql_GetTableIndex_folds_witness :
  (Mysql.GetTableIndex "t" (Demo.start IgnoreExamples.accepted)).1
  = Ret ([mkIndex "uq_ab" "a,b" "NONCLUSTERED" "" true 1], None).
Proof.
  apply (mysql_GetTableIndex_folds "t" (Demo.start IgnoreExamples.accepted)
           IgnoreExamples.uniqueIndex
           [(mkIndex "uq_ab" "a" "NONCLUSTERED" "" true 1,
             [mkIndex "uq_ab" "b" "NONCLUSTERED" "" true 2])]).
  - by vm_compute.
  - by vm_compute.
  - split; [done|]. split; [|done].
    intros x Hx. apply list_elem_of_singleton in Hx. by subst x.
Defined.
End GroupLoopScenario.

(** ** Batch insert: a failed merge statement *)

Section MergeFailure.
Context {DB : Type} `{!DbConn DB} `{!Helpers} `{!DuplicateStrategies}.

(** The second half of C5: on a table with a primary key the Update strategy
    executes one [MERGE] statement and returns what the connection returned
    for it, the error as it is; when it failed, the statement text goes to
    the error log and not into the returned error. *)
Theorem batchInsertMerge_failure_logged (tableName : string) (columns : list string)
    (values : list (list any)) (w w1 : World DB) (cols : list Mssql.Column) (e0 : error)
    (identityCols pkCols caseSqls : list string) :
  Mssql.GetColumns [tableName] w = (Ret (cols, e0), w1) →
  Mssql.mergeScan cols = (identityCols, pkCols, caseSqls) →
  pkCols ≠ [] →
  let sqlTemp :=
    Mssql.mergeSql Mssql.currentSchema tableName columns values identityCols caseSqls in
  let stmt := Mssql.identityInsertOn Mssql.currentSchema tableName +:+ " "
              +:+ sqlTemp +:+ ";" in
  let r := dcTxExec stmt (concat values) (wdb w1) in
  Mssql.BatchInsert tableName columns values DuplicateStrategyUpdate w
  = (Ret r.1,
     mkWorld r.2
       (wtrace w1 ++ EvTxExec stmt (concat values)
          :: match r.1.2 with
             | Some e =>
                 [EvLogError ("执行sql失败：" +:+ err_Error e +:+ ", sql: [ "
                              +:+ sqlTemp +:+ " ]")]
             | None => []
             end)).
Proof.
  intros Hcols Hscan Hpk sqlTemp stmt r.
  unfold Mssql.BatchInsert. rewrite bool_decide_eq_true_2 by done.
  unfold Mssql.batchInsertMerge.
  rewrite (run_bind_ret _ _ _ _ _ Hcols), Hscan.
  rewrite bool_decide_eq_false_2 by (by destruct pkCols).
  rewrite (run_bind_ret _ _ _ _ _ (run_TxExec _ _ _)).
  fold sqlTemp. fold stmt. fold r.
  destruct r.1 as [res [e|]] eqn:Er; cbn.
  - rewrite run_bind. unfold logx_Errorf, emit. cbn [wdb wtrace].
    by rewrite run_ret, <- (assoc_L (++)).
  - done.
Qed.
End MergeFailure.

Section MergeFailureScenario.
Local Existing Instances Demo.conn Demo.helpers Demo.strategies.

(** The witness: a table with the primary key [id] on a connection that
    rejects the [MERGE] statement. *)
Lemma batchInsertMerge_failure_logged_witness :
  observe (Mssql.BatchInsert "t" Examples.columns Examples.rows DuplicateStrategyUpdate
             (Demo.start IndexExamples.mergeRejected))
  = (Ret (0, Some (errors_New "statement failed")),
     [KeyExamples.mssqlColumnQuery;
      EvTxExec ("SET IDENTITY_INSERT [dbo].[t] ON " +:+ IndexExamples.mergeStmt +:+ ";")
        [AnyInt 1; AnyString "a"; AnyInt 2; AnyString "b"];
      EvLogError ("执行sql失败：statement failed, sql: [ " +:+ IndexExamples.mergeStmt
                  +:+ " ]")]).
Proof.
  rewrite (batchInsertMerge_failure_logged "t" Examples.columns Examples.rows
             (Demo.start IndexExamples.mergeRejected)
             (Mssql.GetColumns ["t"] (Demo.start IndexExamples.mergeRejected)).2
             (Mssql.columnOfRow <$> IndexExamples.mergeRejected.(Demo.columnRows).1)
             None ["id"] ["id"] [" T1.[id] = T2.[id] "]).
  - by vm_compute.
  - by vm_compute.
  - by vm_compute.
  - done.
Defined.
End MergeFailureScenario.

(** * Further properties of the drivers *)

(** ** Splitting and replacing on one byte *)

Lemma prefix_byte (c x : ascii) (s : string) :
  String.prefix (String c "") (String x s) = Ascii.eqb x c.
Proof.
  cbn. destruct (ascii_dec c x) as [->|Hne].
  - rewrite Ascii.eqb_refl. by destruct s.
  - symmetry. apply Ascii.eqb_neq. congruence.
Qed.

Lemma split_scan_byte (c x : ascii) (s cur : string) :
  split_scan (String c "") (String x s) 0 cur
  = if Ascii.eqb x c then cur :: split_scan (String c "") s 0 ""
    else split_scan (String c "") s 0 (cur +:+ String x "").
Proof. cbn [split_scan]. by rewrite prefix_byte. Qed.

Lemma string_app_snoc (cur : string) (x : ascii) (s : string) :
  (cur +:+ String x "") +:+ s = cur +:+ String x s.
Proof. by rewrite string_app_assoc. Qed.

(** The parts of a split are one more than the separators. *)
Lemma split_scan_length (c : ascii) (s cur : string) :
  length (split_scan (String c "") s 0 cur) = S (countByte c s).
Proof.
  revert cur. induction s as [|x s IH]; intros cur; [done|].
  rewrite split_scan_byte. cbn [countByte].
  destruct (Ascii.eqb x c); [cbn [length] | ]; by rewrite IH.
Qed.

(** Joining the parts with the separator gives the string back. *)
Lemma split_scan_Join (c : ascii) (s cur : string) :
  strings_Join (split_scan (String c "") s 0 cur) (String c "") = cur +:+ s.
Proof.
  revert cur. induction s as [|x s IH]; intros cur.
  - by rewrite string_app_nil_r.
  - rewrite split_scan_byte. destruct (Ascii.eqb_spec x c) as [->|Hne].
    + pose proof (split_scan_length c s "") as Hlen.
      destruct (split_scan (String c "") s 0 "") as [|p ps] eqn:E; [done|].
      change (strings_Join (cur :: p :: ps) (String c ""))
        with (cur +:+ String c "" +:+ strings_Join (p :: ps) (String c "")).
      by rewrite <- E, IH.
    + by rewrite IH, string_app_snoc.
Qed.

(** No part of a split contains the separator. *)
Lemma split_scan_parts (c : ascii) (s cur part : string) :
  countByte c cur = 0%nat →
  part ∈ split_scan (String c "") s 0 cur → countByte c part = 0%nat.
Proof.
  revert cur. induction s as [|x s IH]; intros cur Hcur Hin.
  - apply list_elem_of_singleton in Hin. by subst part.
  - rewrite split_scan_byte in Hin. destruct (Ascii.eqb x c) eqn:E.
    + apply elem_of_cons in Hin as [->|Hin]; [done|]. by apply (IH "").
    + apply (IH (cur +:+ String x "")); [|done].
      rewrite countByte_app. cbn [countByte]. rewrite E. lia.
Qed.

(** A string without the separator is its own single part, and the first
    separator ends the first part. *)
Lemma split_scan_none (c : ascii) (s cur : string) :
  countByte c s = 0%nat → split_scan (String c "") s 0 cur = [cur +:+ s].
Proof.
  revert cur. induction s as [|x s IH]; intros cur Hs.
  - by rewrite string_app_nil_r.
  - rewrite split_scan_byte. cbn [countByte] in Hs.
    destruct (Ascii.eqb x c); [lia|]. rewrite IH by lia. by rewrite string_app_snoc.
Qed.

Lemma split_scan_first (c : ascii) (a b cur : string) :
  countByte c a = 0%nat →
  split_scan (String c "") (a +:+ String c b) 0 cur
  = (cur +:+ a) :: split_scan (String c "") b 0 "".
Proof.
  revert cur. induction a as [|x a IH]; intros cur Ha.
  - change ("" +:+ String c b) with (String c b).
    by rewrite split_scan_byte, Ascii.eqb_refl, string_app_nil_r.
  - rewrite string_app_cons, split_scan_byte. cbn [countByte] in Ha.
    destruct (Ascii.eqb x c); [lia|]. rewrite IH by lia. by rewrite string_app_snoc.
Qed.

(** Replacing a one-byte [old] replaces every such byte. *)
Lemma split_scan_replace (c : ascii) (new s cur : string) :
  strings_Join (split_scan (String c "") s 0 cur) new = cur +:+ replaceByte c new s.
Proof.
  revert cur. induction s as [|x s IH]; intros cur.
  - by rewrite string_app_nil_r.
  - rewrite split_scan_byte. cbn [replaceByte]. destruct (Ascii.eqb x c).
    + pose proof (split_scan_length c s "") as Hlen.
      destruct (split_scan (String c "") s 0 "") as [|p ps] eqn:E; [done|].
      change (strings_Join (cur :: p :: ps) new)
        with (cur +:+ new +:+ strings_Join (p :: ps) new).
      by rewrite <- E, IH.
    + by rewrite IH, string_app_snoc.
Qed.

Lemma strings_ReplaceAll_byte (s : string) (c : ascii) (new : string) :
  strings_ReplaceAll s (String c "") new = replaceByte c new s.
Proof. unfold strings_ReplaceAll. apply (split_scan_replace c new s ""). Qed.

Lemma strings_Split_length (s : string) (c : ascii) :
  length (strings_Split s (String c "")) = S (countByte c s).
Proof. apply split_scan_length. Qed.

Lemma strings_Split_Join (s : string) (c : ascii) :
  strings_Join (strings_Split s (String c "")) (String c "") = s.
Proof. apply (split_scan_Join c s ""). Qed.

(** ** The schema of the MSSQL connection *)

Section CurrentSchema.
Context {DB : Type} `{!DbConn DB}.

(** [currentSchema] is the part after the slash when the database name of
    the connection has exactly one slash, and empty for every other name
    (no slash, or more than one). *)
Theorem currentSchema_one_slash :
  (∀ a b, InfoDatabase = a +:+ "/" +:+ b →
          countByte "/" a = 0%nat → countByte "/" b = 0%nat →
          Mssql.currentSchema = b)
  ∧ (countByte "/" InfoDatabase ≠ 1%nat → Mssql.currentSchema = "").
Proof.
  split.
  - intros a b Hdb Ha Hb. unfold Mssql.currentSchema, strings_Split. rewrite Hdb.
    change ("/" +:+ b) with (String "/" b).
    rewrite (split_scan_first "/" a b "" Ha), (split_scan_none "/" b "" Hb).
    done.
  - intros Hn. unfold Mssql.currentSchema.
    rewrite bool_decide_eq_false_2; [done|].
    rewrite (strings_Split_length InfoDatabase "/"). lia.
Qed.
End CurrentSchema.

Section CurrentSchemaScenario.
Local Existing Instances Demo.conn.

(** The witness: the database [demo/dbo] has the schema [dbo]. *)
Lemma currentSchema_one_slash_witness : Mssql.currentSchema = "dbo".
Proof.
  destruct (currentSchema_one_slash (DB := Demo.DB)) as [Hone _].
  by apply (Hone "demo" "dbo").
Defined.
End CurrentSchemaScenario.

(** ** The columns of the unique indexes *)

Section UniqueColumns.
Context `{!Helpers}.
(** The contract of [collx.ArrayContains]: membership. *)
Hypothesis ArrayContains_elem :
  ∀ (arr : list string) (el : string), collx_ArrayContains arr el = true ↔ el ∈ arr.

Lemma addColumns_spec (cols acc : list string) :
  NoDup acc →
  NoDup (fold_left
           (λ acc col, if negb (collx_ArrayContains acc col) then acc ++ [col] else acc)
           cols acc)
  ∧ ∀ c, c ∈ fold_left
               (λ acc col, if negb (collx_ArrayContains acc col) then acc ++ [col] else acc)
               cols acc
         ↔ c ∈ acc ∨ c ∈ cols.
Proof.
  revert acc. induction cols as [|col cols IH]; intros acc Hnd.
  - split; [done|]. intros c. cbn. rewrite elem_of_nil. tauto.
  - cbn [fold_left].
    destruct (collx_ArrayContains acc col) eqn:E; cbn [negb].
    + apply ArrayContains_elem in E.
      destruct (IH acc Hnd) as [Hnd' Hin]. split; [done|].
      intros c. rewrite Hin, elem_of_cons. split; [tauto|].
      intros [?|[->|?]]; tauto.
    + assert (col ∉ acc) as Hnot.
      { intros Hc. apply ArrayContains_elem in Hc. congruence. }
      assert (NoDup (acc ++ [col])) as Hnd2.
      { apply NoDup_app. split; [done|]. split; [|apply NoDup_singleton].
        intros x Hx Hx'. apply list_elem_of_singleton in Hx'. by subst x. }
      destruct (IH _ Hnd2) as [Hnd' Hin]. split; [done|].
      intros c. rewrite Hin, elem_of_app, list_elem_of_singleton, elem_of_cons. tauto.
Qed.

Lemma collectColumns_spec (indexs : list Index) (acc : list string) :
  NoDup acc →
  NoDup (fold_left Mssql.addUniqueColumns indexs acc)
  ∧ ∀ c, c ∈ fold_left Mssql.addUniqueColumns indexs acc
         ↔ c ∈ acc
           ∨ ∃ index, index ∈ indexs ∧ IsUnique index = true
                      ∧ c ∈ strings_Split (IndexColumnName index) ",".
Proof.
  revert acc. induction indexs as [|index indexs IH]; intros acc Hnd.
  - split; [done|]. intros c. cbn. split; [by left|].
    intros [?|(i & Hi & _)]; [done|]. by apply elem_of_nil in Hi.
  - cbn [fold_left]. unfold Mssql.addUniqueColumns at 2 4.
    destruct (IsUnique index) eqn:Hu.
    + destruct (addColumns_spec (strings_Split (IndexColumnName index) ",") acc Hnd)
        as [Hnd1 Hin1].
      destruct (IH _ Hnd1) as [Hnd2 Hin2]. split; [done|].
      intros c. rewrite Hin2, Hin1. split.
      * intros [[?|?]|(i & Hi & Hiu & Hc)]; [by left| |].
        -- right. exists index. split; [by left|done].
        -- right. exists i. split; [by right|done].
      * intros [?|(i & Hi & Hiu & Hc)]; [by left; left|].
        apply elem_of_cons in Hi as [->|Hi]; [by left; right|].
        right. by exists i.
    + destruct (IH _ Hnd) as [Hnd2 Hin2]. split; [done|].
      intros c. rewrite Hin2. split.
      * intros [?|(i & Hi & Hiu & Hc)]; [by left|].
        right. exists i. split; [by right|done].
      * intros [?|(i & Hi & Hiu & Hc)]; [by left|].
        apply elem_of_cons in Hi as [->|Hi]; [congruence|].
        right. by exists i.
Qed.

(** The columns that the Ignore strategy puts into its constraint are the
    comma-separated columns of the unique indexes and no others, each of
    them once. *)
Theorem collectUniqueColumns_spec (indexs : list Index) :
  NoDup (Mssql.collectUniqueColumns indexs)
  ∧ ∀ c, c ∈ Mssql.collectUniqueColumns indexs
         ↔ ∃ index, index ∈ indexs ∧ IsUnique index = true
                    ∧ c ∈ strings_Split (IndexColumnName index) ",".
Proof.
  destruct (collectColumns_spec indexs [] (NoDup_nil_2)) as [Hnd Hin].
  split; [done|]. intros c. unfold Mssql.collectUniqueColumns. rewrite Hin.
  split; [|by right]. intros [Hc|?]; [|done]. by apply elem_of_nil in Hc.
Qed.
End UniqueColumns.

Lemma Demo_arrayContains_elem (arr : list string) (el : string) :
  Demo.arrayContains arr el = true ↔ el ∈ arr.
Proof.
  unfold Demo.arrayContains. rewrite existsb_exists. split.
  - intros (x & Hx & E). apply String.eqb_eq in E. subst x. by apply list_elem_of_In.
  - intros Hin. exists el. split; [by apply list_elem_of_In | apply String.eqb_refl].
Qed.

(** The witness: two unique indexes that share the column [b], and an index
    that is not unique. *)
Lemma collectUniqueColumns_spec_witness :
  @Mssql.collectUniqueColumns Demo.helpers
    [mkIndex "uq_ab" "a,b" "" "" true 1; mkIndex "ix_c" "c" "" "" false 1;
     mkIndex "uq_bd" "b,d" "" "" true 1]
  = ["a"; "b"; "d"]
  ∧ NoDup (@Mssql.collectUniqueColumns Demo.helpers
             [mkIndex "uq_ab" "a,b" "" "" true 1; mkIndex "ix_c" "c" "" "" false 1;
              mkIndex "uq_bd" "b,d" "" "" true 1]).
Proof.
  split; [by vm_compute|].
  apply (@collectUniqueColumns_spec Demo.helpers Demo_arrayContains_elem).
Defined.

(** ** Batch insert: the strategies beside the claims *)

Section OtherStrategies.
Context {DB : Type} `{!DbConn DB} `{!Helpers} `{!DuplicateStrategies}.

(** When the unique indexes give no column (no unique index, or a failed
    index lookup, whose error is dropped), the Ignore strategy sends the
    plain insert alone: no constraint statement before or after it. *)
Theorem batchInsertSimple_ignore_degenerate (tableName : string)
    (columns : list string) (values : list (list any)) (w w1 : World DB)
    (indexs : list Index) (e : error) :
  Mssql.getTableIndexWithPK tableName w = (Ret (indexs, e), w1) →
  Mssql.collectUniqueColumns indexs = [] →
  let stmt := Mssql.identityInsertOn Mssql.currentSchema tableName +:+ " "
              +:+ Mssql.insertSql Mssql.currentSchema tableName columns values in
  Mssql.batchInsertSimple tableName columns values DuplicateStrategyIgnore w
  = (Ret (dcTxExec stmt (concat values) (wdb w1)).1,
     mkWorld (dcTxExec stmt (concat values) (wdb w1)).2
       (wtrace w1 ++ [EvTxExec stmt (concat values)])).
Proof.
  intros Hidx Hnone stmt. unfold Mssql.batchInsertSimple.
  rewrite bool_decide_eq_true_2 by done.
  rewrite (run_bind _ (λ ignoreDupSql, _)).
  rewrite (run_bind_ret _ _ _ _ _ Hidx), Hnone.
  rewrite bool_decide_eq_false_2 by (cbn; lia).
  rewrite run_ret.
  rewrite (run_bind_ret _ _ _ _ _ (run_TxExec _ _ _)).
  subst stmt. by destruct (dcTxExec _ _ _) as [[res e'] db'].
Qed.

(** A strategy value that is neither Update nor Ignore (the parameter is an
    [int]) is served like None: the plain insert alone. *)
Theorem BatchInsert_other_strategy (tableName : string) (columns : list string)
    (values : list (list any)) (strategy : Z) (w : World DB) :
  strategy ≠ DuplicateStrategyUpdate →
  strategy ≠ DuplicateStrategyIgnore →
  let stmt := Mssql.identityInsertOn Mssql.currentSchema tableName +:+ " "
              +:+ Mssql.insertSql Mssql.currentSchema tableName columns values in
  Mssql.BatchInsert tableName columns values strategy w
  = (Ret (dcTxExec stmt (concat values) (wdb w)).1,
     mkWorld (dcTxExec stmt (concat values) (wdb w)).2
       (wtrace w ++ [EvTxExec stmt (concat values)])).
Proof.
  intros Hu Hi stmt. unfold Mssql.BatchInsert.
  rewrite bool_decide_eq_false_2 by done. by apply batchInsertSimple_plain.
Qed.

Lemma mergeScan_fold (cols : list Mssql.Column) (ids pks cases : list string) :
  fold_left
    (λ '(identityCols, pkCols, caseSqls) col,
       let identityCols :=
         if Mssql.IsIdentity col then identityCols ++ [Mssql.ColumnName col]
         else identityCols in
       if Mssql.IsPrimaryKey col then
         let name := QuoteIdentifier (Mssql.ColumnName col) in
         (identityCols, pkCols ++ [Mssql.ColumnName col],
          caseSqls ++ [" T1." +:+ name +:+ " = T2." +:+ name +:+ " "])
       else (identityCols, pkCols, caseSqls))
    cols (ids, pks, cases)
  = (ids ++ (Mssql.ColumnName <$> filter (λ col, Mssql.IsIdentity col) cols),
     pks ++ (Mssql.ColumnName <$> filter (λ col, Mssql.IsPrimaryKey col) cols),
     cases ++ ((λ col, " T1." +:+ QuoteIdentifier (Mssql.ColumnName col) +:+ " = T2."
                       +:+ QuoteIdentifier (Mssql.ColumnName col) +:+ " ")
                 <$> filter (λ col, Mssql.IsPrimaryKey col) cols)).
Proof.
  revert ids pks cases. induction cols as [|col cols IH]; intros ids pks cases.
  - cbn. by rewrite !app_nil_r.
  - cbn [fold_left]. cbv beta iota zeta.
    destruct (Mssql.IsIdentity col) eqn:Ei, (Mssql.IsPrimaryKey col) eqn:Ep;
      rewrite IH.
    + rewrite (filter_cons_True (λ col, Mssql.IsIdentity col)) by (rewrite Ei; cbn; tauto).
      rewrite !(filter_cons_True (λ col, Mssql.IsPrimaryKey col)) by (rewrite Ep; cbn; tauto).
      rewrite ?fmap_cons, <- ?(assoc_L (++)); reflexivity.
    + rewrite (filter_cons_True (λ col, Mssql.IsIdentity col)) by (rewrite Ei; cbn; tauto).
      rewrite !(filter_cons_False (λ col, Mssql.IsPrimaryKey col)) by (rewrite Ep; cbn; tauto).
      rewrite ?fmap_cons, <- ?(assoc_L (++)); reflexivity.
    + rewrite (filter_cons_False (λ col, Mssql.IsIdentity col)) by (rewrite Ei; cbn; tauto).
      rewrite !(filter_cons_True (λ col, Mssql.IsPrimaryKey col)) by (rewrite Ep; cbn; tauto).
      rewrite ?fmap_cons, <- ?(assoc_L (++)); reflexivity.
    + rewrite (filter_cons_False (λ col, Mssql.IsIdentity col)) by (rewrite Ei; cbn; tauto).
      rewrite !(filter_cons_False (λ col, Mssql.IsPrimaryKey col)) by (rewrite Ep; cbn; tauto).
      reflexivity.
Qed.

(** The scan of the table's columns that [batchInsertMerge] makes gives, in
    declaration order, the names of the identity columns, the names of the
    primary-key columns, and one join condition per primary-key column. *)
Theorem mergeScan_filters (cols : list Mssql.Column) :
  Mssql.mergeScan cols
  = (Mssql.ColumnName <$> filter (λ col, Mssql.IsIdentity col) cols,
     Mssql.ColumnName <$> filter (λ col, Mssql.IsPrimaryKey col) cols,
     (λ col, " T1." +:+ QuoteIdentifier (Mssql.ColumnName col) +:+ " = T2."
             +:+ QuoteIdentifier (Mssql.ColumnName col) +:+ " ")
       <$> filter (λ col, Mssql.IsPrimaryKey col) cols).
Proof. apply (mergeScan_fold cols [] [] []). Qed.

(** A first index row without a name stops the grouping loop of either
    driver with a panic: the loop starts with the empty name as its key and
    takes the row for a further column of an entry that is not there. Every
    batch insert with strategy Ignore on such a table ends in that panic,
    whatever its columns and rows, before any statement is executed. *)
Theorem groupLoop_empty_name (tableName : string) (w : World DB)
    (r : Row) (res : list Row) :
  (∀ w1,
     dc_Query (dbi_GetLocalSql Mssql.MSSQL_META_FILE Mssql.MSSQL_INDEX_INFO_KEY)
       [AnyString Mssql.currentSchema; AnyString tableName] w
     = (Ret (r :: res, None), w1) →
     IndexName (Mssql.indexOfRow r) = "" →
     Mssql.getTableIndexWithPK tableName w = (Panic (IndexOutOfRange (-1) 0), w1)
     ∧ ∀ columns values,
         Mssql.batchInsertSimple tableName columns values DuplicateStrategyIgnore w
         = (Panic (IndexOutOfRange (-1) 0), w1))
  ∧ (∀ w1,
       dc_Query (dbi_GetLocalSql Mysql.MYSQL_META_FILE Mysql.MYSQL_INDEX_INFO_KEY)
         [AnyString tableName] w
       = (Ret (r :: res, None), w1) →
       IndexName (Mysql.indexOfRow r) = "" →
       Mysql.GetTableIndex tableName w = (Panic (IndexOutOfRange (-1) 0), w1)).
Proof.
  split; intros w1 Hq Hname.
  - assert (Mssql.getTableIndexWithPK tableName w
            = (Panic (IndexOutOfRange (-1) 0), w1)) as Hp.
    { unfold Mssql.getTableIndexWithPK. rewrite (run_bind_ret _ _ _ _ _ Hq).
      rewrite fmap_cons. rewrite run_bind. cbn [Mssql.groupLoop].
      by rewrite Hname. }
    split; [done|]. intros columns values. unfold Mssql.batchInsertSimple.
    rewrite bool_decide_eq_true_2 by done.
    rewrite (run_bind _ (λ ignoreDupSql, _)).
    by rewrite (run_bind_panic _ _ _ _ _ Hp).
  - unfold Mysql.GetTableIndex. rewrite (run_bind_ret _ _ _ _ _ Hq).
    rewrite fmap_cons. rewrite run_bind. cbn [Mysql.groupLoop].
    by rewrite Hname.
Qed.
End OtherStrategies.

Section OtherStrategiesScenario.
Local Existing Instances Demo.conn Demo.helpers Demo.strategies.

(** The witness of the degenerate Ignore strategy: the index lookup fails. *)
Lemma batchInsertSimple_ignore_degenerate_witness :
  observe (Mssql.batchInsertSimple "t" Examples.columns Examples.rows
             DuplicateStrategyIgnore (Demo.start MoreExamples.indexesUnavailable))
  = (Ret (2, None), [IgnoreExamples.indexQuery; IgnoreExamples.insert]).
Proof.
  rewrite (batchInsertSimple_ignore_degenerate "t" Examples.columns Examples.rows
             (Demo.start MoreExamples.indexesUnavailable)
             (Mssql.getTableIndexWithPK "t"
                (Demo.start MoreExamples.indexesUnavailable)).2
             [] (Some (errors_New "connection lost"))).
  - by vm_compute.
  - by vm_compute.
  - by vm_compute.
Defined.

(** The witness of the other strategy values: the value 0. *)
Lemma BatchInsert_other_strategy_witness :
  observe (Mssql.BatchInsert "t" Examples.columns Examples.rows 0
             (Demo.start Examples.plain))
  = (Ret (2, None), [IgnoreExamples.insert]).
Proof.
  rewrite (BatchInsert_other_strategy "t" Examples.columns Examples.rows 0
             (Demo.start Examples.plain)); [by vm_compute | done | done].
Defined.

(** The witness of the panic: an index row without the key [indexName]. *)
Lemma groupLoop_empty_name_witness :
  (Mssql.getTableIndexWithPK "t" (Demo.start MoreExamples.namelessIndex)).1
  = Panic (IndexOutOfRange (-1) 0)
  ∧ observe (Mssql.batchInsertSimple "t" Examples.columns Examples.rows
               DuplicateStrategyIgnore (Demo.start MoreExamples.namelessIndex))
    = (Panic (IndexOutOfRange (-1) 0), [IgnoreExamples.indexQuery])
  ∧ (Mysql.GetTableIndex "t" (Demo.start MoreExamples.namelessIndex)).1
    = Panic (IndexOutOfRange (-1) 0).
Proof.
  destruct (groupLoop_empty_name "t" (Demo.start MoreExamples.namelessIndex)
              {[ "columnName" := AnyString "a"; "isUnique" := AnyBool true ]} [])
    as [Hms Hmy].
  split; [|split].
  - destruct (Hms _ eq_refl eq_refl) as [-> _]. done.
  - destruct (Hms _ eq_refl eq_refl) as [_ ->]. by vm_compute.
  - by rewrite (Hmy _ eq_refl eq_refl).
Defined.
End OtherStrategiesScenario.

(** ** The server version *)

Section ServerVersion.
Context {DB : Type} `{!DbConn DB} `{!Helpers}.

(** [GetDbServer] of either driver reads the first row of the answer without
    looking at its length: an answer without rows and without an error is a
    panic, not an error. *)
Theorem GetDbServer_empty_answer (w : World DB) :
  ((dcQuery "SELECT @@VERSION as version" [] (wdb w)).1 = ([], None) →
   (Mssql.GetDbServer w).1 = Panic (IndexOutOfRange 0 0))
  ∧ ((dcQuery "SELECT VERSION() version" [] (wdb w)).1 = ([], None) →
     (Mysql.GetDbServer w).1 = Panic (IndexOutOfRange 0 0)).
Proof.
  split; intros Hq.
  - unfold Mssql.GetDbServer.
    by rewrite (run_bind_ret _ _ _ _ _ (run_Query _ _ _)), Hq.
  - unfold Mysql.GetDbServer.
    by rewrite (run_bind_ret _ _ _ _ _ (run_Query _ _ _)), Hq.
Qed.
End ServerVersion.

Section ServerVersionScenario.
Local Existing Instances DdlExamples.silent Demo.helpers.

(** The witness: the connection on which every query finds nothing. *)
Lemma GetDbServer_empty_answer_witness :
  (Mssql.GetDbServer (mkWorld () [])).1 = Panic (IndexOutOfRange 0 0)
  ∧ (Mysql.GetDbServer (mkWorld () [])).1 = Panic (IndexOutOfRange 0 0).
Proof.
  destruct (GetDbServer_empty_answer (mkWorld () [])) as [Hms Hmy].
  split; [by apply Hms | by apply Hmy].
Defined.
End ServerVersionScenario.

(** ** The DDL of an MSSQL table *)

Section CopyTable.
Context {DB : Type} `{!DbConn DB} `{!Helpers}.

(** [CopyTableDDL] gives no statement for any index: whenever it returns
    after the table detail and the columns were read, its text is the
    [CREATE TABLE] statement followed by the comment statements of the table
    and of the columns, whatever indexes the table has. *)
Theorem CopyTableDDL_without_indexes (tableName newTableName : string)
    (w w1 w2 : World DB) (res : list Row) (cols : list Mssql.Column) :
  dc_Query (dbi_GetLocalSql Mssql.MSSQL_META_FILE Mssql.MSSQL_TABLE_DETAIL_KEY)
    [AnyString Mssql.currentSchema; AnyString tableName] w
  = (Ret (res, None), w1) →
  Mssql.GetColumns [tableName] w1 = (Ret (cols, None), w2) →
  let name := if String.eqb newTableName "" then tableName else newTableName in
  match (Mssql.CopyTableDDL tableName newTableName w).1 with
  | Ret r =>
      r = (Mssql.createTableSql cols name
           +:+ (Mssql.tableCommentSql res name +:+ Mssql.columnCommentsSql cols name),
           None)
  | Panic _ => True
  end.
Proof.
  intros Hq Hcols name. unfold Mssql.CopyTableDDL. fold name.
  rewrite (run_bind_ret _ _ _ _ _ Hq), (run_bind_ret _ _ _ _ _ Hcols).
  rewrite run_bind. unfold Mssql.GetTableIndex. rewrite run_bind.
  destruct (Mssql.getTableIndexWithPK tableName w2) as [[[indexs e]|p] w3]; [|done].
  cbn. rewrite mssql_filterLoop_result. cbn. by rewrite !string_app_nil_r.
Qed.

(** [CopyTableDDL] stops at the first lookup that fails and returns its
    error with an empty text: after a failed table detail query no other
    query is sent, and after a failed column lookup the indexes are not
    read. *)
Theorem CopyTableDDL_first_failure (tableName newTableName : string) (w : World DB) :
  (∀ res e w1,
     dc_Query (dbi_GetLocalSql Mssql.MSSQL_META_FILE Mssql.MSSQL_TABLE_DETAIL_KEY)
       [AnyString Mssql.currentSchema; AnyString tableName] w
     = (Ret (res, Some e), w1) →
     Mssql.CopyTableDDL tableName newTableName w = (Ret ("", Some e), w1))
  ∧ (∀ res w1 cols e w2,
       dc_Query (dbi_GetLocalSql Mssql.MSSQL_META_FILE Mssql.MSSQL_TABLE_DETAIL_KEY)
         [AnyString Mssql.currentSchema; AnyString tableName] w
       = (Ret (res, None), w1) →
       Mssql.GetColumns [tableName] w1 = (Ret (cols, Some e), w2) →
       Mssql.CopyTableDDL tableName newTableName w = (Ret ("", Some e), w2)).
Proof.
  split.
  - intros res e w1 Hq. unfold Mssql.CopyTableDDL.
    by rewrite (run_bind_ret _ _ _ _ _ Hq).
  - intros res w1 cols e w2 Hq Hcols. unfold Mssql.CopyTableDDL.
    by rewrite (run_bind_ret _ _ _ _ _ Hq), (run_bind_ret _ _ _ _ _ Hcols).
Qed.
End CopyTable.

Section CopyTableScenario.
Local Existing Instances MssqlDdlExamples.conn Demo.helpers.

(** The witness: the table [t] with the unique index [uq_ab], copied as
    [t2]; the text has no statement for the index. *)
Lemma CopyTableDDL_without_indexes_witness :
  observe (Mssql.CopyTableDDL "t" "t2" (Demo.start DdlExamples.complete))
  = (Ret (MssqlDdlExamples.ddl, None),
     [MssqlDdlExamples.detailQuery; KeyExamples.mssqlColumnQuery;
      IgnoreExamples.indexQuery]).
Proof.
  pose proof (CopyTableDDL_without_indexes "t" "t2" (Demo.start DdlExamples.complete)
                _ _ _ _ eq_refl eq_refl) as Hddl.
  destruct (Mssql.CopyTableDDL "t" "t2" (Demo.start DdlExamples.complete))
    as [[r|p] w'] eqn:E.
  - cbn [fst] in Hddl. subst r.
    apply (f_equal (λ x, wtrace x.2)) in E. cbn [snd] in E.
    unfold observe. cbn [fst snd]. rewrite <- E. by vm_compute.
  - by vm_compute in E.
Defined.

(** The witness of the first failure: the lookup of the columns fails. *)
Lemma CopyTableDDL_first_failure_witness :
  observe (Mssql.CopyTableDDL "t" "" (Demo.start DdlExamples.columnsFail))
  = (Ret ("", Some (errors_New "connection lost")),
     [MssqlDdlExamples.detailQuery; KeyExamples.mssqlColumnQuery]).
Proof.
  destruct (CopyTableDDL_first_failure "t" "" (Demo.start DdlExamples.columnsFail))
    as [_ Hcols].
  rewrite (Hcols _ _ _ _ _ eq_refl eq_refl). by vm_compute.
Defined.
End CopyTableScenario.

(** ** Quoting a MySQL literal *)

Lemma string_app_inv_tail (a b t : string) : a +:+ t = b +:+ t → a = b.
Proof.
  revert b. induction a as [|x a IH]; intros [|y b] E.
  - done.
  - apply (f_equal String.length) in E.
    rewrite !string_app_length in E. cbn [String.length] in E. lia.
  - apply (f_equal String.length) in E.
    rewrite !string_app_length in E. cbn [String.length] in E. lia.
  - rewrite !string_app_cons in E. injection E as -> E. f_equal. by apply IH.
Qed.

(** Doubling a byte loses nothing. *)
Lemma replaceByte_double_inj (c : ascii) (a b : string) :
  replaceByte c (String c (String c "")) a = replaceByte c (String c (String c "")) b →
  a = b.
Proof.
  revert b. induction a as [|x a IH]; intros [|y b]; cbn [replaceByte].
  - done.
  - destruct (Ascii.eqb y c); rewrite !string_app_cons; discriminate.
  - destruct (Ascii.eqb x c); rewrite !string_app_cons; discriminate.
  - destruct (Ascii.eqb_spec x c) as [->|Hx], (Ascii.eqb_spec y c) as [->|Hy];
      rewrite !string_app_cons; change ("" +:+ ?s) with s; intros E.
    + injection E as E. f_equal. by apply IH.
    + injection E as E _. congruence.
    + injection E as E _. congruence.
    + injection E as -> E. f_equal. by apply IH.
Qed.

Lemma replaceByte_double_count (c d : ascii) (s : string) :
  countByte d (replaceByte c (String c (String c "")) s)
  = if Ascii.eqb c d then (2 * countByte d s)%nat else countByte d s.
Proof.
  induction s as [|x s IH]; cbn [replaceByte countByte].
  - by destruct (Ascii.eqb c d).
  - rewrite countByte_app, IH.
    destruct (Ascii.eqb_spec x c) as [->|Hx], (Ascii.eqb_spec c d) as [->|Hd];
      cbn [countByte].
    + rewrite !Ascii.eqb_refl. lia.
    + replace (Ascii.eqb c d) with false by (symmetry; by apply Ascii.eqb_neq). lia.
    + replace (Ascii.eqb x d) with false by (symmetry; by apply Ascii.eqb_neq). lia.
    + lia.
Qed.

(** [QuoteLiteral] keeps literals apart, and in its text every single quote
    and every backslash of the literal stands twice: the quotes of the text
    are two for each quote of the literal and the two around it. *)
Theorem QuoteLiteral_faithful :
  (∀ a b, Mysql.QuoteLiteral a = Mysql.QuoteLiteral b → a = b)
  ∧ (∀ s, countByte "'" (Mysql.QuoteLiteral s) = (2 * countByte "'" s + 2)%nat
          ∧ countByte (ascii_of_nat 92) (Mysql.QuoteLiteral s)
            = (2 * countByte (ascii_of_nat 92) s)%nat).
Proof.
  split.
  - intros a b. unfold Mysql.QuoteLiteral, backslash.
    rewrite !strings_ReplaceAll_byte. change "'" with (String "'" "") at 1 3.
    rewrite !string_app_cons. change ("" +:+ ?s) with s. intros E.
    injection E as E. apply string_app_inv_tail in E.
    apply (replaceByte_double_inj "'") in E.
    by apply (replaceByte_double_inj (ascii_of_nat 92)) in E.
  - intros s. unfold Mysql.QuoteLiteral, backslash.
    rewrite !strings_ReplaceAll_byte, !countByte_app.
    change (String (ascii_of_nat 92) "" +:+ String (ascii_of_nat 92) "")
      with (String (ascii_of_nat 92) (String (ascii_of_nat 92) "")).
    rewrite !(replaceByte_double_count "'"), !(replaceByte_double_count (ascii_of_nat 92)).
    change (Ascii.eqb "'" "'") with true.
    change (Ascii.eqb (ascii_of_nat 92) (ascii_of_nat 92)) with true.
    change (Ascii.eqb (ascii_of_nat 92) "'") with false.
    change (Ascii.eqb "'" (ascii_of_nat 92)) with false.
    change (countByte "'" "'") with 1%nat.
    change (countByte (ascii_of_nat 92) "'") with 0%nat.
    cbv iota. lia.
Qed.

(** ** The comments in the DDL of MySQL *)

Lemma Replacer_without (s : string) :
  strings_Replacer_Replace [(";", ""); ("'", "")] s = withoutBytes [";"; "'"]%char s.
Proof.
  unfold strings_Replacer_Replace.
  induction s as [|x s IH]; [done|].
  cbn [replacer_scan replacer_find withoutBytes existsb].
  rewrite !prefix_byte.
  destruct (Ascii.eqb x ";"); [exact IH|].
  destruct (Ascii.eqb x "'"); [exact IH|].
  cbn. by rewrite IH.
Qed.

Lemma withoutBytes_count (bad : list ascii) (s : string) (c : ascii) :
  countByte c (withoutBytes bad s)
  = if existsb (Ascii.eqb c) bad then 0%nat else countByte c s.
Proof.
  induction s as [|x s IH]; cbn [withoutBytes countByte].
  - by destruct (existsb _ bad).
  - destruct (existsb (Ascii.eqb x) bad) eqn:Ex.
    + rewrite IH. destruct (existsb (Ascii.eqb c) bad) eqn:Ec; [done|].
      destruct (Ascii.eqb_spec x c) as [->|Hne]; [congruence|]. lia.
    + cbn [countByte]. rewrite IH.
      destruct (existsb (Ascii.eqb c) bad) eqn:Ec; [|done].
      destruct (Ascii.eqb_spec x c) as [->|Hne]; [congruence|]. lia.
Qed.

Section MysqlComments.
Context {DB : Type} `{!DbConn DB} `{!Helpers}.
Variable GetColumnType : Mysql.Column → string.

(** The comment of an index, of a column and of a table reaches the DDL
    between the quotes of [COMMENT '...'] without its semicolons and single
    quotes and otherwise byte for byte: each statement of [GenerateIndexDDL],
    the text of [genColumnBasicSql] for a column with a comment, and the last
    statement of [GenerateTableDDL] for a table with a comment end that way. *)
Theorem comments_sanitized :
  (∀ indexs tableInfo stmt,
     stmt ∈ Mysql.GenerateIndexDDL indexs tableInfo →
     ∃ index head,
       index ∈ indexs
       ∧ stmt = head +:+ "COMMENT '"
                +:+ withoutBytes [";"; "'"]%char (IndexComment index) +:+ "'")
  ∧ (∀ column,
       Mysql.ColumnComment column ≠ "" →
       ∃ head,
         Mysql.genColumnBasicSql GetColumnType column
         = head +:+ "COMMENT '"
           +:+ withoutBytes [";"; "'"]%char (Mysql.ColumnComment column) +:+ "'")
  ∧ (∀ columns tableInfo dropBeforeCreate,
       TableComment tableInfo ≠ "" →
       ∃ head,
         last (Mysql.GenerateTableDDL GetColumnType columns tableInfo dropBeforeCreate)
         = Some (head +:+ "COMMENT '"
                 +:+ withoutBytes [";"; "'"]%char (TableComment tableInfo) +:+ "'"))
  ∧ (∀ comment,
       countByte ";" (withoutBytes [";"; "'"]%char comment) = 0%nat
       ∧ countByte "'" (withoutBytes [";"; "'"]%char comment) = 0%nat).
Proof.
  split; [|split; [|split]].
  - intros indexs tableInfo stmt Hin. unfold Mysql.GenerateIndexDDL in Hin.
    apply list_elem_of_fmap in Hin as (index & -> & Hidx).
    exists index. eexists. split; [done|].
    rewrite Replacer_without.
    change (") USING BTREE COMMENT '") with (") USING BTREE " +:+ "COMMENT '").
    rewrite <- !string_app_assoc. reflexivity.
  - intros column Hc. unfold Mysql.genColumnBasicSql.
    replace (Mysql.ColumnComment column =? "")%string with false
      by (symmetry; by apply String.eqb_neq).
    cbn [negb]. rewrite Replacer_without. eexists.
    change (" COMMENT '") with (" " +:+ "COMMENT '").
    rewrite <- !string_app_assoc. reflexivity.
  - intros columns tableInfo dropBeforeCreate Hc. unfold Mysql.GenerateTableDDL.
    replace (TableComment tableInfo =? "")%string with false
      by (symmetry; by apply String.eqb_neq).
    cbn [negb]. rewrite last_snoc, Replacer_without. eexists.
    change (" COMMENT '") with (" " +:+ "COMMENT '").
    rewrite <- !string_app_assoc. reflexivity.
  - intros comment. by rewrite !withoutBytes_count.
Qed.
End MysqlComments.

Section MysqlCommentsScenario.
Local Existing Instances Demo.conn Demo.helpers.

(** The witness: the table comment [it's; a table]. *)
Lemma comments_sanitized_witness :
  last (Mysql.GenerateTableDDL Demo.columnType []
          (mkTable "t" "it's; a table" "" 0 0 0) false)
  = Some ("CREATE TABLE [t] (" +:+ nl +:+ ") ENGINE=InnoDB DEFAULT CHARSET=utf8mb4  "
          +:+ "COMMENT '" +:+ "its a table" +:+ "'").
Proof.
  destruct (comments_sanitized Demo.columnType) as (_ & _ & Htable & _).
  destruct (Htable [] (mkTable "t" "it's; a table" "" 0 0 0) false) as [head Hlast];
    [done|].
  rewrite Hlast. by vm_compute in Hlast |- *.
Defined.
End MysqlCommentsScenario.

(** ** The DDL of a MySQL table: the lookups *)

Section MysqlDdl.
Context {DB : Type} `{!DbConn DB} `{!Helpers}.
Variable GetColumnType : Mysql.Column → string.

(** [GetTables] returns no table with every error, so [GetTableDDL] never
    returns the error of its table lookup: its branch for a failed lookup
    asks for an error together with tables, and a failed lookup ends in the
    panic on [tbs[0]]. *)
Theorem mysql_GetTableDDL_lookup_error (tableName : string) (w w1 : World DB)
    (tbs : list Table) (e : err) :
  Mysql.GetTables [tableName] w = (Ret (tbs, Some e), w1) →
  tbs = []
  ∧ Mysql.GetTableDDL GetColumnType tableName w = (Panic (IndexOutOfRange 0 0), w1).
Proof.
  intros Ht.
  assert (tbs = []) as ->.
  { unfold Mysql.GetTables in Ht.
    destruct (stringx_TemplateParse _ _) as [sql [e1|]];
      [rewrite run_ret in Ht; by simplify_eq|].
    rewrite (run_bind_ret _ _ _ _ _ (run_Query _ _ _)) in Ht.
    destruct (dcQuery sql [] (wdb w)).1 as [res [e2|]];
      rewrite run_ret in Ht; by simplify_eq. }
  split; [done|]. unfold Mysql.GetTableDDL.
  by rewrite (run_bind_ret _ _ _ _ _ Ht).
Qed.

(** Once the table is found, [GetTableDDL] reads the columns and then the
    indexes. A failed column lookup is logged and returned and the indexes
    are not read; a failed index lookup is logged and returned; and when both
    succeed the text is the statements of [GenerateTableDDL] (without a
    [DROP]) and of [GenerateIndexDDL], joined by a semicolon and a line
    feed, for the name and the comment of the first table found. *)
Theorem mysql_GetTableDDL_flow (tableName : string) (w w1 : World DB)
    (tb : Table) (tbs : list Table) :
  Mysql.GetTables [tableName] w = (Ret (tb :: tbs, None), w1) →
  let tableInfo := mkTable (TableName tb) (TableComment tb) "" 0 0 0 in
  (∀ cols e w2,
     Mysql.GetColumns [tableName] w1 = (Ret (cols, Some e), w2) →
     Mysql.GetTableDDL GetColumnType tableName w
     = (Ret ("", Some e),
        mkWorld (wdb w2) (wtrace w2 ++ [EvLogError ("获取列信息失败, " +:+ tableName)])))
  ∧ (∀ cols w2 indexs e w3,
       Mysql.GetColumns [tableName] w1 = (Ret (cols, None), w2) →
       Mysql.GetTableIndex tableName w2 = (Ret (indexs, Some e), w3) →
       Mysql.GetTableDDL GetColumnType tableName w
       = (Ret ("", Some e),
          mkWorld (wdb w3) (wtrace w3 ++ [EvLogError ("获取索引信息失败, " +:+ tableName)])))
  ∧ (∀ cols w2 indexs w3,
       Mysql.GetColumns [tableName] w1 = (Ret (cols, None), w2) →
       Mysql.GetTableIndex tableName w2 = (Ret (indexs, None), w3) →
       Mysql.GetTableDDL GetColumnType tableName w
       = (Ret (strings_Join
                 (Mysql.GenerateTableDDL GetColumnType cols tableInfo false
                  ++ Mysql.GenerateIndexDDL indexs tableInfo)
                 (";" +:+ nl), None), w3)).
Proof.
  intros Ht tableInfo.
  assert (∀ k : Table → M DB (string * error),
            (tb0 ← slice_index (tb :: tbs) 0; k tb0) w1 = k tb w1) as Hidx by done.
  split; [|split].
  - intros cols e w2 Hc. unfold Mysql.GetTableDDL.
    rewrite (run_bind_ret _ _ _ _ _ Ht). cbn [andb bool_decide decide_rel].
    rewrite bool_decide_eq_false_2 by (intros Hn; by apply Hn).
    cbn [andb]. rewrite Hidx, Hidx.
    by rewrite (run_bind_ret _ _ _ _ _ Hc).
  - intros cols w2 indexs e w3 Hc Hi. unfold Mysql.GetTableDDL.
    rewrite (run_bind_ret _ _ _ _ _ Ht).
    rewrite bool_decide_eq_false_2 by (intros Hn; by apply Hn).
    cbn [andb]. rewrite Hidx, Hidx.
    rewrite (run_bind_ret _ _ _ _ _ Hc).
    by rewrite (run_bind_ret _ _ _ _ _ Hi).
  - intros cols w2 indexs w3 Hc Hi. unfold Mysql.GetTableDDL.
    rewrite (run_bind_ret _ _ _ _ _ Ht).
    rewrite bool_decide_eq_false_2 by (intros Hn; by apply Hn).
    cbn [andb]. rewrite Hidx, Hidx.
    rewrite (run_bind_ret _ _ _ _ _ Hc).
    by rewrite (run_bind_ret _ _ _ _ _ Hi).
Qed.
End MysqlDdl.

Section MysqlDdlScenario.
Local Existing Instances Demo.conn Demo.helpers.

(** The witness of the lost error: the table lookup fails. *)
Lemma mysql_GetTableDDL_lookup_error_witness :
  (Mysql.GetTableDDL Demo.columnType "t" (Demo.start DdlExamples.tablesUnavailable)).1
  = Panic (IndexOutOfRange 0 0).
Proof.
  destruct (mysql_GetTableDDL_lookup_error Demo.columnType "t"
              (Demo.start DdlExamples.tablesUnavailable)
              (Mysql.GetTables ["t"] (Demo.start DdlExamples.tablesUnavailable)).2
              [] (errors_New "connection lost")) as [_ ->]; [by vm_compute|].
  done.
Defined.

(** The witness of the flow: the table is found and its columns are not. *)
Lemma mysql_GetTableDDL_flow_witness :
  observe (Mysql.GetTableDDL Demo.columnType "t" (Demo.start DdlExamples.columnsFail))
  = (Ret ("", Some (errors_New "connection lost")),
     [EvQuery "MYSQL_TABLE_INFO 't'" []; EvQuery "MYSQL_COLUMN_MA 't'" [];
      EvLogError "获取列信息失败, t"]).
Proof.
  destruct (mysql_GetTableDDL_flow Demo.columnType "t"
              (Demo.start DdlExamples.columnsFail)
              (Mysql.GetTables ["t"] (Demo.start DdlExamples.columnsFail)).2
              (Mysql.tableOfRow DdlExamples.tableRow) []) as [Hcols _]; [by vm_compute|].
  rewrite (Hcols [] (errors_New "connection lost")
             (Mysql.GetColumns ["t"]
                (Mysql.GetTables ["t"] (Demo.start DdlExamples.columnsFail)).2).2);
    by vm_compute.
Defined.
End MysqlDdlScenario.

(** ** The coarse kind of a column type *)

Lemma regexp_MatchString_here (words : list string) (word s : string) :
  word ∈ words → wordAt word s = true → regexp_MatchString words s = true.
Proof.
  intros Hin Hat.
  assert (existsb (λ word, wordAt word s) words = true) as Hex.
  { apply existsb_exists. exists word. split; [by apply list_elem_of_In | done]. }
  destruct s; cbn [regexp_MatchString]; by rewrite Hex.
Qed.

Lemma regexp_MatchString_later (words : list string) (a s : string) :
  regexp_MatchString words s = true → regexp_MatchString words (a +:+ s) = true.
Proof.
  intros Hs. induction a as [|x a IH]; [done|].
  rewrite string_app_cons. cbn [regexp_MatchString]. rewrite IH. apply orb_true_r.
Qed.

(** In either driver a column type that contains one of the number words
    ([int], [double], [float], [number], [decimal], [byte], [bit]) anywhere
    is of kind Number: the words are searched as parts of the name, before
    the date and time words. *)
Theorem GetDataType_number_word (a b word : string) :
  word ∈ numberRegexp →
  Mssql.GetDataType (a +:+ word +:+ b) = DataTypeNumber
  ∧ Mysql.GetDataType (a +:+ word +:+ b) = DataTypeNumber.
Proof.
  intros Hin.
  assert (regexp_MatchString numberRegexp (a +:+ word +:+ b) = true) as Hm.
  { apply regexp_MatchString_later, (regexp_MatchString_here _ word); [done|].
    unfold numberRegexp in Hin.
    repeat (apply elem_of_cons in Hin as [->|Hin]); try reflexivity.
    by apply elem_of_nil in Hin. }
  unfold Mssql.GetDataType, Mysql.GetDataType. by rewrite Hm.
Qed.

(** The witness: the MySQL type [point] and the type [datetime interval]
    are numbers to the converter. *)
Lemma GetDataType_number_word_witness :
  Mysql.GetDataType "point" = DataTypeNumber
  ∧ Mssql.GetDataType "datetime interval" = DataTypeNumber.
Proof.
  split.
  - apply (GetDataType_number_word "po" "" "int"). set_solver.
  - apply (GetDataType_number_word "datetime " "erval" "int"). set_solver.
Defined.

Section KindRoundTrip.
Variable CommonType : CommonTypeName → string.
Hypothesis CommonType_inj : Inj (=) (=) CommonType.

(** The coarse kind survives the type round trip of MySQL: for every native
    type of [commonColumnTypeMap], the native type that [mysqlColumnTypeMap]
    gives for its canonical type is of the same kind under [GetDataType]. *)
Theorem GetDataType_round_trip (native canonical native' : string) :
  Mysql.commonColumnTypeMap CommonType !! native = Some canonical →
  Mysql.mysqlColumnTypeMap CommonType !! canonical = Some native' →
  Mysql.GetDataType native' = Mysql.GetDataType native.
Proof.
  intros H H'. apply elem_of_list_to_map_2 in H.
  unfold Mysql.mysqlColumnTypeMap in H'.
  repeat (apply elem_of_cons in H as [H|H]);
    try (by apply elem_of_nil in H);
    injection H as -> ->;
    rewrite (lookup_entries CommonType CommonType_inj) in H';
    injection H' as <-; reflexivity.
Qed.
End KindRoundTrip.

(** The witness: [double] comes back as [decimal], a number like it. *)
Lemma GetDataType_round_trip_witness :
  Mysql.GetDataType "decimal" = Mysql.GetDataType "double".
Proof.
  apply (GetDataType_round_trip Demo.commonType Demo_commonType_inj
           "double" "number" "decimal"); by vm_compute.
Defined.

(** ** The account repository *)

Section AccountRepo.
Variables PageParam Entity PageResult : Type.
Variable model_GetPageBySql : string → PageParam → Entity → PageResult.

(** [GetPageList] puts the user name into the statement as it is, between
    the quotes of the [LIKE] pattern: the statement has the single quotes of
    the name and the two of the pattern, so a quote in the name is a quote of
    the statement. The [orderBy] arguments are not used. *)
Theorem GetPageList_username_verbatim (condition : Persistence.Account)
    (pageParam : PageParam) (toEntity : Entity) (orderBy : list string) :
  Persistence.Username condition ≠ "" →
  let sql := "SELECT * FROM t_sys_account  WHERE username LIKE '%"
             +:+ Persistence.Username condition +:+ "%'" in
  Persistence.GetPageList PageParam Entity PageResult model_GetPageBySql
    condition pageParam toEntity orderBy
  = model_GetPageBySql sql pageParam toEntity
  ∧ countByte "'" sql = (countByte "'" (Persistence.Username condition) + 2)%nat.
Proof.
  intros Hname sql. split.
  - unfold Persistence.GetPageList, Persistence.pageSql.
    replace (Persistence.Username condition =? "")%string with false
      by (symmetry; by apply String.eqb_neq).
    cbn [negb]. reflexivity.
  - unfold sql. rewrite !countByte_app.
    change (countByte "'" "SELECT * FROM t_sys_account  WHERE username LIKE '%")
      with 1%nat.
    change (countByte "'" "%'") with 1%nat. lia.
Qed.
End AccountRepo.

(** The witness: a name with a quote, on a page source that returns the
    statement it is given. *)
Lemma GetPageList_username_verbatim_witness :
  Persistence.GetPageList unit unit string (λ sql _ _, sql)
    (Persistence.mkAccount "x' OR '1'='1") () () ["id"]
  = "SELECT * FROM t_sys_account  WHERE username LIKE '%x' OR '1'='1%'".
Proof.
  destruct (GetPageList_username_verbatim unit unit string (λ sql _ _, sql)
              (Persistence.mkAccount "x' OR '1'='1") () () ["id"]) as [-> _]; done.
Defined.

(** ** The handlers of the tag tree *)

(** The first part of a split is the string up to the first separator. *)
Lemma split_scan_head (c : ascii) (s cur : string) :
  ∃ rest, split_scan (String c "") s 0 cur = (cur +:+ upTo c s) :: rest.
Proof.
  revert cur. induction s as [|x s IH]; intros cur.
  - exists []. cbn [upTo split_scan]. by rewrite string_app_nil_r.
  - rewrite split_scan_byte. cbn [upTo]. destruct (Ascii.eqb x c).
    + eexists. by rewrite string_app_nil_r.
    + destruct (IH (cur +:+ String x "")) as [rest ->]. exists rest.
      by rewrite string_app_snoc.
Qed.

(** A prefix that holds the byte ends its first part where the whole
    string does. *)
Lemma prefix_upTo (c : ascii) (p q : string) :
  String.prefix p q = true → (0 < countByte c p)%nat → upTo c p = upTo c q.
Proof.
  revert q. induction p as [|x p IH]; intros [|y q] Hpre Hc;
    cbn [countByte] in Hc; try lia; cbn [String.prefix] in Hpre; [done|].
  destruct (ascii_dec x y) as [->|]; [|done]. cbn [upTo].
  destruct (Ascii.eqb y c); [done|]. f_equal. by apply IH.
Qed.

Lemma rootOf_upTo (sep path : string) :
  TagApi.rootOf sep path = Some (upTo "/" path +:+ sep).
Proof.
  unfold TagApi.rootOf.
  change (strings_Split path "/") with (split_scan "/" path 0 "").
  by destruct (split_scan_head "/" path "") as [rest ->].
Qed.

(** The first loop never fails; it adds every path to the list of its
    root, in the order of the paths. *)
Lemma groupByRoot_spec (sep : string) (paths : list string)
    (m0 : gmap string (list string)) :
  ∃ m, TagApi.groupByRoot sep paths m0 = Some m
     ∧ (∀ r, default [] (m !! r)
             = default [] (m0 !! r) ++ filter (λ p, upTo "/" p +:+ sep = r) paths)
     ∧ (∀ r, is_Some (m !! r)
             ↔ is_Some (m0 !! r) ∨ ∃ p, p ∈ paths ∧ upTo "/" p +:+ sep = r).
Proof.
  revert m0. induction paths as [|p paths IH]; intros m0.
  - exists m0. split; [done|]. split; intros r.
    + by rewrite filter_nil, app_nil_r.
    + split; [by left|]. intros [H|(p & Hp & _)]; [done|]. by apply elem_of_nil in Hp.
  - cbn [TagApi.groupByRoot]. rewrite rootOf_upTo. cbn [mbind option_bind].
    destruct (IH (<[upTo "/" p +:+ sep
                    := default [] (m0 !! (upTo "/" p +:+ sep)) ++ [p]]> m0))
      as (m & -> & Hlist & Hkeys).
    exists m. split; [done|]. split; intros r.
    + rewrite Hlist. destruct (decide (upTo "/" p +:+ sep = r)) as [<-|Hne].
      * rewrite lookup_insert_eq, filter_cons_True by done. cbn [default id].
        by rewrite <- (assoc_L (++)).
      * rewrite lookup_insert_ne by done. by rewrite filter_cons_False by done.
    + rewrite Hkeys, lookup_insert_is_Some'. split.
      * intros [[<-|H]|(q & Hq & <-)]; [right; exists p|by left|right; exists q];
          (split; [|done]); apply elem_of_cons; auto.
      * intros [H|(q & Hq & <-)]; [by left; right|].
        apply elem_of_cons in Hq as [->|Hq]; [by left; left|].
        right. by exists q.
Qed.

(** The test of the inner loop over the paths of a root is the test
    [shown] over all the paths of the account. *)
Lemma existsb_root_shown (sep tagPath : string) (owned : list string) :
  existsb (TagApi.related tagPath)
          (filter (λ p, upTo "/" p +:+ sep = upTo "/" tagPath +:+ sep) owned)
  = shown owned tagPath.
Proof.
  unfold shown. induction owned as [|p owned IH]; [done|]. cbn [existsb].
  destruct (decide (upTo "/" p = upTo "/" tagPath)) as [E|Hne].
  - rewrite filter_cons_True by congruence.
    rewrite bool_decide_true by done. cbn [existsb andb]. by rewrite IH.
  - rewrite filter_cons_False by (intros E; by apply string_app_inv_tail in E).
    rewrite bool_decide_false by done. cbn [andb orb]. apply IH.
Qed.

(** The second loop never fails; it keeps the shown tags in their order. *)
Lemma keepRelated_spec {TagTree : Type} (CodePath : TagTree → string)
    (sep : string) (owned : list string) (rootTag : gmap string (list string))
    (tags tagTrees : list TagTree) :
  (∀ r, default [] (rootTag !! r) = filter (λ p, upTo "/" p +:+ sep = r) owned) →
  TagApi.keepRelated TagTree CodePath sep tags rootTag tagTrees
  = Some (tagTrees ++ filter (λ tag, shown owned (CodePath tag)) tags).
Proof.
  intros Hroot. revert tagTrees. induction tags as [|tag tags IH]; intros tagTrees.
  - by rewrite filter_nil, app_nil_r.
  - cbn [TagApi.keepRelated]. rewrite rootOf_upTo. cbn [mbind option_bind].
    rewrite Hroot, existsb_root_shown.
    destruct (shown owned (CodePath tag)) eqn:E.
    + rewrite IH, filter_cons_True by (by apply Is_true_true_2).
      by rewrite <- (assoc_L (++)).
    + by rewrite IH, filter_cons_False by (by apply Is_true_false_2).
Qed.

(** Paths that hold a slash and begin one with the other have one root. *)
Lemma shown_related (owned : list string) (tagPath : string) :
  hasSlash tagPath → Forall hasSlash owned →
  shown owned tagPath = existsb (TagApi.related tagPath) owned.
Proof.
  intros Ht Ho. unfold shown. induction Ho as [|p owned Hp _ IH]; [done|].
  cbn [existsb]. rewrite IH. f_equal.
  destruct (TagApi.related tagPath p) eqn:E; [|by rewrite andb_false_r].
  rewrite bool_decide_true; [done|].
  unfold TagApi.related, strings_HasPrefix in E.
  apply orb_true_iff in E as [E|E].
  - by apply prefix_upTo.
  - symmetry. by apply prefix_upTo.
Qed.

(** Two tests that agree on a list keep the same elements of it. *)
Lemma filter_agree {A : Type} (f g : A → bool) (P : A → Prop) (l : list A) :
  Forall P l → (∀ x, P x → f x = g x) → filter (λ x, f x) l = filter (λ x, g x) l.
Proof.
  intros Hl Hfg. induction Hl as [|x l Hx _ IH]; [done|].
  rewrite !filter_cons, IH, (Hfg x Hx). done.
Qed.

(** The keys of a map, in any order, sorted: an increasing list without
    doubles of the keys. *)
Lemma sort_keys {V : Type} (m : gmap string V) (keys : list string) :
  keys ≡ₚ (map_to_list m).*1 →
  StronglySorted String.le (TagApi.sort_Strings keys)
  ∧ NoDup (TagApi.sort_Strings keys)
  ∧ ∀ k, k ∈ TagApi.sort_Strings keys ↔ is_Some (m !! k).
Proof.
  intros Hkeys. unfold TagApi.sort_Strings.
  pose proof (merge_sort_Permutation String.le keys) as Hsort.
  split; [apply (StronglySorted_merge_sort _)|]. split.
  - rewrite Hsort, Hkeys. apply NoDup_fst_map_to_list.
  - intros k. rewrite Hsort, Hkeys, list_elem_of_fmap. split.
    + intros ([k' v] & -> & Hin). apply elem_of_map_to_list in Hin. by exists v.
    + intros [v Hv]. exists (k, v). split; [done|]. by apply elem_of_map_to_list.
Qed.

Section TagHandlers.
Variables TagTree TagType Trees : Type.
Variable CodePath : TagTree → string.
Variable GetTagPath : TagTree → string.
Variable TagType_of_int : Z → TagType.
Variable TagType_of_int8 : Z → TagType.
Variable ToTrees : list TagTree → Z → Trees.
Variable AdminId : Z.
Variable CodePathSeparator : string.
Variable ListByQuery : TagApi.TagTreeQuery TagType → list TagTree.
Variable ListTagByAccountId : Z → list string.
Variable GetAccountTags : Z → TagApi.TagTreeQuery TagType → list TagTree.
Variable collx_MapKeys : ∀ V : Type, gmap string V → list string.
Variable collx_ArrayToMap : list TagTree → (TagTree → string) → gmap string TagTree.

(** The tags of an account that is not the administrator: the roots of its
    paths are the keys of the query, and the shown tags of the answer are
    kept. *)
Lemma accountTagTrees_spec (loginId : Z) (tagType : TagType) :
  ∃ rootTag : gmap string (list string),
    (∀ r, is_Some (rootTag !! r)
          ↔ ∃ p, p ∈ ListTagByAccountId loginId ∧ upTo "/" p +:+ CodePathSeparator = r)
    ∧ TagApi.accountTagTrees TagTree TagType CodePath CodePathSeparator
        ListByQuery ListTagByAccountId collx_MapKeys loginId tagType
      = Some (filter (λ tag, shown (ListTagByAccountId loginId) (CodePath tag))
                (ListByQuery (TagApi.mkQuery TagType tagType
                                (collx_MapKeys _ rootTag) []))).
Proof.
  unfold TagApi.accountTagTrees.
  destruct (groupByRoot_spec CodePathSeparator (ListTagByAccountId loginId) ∅)
    as (rootTag & -> & Hlist & Hkeys).
  exists rootTag. split.
  - intros r. rewrite Hkeys, lookup_empty. split; [|by right].
    intros [H|H]; [by destruct H|done].
  - cbn [mbind option_bind].
    rewrite (keepRelated_spec CodePath CodePathSeparator (ListTagByAccountId loginId)).
    + done.
    + intros r. by rewrite Hlist, lookup_empty.
Qed.

(** [GetTagTree] for an account: for an account other than the administrator
    the handler never fails on the index of the split. It asks for the tags
    under the roots of the account's paths, each root once, and answers with
    the trees of the shown tags of the answer, in their order. *)
Theorem GetTagTree_account (loginId type : Z) :
  loginId ≠ AdminId →
  ∃ rootTag : gmap string (list string),
    (∀ r, is_Some (rootTag !! r)
          ↔ ∃ p, p ∈ ListTagByAccountId loginId ∧ upTo "/" p +:+ CodePathSeparator = r)
    ∧ TagApi.GetTagTree TagTree TagType Trees CodePath TagType_of_int ToTrees
        AdminId CodePathSeparator ListByQuery ListTagByAccountId collx_MapKeys
        loginId type
      = Some (ToTrees
                (filter (λ tag, shown (ListTagByAccountId loginId) (CodePath tag))
                   (ListByQuery (TagApi.mkQuery TagType (TagType_of_int type)
                                   (collx_MapKeys _ rootTag) [])))
                0).
Proof.
  intros Hadmin.
  destruct (accountTagTrees_spec loginId (TagType_of_int type)) as (rootTag & Hkeys & E).
  exists rootTag. split; [done|].
  unfold TagApi.GetTagTree. rewrite bool_decide_false by done.
  by rewrite E.
Qed.

(** [GetTagTree] on paths with slashes: when the paths of the account and the paths of
    the tags all hold a slash, the grouping by roots changes nothing: the
    tags of the answer are those whose path begins with a path of the
    account or begins one. *)
Theorem GetTagTree_related_only (loginId type : Z) :
  loginId ≠ AdminId →
  Forall hasSlash (ListTagByAccountId loginId) →
  (∀ q, Forall (λ tag, hasSlash (CodePath tag)) (ListByQuery q)) →
  ∃ likes : list string,
    TagApi.GetTagTree TagTree TagType Trees CodePath TagType_of_int ToTrees
      AdminId CodePathSeparator ListByQuery ListTagByAccountId collx_MapKeys
      loginId type
    = Some (ToTrees
              (filter (λ tag, existsb (TagApi.related (CodePath tag))
                                (ListTagByAccountId loginId))
                 (ListByQuery (TagApi.mkQuery TagType (TagType_of_int type) likes [])))
              0).
Proof.
  intros Hadmin Howned Htags.
  destruct (accountTagTrees_spec loginId (TagType_of_int type)) as (rootTag & _ & E).
  exists (collx_MapKeys _ rootTag).
  unfold TagApi.GetTagTree. rewrite bool_decide_false by done.
  rewrite E. cbn [mbind option_bind]. do 2 f_equal.
  apply (filter_agree _ _ _ _ (Htags _)).
  intros tag Htag. by apply shown_related.
Qed.

(** [TagResources]: when [collx.MapKeys] lists the keys of a map in some
    order and [collx.ArrayToMap] has a key for exactly the paths of the
    tags, the answer is the increasing list, without doubles, of the paths
    of the account's tags; the order of the keys plays no part. *)
Theorem TagResources_sorted (rtype accountId : Z) :
  (∀ V (m : gmap string V), collx_MapKeys V m ≡ₚ (map_to_list m).*1) →
  (∀ arr f k, is_Some (collx_ArrayToMap arr f !! k) ↔ k ∈ f <$> arr) →
  let tags := GetAccountTags accountId
                (TagApi.mkQuery TagType (TagType_of_int8 (TagApi.int8 rtype)) [] []) in
  let paths := TagApi.TagResources TagTree TagType GetTagPath TagType_of_int8
                 GetAccountTags collx_MapKeys collx_ArrayToMap rtype accountId in
  StronglySorted String.le paths ∧ NoDup paths
  ∧ ∀ p, p ∈ paths ↔ p ∈ GetTagPath <$> tags.
Proof.
  intros Hkeys Hmap tags paths.
  destruct (sort_keys (collx_ArrayToMap tags GetTagPath)
              (collx_MapKeys _ (collx_ArrayToMap tags GetTagPath)) (Hkeys _ _))
    as (Hsorted & Hnodup & Hin).
  split; [done|]. split; [done|].
  intros p. unfold paths, TagApi.TagResources. fold tags. by rewrite Hin, Hmap.
Qed.

(** [TagResources] and its parameter: the path parameter is cut to eight bits, so
    two values that differ by a multiple of 256 give one answer. *)
Theorem TagResources_rtype_wraps (rtype k accountId : Z) :
  TagApi.TagResources TagTree TagType GetTagPath TagType_of_int8
    GetAccountTags collx_MapKeys collx_ArrayToMap (rtype + 256 * k) accountId
  = TagApi.TagResources TagTree TagType GetTagPath TagType_of_int8
      GetAccountTags collx_MapKeys collx_ArrayToMap rtype accountId.
Proof.
  unfold TagApi.TagResources, TagApi.int8.
  replace (rtype + 256 * k + 128) with (rtype + 128 + k * 256) by lia.
  by rewrite Z.mod_add.
Qed.

(** The handler [ListByQuery]: the query always holds code paths, one more than the
    commas of the parameter, none with a comma, and joined by commas they
    are the parameter; an empty parameter gives the one empty path. *)
Theorem ListByQuery_code_paths (tagPaths : string) :
  ∃ paths : list string,
    TagApi.ListByQueryHandler TagTree TagType TagType_of_int ListByQuery tagPaths
    = ListByQuery (TagApi.mkQuery TagType (TagType_of_int 0) [] paths)
    ∧ length paths = S (countByte "," tagPaths)
    ∧ strings_Join paths "," = tagPaths
    ∧ Forall (λ p, countByte "," p = 0%nat) paths.
Proof.
  exists (strings_Split tagPaths ","). split; [done|].
  split; [apply strings_Split_length|]. split; [apply strings_Split_Join|].
  apply Forall_forall. intros p Hp. by apply (split_scan_parts "," tagPaths "").
Qed.
End TagHandlers.

(** The witnesses: tags given by their paths, the account 2 beside the
    administrator 1. *)
Lemma GetTagTree_account_witness :
  TagApi.GetTagTree string Z (list string) id id (λ l _, l) 1 "/"
    TagExamples.allTags TagExamples.owned TagExamples.mapKeys 2 0
  = Some ["db/"; "db/prod/"; "db/prod/one/"; "app/"].
Proof.
  destruct (GetTagTree_account string Z (list string) id id (λ l _, l) 1 "/"
              TagExamples.allTags TagExamples.owned TagExamples.mapKeys 2 0
              ltac:(lia)) as (rootTag & _ & ->).
  by vm_compute.
Defined.

Lemma GetTagTree_related_only_witness :
  TagApi.GetTagTree string Z (list string) id id (λ l _, l) 1 "/"
    TagExamples.allTags TagExamples.owned TagExamples.mapKeys 2 0
  = Some (filter (λ tag, existsb (TagApi.related tag) ["db/prod/"; "app/web/"])
            ["db/"; "db/prod/"; "db/prod/one/"; "db/test/"; "app/"; "ops/"]).
Proof.
  assert (∀ l, Forall (λ p, (0 <? countByte "/" p)%nat = true) l → Forall hasSlash l)
    as Hslash.
  { intros l Hl. eapply Forall_impl; [exact Hl|]. intros p. apply Nat.ltb_lt. }
  destruct (GetTagTree_related_only string Z (list string) id id (λ l _, l) 1 "/"
              TagExamples.allTags TagExamples.owned TagExamples.mapKeys 2 0)
    as (likes & ->).
  - lia.
  - apply Hslash. by repeat constructor.
  - intros q. apply Hslash. by repeat constructor.
  - done.
Defined.

Lemma arrayToMap_keys (arr : list string) (f : string → string) (k : string) :
  is_Some (TagExamples.arrayToMap arr f !! k) ↔ k ∈ f <$> arr.
Proof.
  unfold TagExamples.arrayToMap. induction arr as [|x arr IH].
  - rewrite !fmap_nil. change (list_to_map []) with (∅ : gmap string string).
    rewrite lookup_empty. split; [by intros []|]. intros H. by apply elem_of_nil in H.
  - rewrite !fmap_cons. cbn [list_to_map foldr fst snd uncurry].
    rewrite lookup_insert_is_Some', elem_of_cons, IH. split; intros [H|H]; auto.
Qed.

Lemma TagResources_sorted_witness :
  let paths := TagApi.TagResources string Z id id TagExamples.accountTags
                 TagExamples.mapKeys TagExamples.arrayToMap 3 7 in
  StronglySorted String.le paths ∧ NoDup paths
  ∧ ∀ p, p ∈ paths ↔ p ∈ ["db/prod/"; "app/"; "db/prod/"].
Proof.
  apply (TagResources_sorted string Z id id TagExamples.accountTags
           TagExamples.mapKeys TagExamples.arrayToMap 3 7).
  - done.
  - apply arrayToMap_keys.
Defined.
